(** * FAKEHACK: the reward and ledger engine

    A shallow embedding of the coin economy of the application:
    [services/achievements.js], [services/featureProgress.js],
    [routes/coins.js] and the coin transfer of the direct-message route
    ([POST /dm/send]).

    Modelling conventions.
    - A MongoDB collection with its unique [_id] index is a finite map
      from ids to documents; the ledger ([CoinTransaction]) is a list in
      creation order.
    - Coin amounts, levels, stat counters and timestamps are JavaScript
      numbers, that is binary64 values; the model covers those that hold
      integers and keeps each as its value in [Z]. What a handler adds,
      subtracts or multiplies is rounded as JavaScript rounds it
      ([Js.add], [Js.sub], [Js.mul]), so that it is exact only below
      2^53; what the database increments ([$inc]) is exact, as on the
      integers of the data model. The [Number.isFinite] tests of the
      handlers hold by typing.
    - Strings are kept in UTF-8; their lengths and cuts count UTF-16 code
      units, as JavaScript does.
    - Every request is run to completion before the next one starts
      (sequential semantics); the clock ([Date.now()], [new Date()]) is read
      once per request and is an input of each operation.
    - Property reads [obj[key]] on a plain object follow the prototype
      chain: a key that is not an own property may still resolve to a
      member of [Object.prototype].
    - The rate limiters, the session store, the last-seen bookkeeping of
      [loadUser], the audit log and the response bodies are left out: they
      neither read nor write balances, achievements, counters or the
      ledger. *)

From Stdlib Require Import ZArith String Ascii List Lia DecimalString.
From stdpp Require Import gmap strings list fin_maps.
Import ListNotations.

Local Open Scope string_scope.
Local Open Scope Z_scope.

(** ** JavaScript helpers *)

Module Js.

(** *** Strings

    A string is the sequence of its UTF-16 code units. It is kept here in
    UTF-8, a surrogate without its partner (what a cut through a pair
    leaves) in the three bytes of the same scheme. *)

Definition byte (a : ascii) : N := N_of_ascii a.

(** A byte that continues a character. *)
Definition is_cont (a : ascii) : bool :=
  (128 <=? byte a)%N && (byte a <? 192)%N.

(** The code units of the character a byte opens: two for the four-byte
    characters (above U+FFFF), none for a continuation byte. *)
Definition units (a : ascii) : nat :=
  if is_cont a then 0%nat
  else if (byte a <? 240)%N then 1%nat else 2%nat.

(** [s.length] *)
Fixpoint length (s : string) : nat :=
  match s with
  | EmptyString => 0%nat
  | String a s' => (units a + length s')%nat
  end.

(** The first code unit of the four-byte character [a s]: its high
    surrogate. *)
Definition highSurrogate (a : ascii) (s : string) : string :=
  match s with
  | String b (String c _) =>
      let x := ((byte a mod 8) * 256 + (byte b mod 64) * 4
                + (byte c mod 64) / 16 - 64)%N in
      let u := (55296 + x)%N in
      String (ascii_of_N 237)
        (String (ascii_of_N (128 + (u / 64) mod 64))
           (String (ascii_of_N (128 + u mod 64)) EmptyString))
  | _ => EmptyString
  end.

(** [s.slice(0, n)]: the first [n] code units. *)
Fixpoint slice0 (n : nat) (s : string) : string :=
  match s with
  | EmptyString => EmptyString
  | String a s' =>
      if (units a <=? n)%nat then String a (slice0 (n - units a) s')
      else if (n =? 1)%nat then highSurrogate a s'
      else EmptyString
  end.

(** White space and line terminators, which [String.prototype.trim]
    removes: TAB, LF, VT, FF, CR and SPACE; *)
Definition ws1 (a : ascii) : bool :=
  let n := byte a in
  ((9 <=? n)%N && (n <=? 13)%N) || (n =? 32)%N.

(** U+00A0; *)
Definition ws2 (a b : ascii) : bool :=
  (byte a =? 194)%N && (byte b =? 160)%N.

(** U+1680, U+2000 to U+200A, U+2028, U+2029, U+202F, U+205F, U+3000 and
    U+FEFF. *)
Definition ws3 (a b c : ascii) : bool :=
  let x := byte a in
  let y := byte b in
  let z := byte c in
  ((x =? 225)%N && (y =? 154)%N && (z =? 128)%N)
  || ((x =? 226)%N && (y =? 128)%N
      && (((128 <=? z)%N && (z <=? 138)%N)
          || (z =? 168)%N || (z =? 169)%N || (z =? 175)%N))
  || ((x =? 226)%N && (y =? 129)%N && (z =? 159)%N)
  || ((x =? 227)%N && (y =? 128)%N && (z =? 128)%N)
  || ((x =? 239)%N && (y =? 187)%N && (z =? 191)%N).

Fixpoint trimStart (s : string) : string :=
  match s with
  | String a s1 =>
      if ws1 a then trimStart s1
      else
        match s1 with
        | String b s2 =>
            if ws2 a b then trimStart s2
            else
              match s2 with
              | String c s3 => if ws3 a b c then trimStart s3 else s
              | EmptyString => s
              end
        | EmptyString => s
        end
  | EmptyString => EmptyString
  end.

(** Cuts where the rest is white space only. *)
Fixpoint trimEnd (s : string) : string :=
  match s with
  | String a s' =>
      if String.eqb (trimStart s) "" then EmptyString
      else String a (trimEnd s')
  | EmptyString => EmptyString
  end.

Definition trim (s : string) : string := trimEnd (trimStart s).


(** [s.includes(".")] *)
Fixpoint dotted (s : string) : bool :=
  match s with
  | EmptyString => false
  | String a s' => Ascii.eqb a "." || dotted s'
  end.

(** *** Numbers

    A number is a binary64 floating-point value. The numbers of the
    model are those with an integer value, each kept as that value; the
    result of an addition, subtraction or multiplication is the exact
    result rounded to the nearest binary64 value, ties to the even
    significand. Results beyond the binary64 range (about 1.8e308) are
    not capped. *)

(** Up to [safe], every integer is a binary64 value. *)
Definition safe : Z := 2 ^ 53.

Definition round (z : Z) : Z :=
  let a := Z.abs z in
  let e := Z.log2 a - 52 in
  if e <=? 0 then z
  else
    let q := a / 2 ^ e in
    let r := a mod 2 ^ e in
    let half := 2 ^ (e - 1) in
    let q' :=
      if r <? half then q
      else if half <? r then q + 1
      else if Z.even q then q else q + 1 in
    Z.sgn z * (q' * 2 ^ e).

Definition add (a b : Z) : Z := round (a + b).
Definition sub (a b : Z) : Z := round (a - b).
Definition mul (a b : Z) : Z := round (a * b).

(** The decimal digits of an integer. *)
Definition decimal (z : Z) : string := NilZero.string_of_int (Z.to_int z).

(** The candidates with [k] significant digits for the decimal of [x]:
    the multiples of [10^p] next to [x] that read back as [x], the closer
    one first, the one with the even last digit on a tie. *)
Definition candidate (x : Z) (k : nat) : option Z :=
  let p := Z.of_nat (String.length (decimal x)) - Z.of_nat k in
  if p <=? 0 then Some x
  else
    let lo := x / 10 ^ p * 10 ^ p in
    let hi := lo + 10 ^ p in
    let okLo := round lo =? x in
    let okHi := round hi =? x in
    if okLo && okHi then
      if x - lo <? hi - x then Some lo
      else if hi - x <? x - lo then Some hi
      else if Z.even (lo / 10 ^ p) then Some lo else Some hi
    else if okLo then Some lo
    else if okHi then Some hi
    else None.

(** The decimal with the fewest significant digits that reads back as
    [x] (seventeen always do). *)
Definition shortest (x : Z) : Z :=
  let fix go (ks : list nat) : Z :=
    match ks with
    | [] => x
    | k :: ks' => match candidate x k with Some v => v | None => go ks' end
    end in
  go (seq 1 17).

Fixpoint stripZeros (s : string) : string :=
  match s with
  | EmptyString => EmptyString
  | String a s' =>
      match stripZeros s' with
      | EmptyString => if Ascii.eqb a "0" then EmptyString else String a EmptyString
      | t => String a t
      end
  end.

(** The exponent form of a positive integer: ["1.5e+21"]. *)
Definition exponential (v : Z) : string :=
  let ds := decimal v in
  let e := decimal (Z.of_nat (String.length ds) - 1) in
  match stripZeros ds with
  | String d EmptyString => String d ("e+" +:+ e)
  | String d rest => String d ("." +:+ rest +:+ "e+" +:+ e)
  | EmptyString => "0"
  end.

(** [String(x)] and the rendering of a template literal, for [0 <= x]. *)
Definition showNat (x : Z) : string :=
  if x <? safe then decimal x
  else
    let v := shortest x in
    if v <? 10 ^ 21 then decimal v else exponential v.

Definition show (z : Z) : string :=
  if z <? 0 then "-" +:+ showNat (- z) else showNat z.

(** *** Objects *)

(** The property names every plain object inherits from
    [Object.prototype]. *)
Definition object_prototype_keys : list string :=
  [ "constructor"; "hasOwnProperty"; "isPrototypeOf";
    "propertyIsEnumerable"; "toLocaleString"; "toString"; "valueOf";
    "__proto__"; "__defineGetter__"; "__defineSetter__";
    "__lookupGetter__"; "__lookupSetter__" ].

Definition inherited (key : string) : bool :=
  existsb (String.eqb key) object_prototype_keys.

(** Result of [obj[key]] on an object literal whose own properties all
    hold values of type [A]. *)
Inductive prop (A : Type) : Type :=
| Own (a : A)
| Inherited
| Undefined.
Arguments Own {A} a.
Arguments Inherited {A}.
Arguments Undefined {A}.

Fixpoint own {A : Type} (o : list (string * A)) (key : string) : option A :=
  match o with
  | [] => None
  | (k, v) :: o' => if String.eqb k key then Some v else own o' key
  end.

Definition get {A : Type} (o : list (string * A)) (key : string) : prop A :=
  match own o key with
  | Some v => Own v
  | None => if inherited key then Inherited else Undefined
  end.

End Js.

(** ** Data model *)

Inductive Role : Type := RoleUser | RoleMod | RoleAdmin.

Definition is_admin (r : Role) : bool :=
  match r with RoleAdmin => true | _ => false end.

(** Modelled from the spec: [models/User.js] is not among the sources. The
    fields are those the handlers read and write; their types follow the
    Account of the data model (balance, role, level, bans, achievement
    set, awarded-milestone codes, achievement-point total, stat counters,
    unlock flags). *)
Record Bans : Type := mkBans {
  isBannedFromChat : bool;
  isBannedFromCoins : bool
}.

(** An element of [user.achievements]. A field is [None] when the pushed
    value was [undefined]. *)
Record Achievement : Type := mkAchievement {
  ach_code : option string;
  ach_title : option string;
  earnedAt : Z
}.

Record User : Type := mkUser {
  username : string;
  coins : Z;
  role : Role;
  level : Z;
  bans : Bans;
  achievements : list Achievement;
  awardedAchievements : list string;
  achievementPoints : Z;
  stats : gmap string Z;
  unlocks : gmap string bool
}.

(** Modelled from the spec: [models/CoinTransaction.js] is not among the
    sources. The fields are those the handlers pass to
    [CoinTransaction.create]; [createdAt], which [dailyLimitsOK] queries, is
    the creation timestamp of the LedgerEntry of the data model. *)
Inductive TxType : Type :=
| tx_transfer
| tx_achievement_reward
| tx_level_up
| tx_feature_purchase
| tx_admin_adjust
| tx_admin_set_role
| tx_admin_set_level
| tx_admin_set_bans.

Record CoinTransaction : Type := mkTx {
  type : TxType;
  fromUserId : option nat;
  fromUsername : option string;
  toUserId : option nat;
  toUsername : option string;
  amount : Z;
  description : string;
  createdAt : Z
}.

(** The fields [POST /dm/send] passes to [ChatMessage.create]. *)
Record ChatMessage : Type := mkMsg {
  msg_from : nat;
  msg_to : nat;
  msg_text : string;
  msg_imageUrl : string;
  coinsSent : Z
}.

Record Store : Type := mkStore {
  users : gmap nat User;
  ledger : list CoinTransaction;
  messages : list ChatMessage
}.

#[global] Instance TxType_eq_dec : EqDecision TxType.
Proof. solve_decision. Defined.

#[global] Instance Role_eq_dec : EqDecision Role.
Proof. solve_decision. Defined.

(** Field updates of a loaded document. *)

Definition set_coins (c : Z) (u : User) : User :=
  mkUser (username u) c (role u) (level u) (bans u) (achievements u)
         (awardedAchievements u) (achievementPoints u) (stats u) (unlocks u).

Definition set_level (l : Z) (u : User) : User :=
  mkUser (username u) (coins u) (role u) l (bans u) (achievements u)
         (awardedAchievements u) (achievementPoints u) (stats u) (unlocks u).

Definition set_achievements (a : list Achievement) (u : User) : User :=
  mkUser (username u) (coins u) (role u) (level u) (bans u) a
         (awardedAchievements u) (achievementPoints u) (stats u) (unlocks u).

Definition set_awarded (a : list string) (u : User) : User :=
  mkUser (username u) (coins u) (role u) (level u) (bans u) (achievements u)
         a (achievementPoints u) (stats u) (unlocks u).

Definition set_achievementPoints (p : Z) (u : User) : User :=
  mkUser (username u) (coins u) (role u) (level u) (bans u) (achievements u)
         (awardedAchievements u) p (stats u) (unlocks u).

Definition set_stats (s : gmap string Z) (u : User) : User :=
  mkUser (username u) (coins u) (role u) (level u) (bans u) (achievements u)
         (awardedAchievements u) (achievementPoints u) s (unlocks u).

Definition set_unlocks (k : gmap string bool) (u : User) : User :=
  mkUser (username u) (coins u) (role u) (level u) (bans u) (achievements u)
         (awardedAchievements u) (achievementPoints u) (stats u) k.

(** ** The stores *)

Definition set_users (us : gmap nat User) (st : Store) : Store :=
  mkStore us (ledger st) (messages st).

(** [User.findById(id)] *)
Definition findById (id : nat) (st : Store) : option User := users st !! id.

(** [User.findOne({ username: name })]: the first match, with its [_id]. *)
Definition findOne (name : string) (st : Store) : option (nat * User) :=
  List.find (fun p => String.eqb (username (snd p)) name)
            (map_to_list (users st)).

(** [doc.save()] after the handler changed some paths of the loaded
    document [id]: the changed paths are written to the stored document. *)
Definition save (id : nat) (changes : User -> User) (st : Store) : Store :=
  set_users (alter changes id (users st)) st.

(** [User.findOneAndUpdate({ _id: id, ...cond }, upd, { new: true })]:
    one atomic conditional update; the updated document, or [None] when
    no document matches. *)
Definition findOneAndUpdate (id : nat) (cond : User -> bool)
    (upd : User -> User) (st : Store) : option User * Store :=
  match users st !! id with
  | Some u =>
      if cond u then (Some (upd u), set_users (<[id := upd u]> (users st)) st)
      else (None, st)
  | None => (None, st)
  end.

(** [CoinTransaction.create(tx)] *)
Definition createTx (tx : CoinTransaction) (st : Store) : Store :=
  mkStore (users st) (ledger st ++ [tx]) (messages st).

(** ** services/achievements.js *)

Record AchievementDef : Type := mkDef {
  code : string;
  title : string;
  coinsReward : Z
}.

Definition ACHIEVEMENTS : list (string * AchievementDef) :=
  [ ("FIRST_LOGIN", mkDef "FIRST_LOGIN" "First Login" 10);
    ("LEVEL2_UNLOCKED", mkDef "LEVEL2_UNLOCKED" "Unlocked Level 2" 50);
    ("LEVEL3_UNLOCKED", mkDef "LEVEL3_UNLOCKED" "Unlocked Level 3" 75);
    ("FIRST_BUG_REPORT", mkDef "FIRST_BUG_REPORT" "First Bug Report" 25) ].

(** What [awardAchievement] reads from [def = ACHIEVEMENTS[code]]:
    [def.code], [def.title] and [Number(def.coinsReward) || 0]. The three
    reads are [undefined] on an inherited member of [Object.prototype]. *)
Record DefView : Type := mkView {
  def_code : option string;
  def_title : option string;
  def_reward : Z
}.

Definition readDef (code0 : string) : option DefView :=
  match Js.get ACHIEVEMENTS code0 with
  | Js.Own d => Some (mkView (Some (code d)) (Some (title d)) (coinsReward d))
  | Js.Inherited => Some (mkView None None 0)
  | Js.Undefined => None
  end.

Definition option_string_eqb (a b : option string) : bool :=
  match a, b with
  | Some x, Some y => String.eqb x y
  | None, None => true
  | _, _ => false
  end.

(** The filter ["achievements.code": { $ne: c }]: no element of the array
    has code [c] (an [undefined] operand is sent as [null], which a
    missing code equals). *)
Definition lacksCode (c : option string) (u : User) : bool :=
  forallb (fun a => negb (option_string_eqb (ach_code a) c)) (achievements u).

Definition pushAchievement (a : Achievement) (u : User) : User :=
  set_achievements (achievements u ++ [a]) u.

Definition incCoins (n : Z) (u : User) : User := set_coins (coins u + n) u.

Definition awardAchievement (userId : nat) (code0 : string) (now : Z)
    (st : Store) : option User * Store :=
  match readDef code0 with
  | None => (None, st)
  | Some def =>
      let reward := def_reward def in
      let entry := mkAchievement (def_code def) (def_title def) now in
      (* 1) achievement + coins, only if not coin-banned *)
      match findOneAndUpdate userId
              (fun u => lacksCode (def_code def) u
                        && negb (isBannedFromCoins (bans u)))
              (fun u => (if 0 <? reward then incCoins reward else id)
                          (pushAchievement entry u))
              st with
      | (Some user, st1) =>
          if 0 <? reward then
            (Some user,
             createTx (mkTx tx_achievement_reward None None
                            (Some userId) (Some (username user)) reward
                            ("Achievement: " +:+ default "undefined" (def_title def))
                            now) st1)
          else (Some user, st1)
      | (None, _) =>
          (* 2) achievement without coins *)
          match findOneAndUpdate userId (lacksCode (def_code def))
                  (pushAchievement entry) st with
          | (Some user, st2) => (Some user, st2)
          | (None, _) =>
              (* 3) missing user, or the achievement is already held *)
              (findById userId st, st)
          end
      end
  end.

(** ** services/featureProgress.js *)

(** [User.updateOne({ _id: id, ...cond }, upd)]: the [modifiedCount] and
    the new store. *)
Definition updateOne (id : nat) (cond : User -> bool) (upd : User -> User)
    (st : Store) : nat * Store :=
  match findOneAndUpdate id cond upd st with
  | (Some _, st') => (1%nat, st')
  | (None, _) => (0%nat, st)
  end.

Record ApResult : Type := mkApResult { ok : bool; awarded : bool }.

Definition hasAwarded (c : string) (u : User) : bool :=
  existsb (String.eqb c) (awardedAchievements u).

(** [$addToSet] of a code the filter found absent, with the [$inc]. *)
Definition payAp (c : string) (ap : Z) (u : User) : User :=
  set_achievementPoints (achievementPoints u + ap)
    (set_awarded (awardedAchievements u ++ [c]) u).

Definition awardApOnce (userId : nat) (code0 : string) (apAmount : Z)
    (st : Store) : ApResult * Store :=
  let cleanCode := Js.trim code0 in
  let ap := apAmount in
  if String.eqb cleanCode "" || (ap <=? 0) then (mkApResult false false, st)
  else
    let '(modified, st') :=
      updateOne userId (fun u => negb (hasAwarded cleanCode u))
                (payAp cleanCode ap) st in
    (mkApResult true (Nat.eqb modified 1), st').

(** An entry of a milestone list of [config/features]: the fields
    [count], [ap] and [code]. *)
Record Milestone : Type := mkMilestone {
  m_count : Z;
  m_ap : Z;
  m_code : string
}.

(** [$inc: { ["stats." + sKey]: d }]. The counters are kept under
    their paths below [stats]: a key with a dot names a nested field. *)
Definition incStat (sKey : string) (d : Z) (u : User) : User :=
  set_stats (<[sKey := default 0 (stats u !! sKey) + d]> (stats u)) u.

(** [Number(user.stats[sKey] || 0)]: a read by property name, which finds
    no nested field. *)
Definition readStat (sKey : string) (u : User) : Z :=
  if Js.dotted sKey then 0 else default 0 (stats u !! sKey).

(** The body of the [for (const m of milestones)] loop. *)
Definition awardMilestone (userId : nat) (newValue : Z) (st : Store)
    (m : Milestone) : Store :=
  let code1 := Js.trim (m_code m) in
  if String.eqb code1 "" then st
  else if m_count m <=? newValue then snd (awardApOnce userId code1 (m_ap m) st)
  else st.

Section Catalog.

(** [config/features] is not part of the sources at hand:
    [FEATURE_MILESTONES fKey sKey] stands for the list
    [FEATURE_MILESTONES?.[fKey]?.[sKey] || []]. *)
Variable FEATURE_MILESTONES : string -> string -> list Milestone.

(** Returns [None] for the early [return;], else [value]. *)
Definition recordFeatureAction (userId : nat) (featureKey statKey : string)
    (delta : Z) (st : Store) : option Z * Store :=
  let d := delta in
  if d =? 0 then (None, st)
  else
    let fKey := Js.trim featureKey in
    let sKey := Js.trim statKey in
    if String.eqb fKey "" || String.eqb sKey "" then (None, st)
    else
      let '(user, st1) :=
        findOneAndUpdate userId (fun _ => true) (incStat sKey d) st in
      let newValue :=
        match user with
        | Some u => readStat sKey u
        | None => 0
        end in
      let milestones := FEATURE_MILESTONES fKey sKey in
      (Some newValue, fold_left (awardMilestone userId newValue) milestones st1).

End Catalog.

(** ** routes/_helpers.js and the responses *)

Inductive Response : Type :=
| Ok
| Error (status : nat) (error : string).

(** [loadUser]: the document of the session's user. *)
Definition loadUser (session : nat) (st : Store) : option User :=
  findById session st.

(** ** routes/coins.js *)

Inductive Limits : Type :=
| LimitsOk
| LimitsReached (reason : string).

Definition inWindow (userId : nat) (since : Z) (t : CoinTransaction) : bool :=
  bool_decide (type t = tx_transfer)
  && bool_decide (fromUserId t = Some userId)
  && (since <=? createdAt t).

Definition dailyLimitsOK (userId : nat) (maxTransfers maxCoins : Z) (now : Z)
    (st : Store) : Limits :=
  let since := now - 24 * 60 * 60 * 1000 in
  let transfersCount :=
    Z.of_nat (length (List.filter (inWindow userId since) (ledger st))) in
  if maxTransfers <=? transfersCount then
    LimitsReached "Daily transfer count limit reached"
  else
    let tx := List.filter (inWindow userId since) (ledger st) in
    let sum := fold_left (fun a t => a + amount t) tx 0 in
    if maxCoins <=? sum then LimitsReached "Daily coin sending limit reached"
    else LimitsOk.

Definition post_transfer (session : nat) (toUsername0 : string) (amt : Z)
    (now : Z) (st : Store) : Response * Store :=
  match loadUser session st with
  | None => (Error 401 "User not found", st)
  | Some user =>
      if isBannedFromCoins (bans user) then
        (Error 403 "You are banned from using coins", st)
      else if String.eqb toUsername0 "" || (amt <=? 0) then
        (Error 400 "Invalid request", st)
      else
        match findOne (Js.trim toUsername0) st with
        | None => (Error 404 "Target user not found", st)
        | Some (targetId, target) =>
            if String.eqb (username target) (username user) then
              (Error 400 "Cannot send coins to yourself", st)
            else
              match (if negb (is_admin (role user))
                     then dailyLimitsOK session 20 2000 now st
                     else LimitsOk) with
              | LimitsReached reason => (Error 429 reason, st)
              | LimitsOk =>
                  if coins user <? amt then (Error 400 "Not enough coins", st)
                  else
                    let st1 :=
                      save session (set_coins (Js.sub (coins user) amt)) st in
                    let st2 :=
                      if negb (isBannedFromCoins (bans target))
                      then save targetId
                             (set_coins (Js.add (coins target) amt)) st1
                      else st1 in
                    (Ok,
                     createTx (mkTx tx_transfer
                                    (Some session) (Some (username user))
                                    (Some targetId) (Some (username target))
                                    amt "User transfer" now) st2)
              end
        end
  end.

(** [targetLevel] is [Some lvl] when [Number(targetLevel)] is a finite
    integer and [None] otherwise. *)
Definition post_level_up (session : nat) (targetLevel : option Z) (now : Z)
    (st : Store) : Response * Store :=
  match loadUser session st with
  | None => (Error 401 "User not found", st)
  | Some user =>
      match targetLevel with
      | None => (Error 400 "Invalid target level", st)
      | Some lvl =>
          if (lvl <=? level user) || (10 <? lvl) then
            (Error 400 "Invalid target level", st)
          else if isBannedFromCoins (bans user) then
            (Error 403 "You are banned from using coins", st)
          else
            let diff := Js.sub lvl (level user) in
            let cost := Js.mul diff 100 in
            if negb (is_admin (role user)) && (coins user <? cost) then
              (Error 400 "Not enough coins", st)
            else
              let coins' :=
                if negb (is_admin (role user)) then Js.sub (coins user) cost
                else coins user in
              let oldLevel := level user in
              let st1 :=
                save session (fun u => set_level lvl (set_coins coins' u)) st in
              let st2 :=
                createTx (mkTx tx_level_up
                               (Some session) (Some (username user)) None None
                               cost
                               ("Level up " +:+ Js.show oldLevel +:+ " -> "
                                  +:+ Js.show lvl)
                               now) st1 in
              let st3 :=
                if 2 <=? lvl
                then snd (awardAchievement session "LEVEL2_UNLOCKED" now st2)
                else st2 in
              let st4 :=
                if 3 <=? lvl
                then snd (awardAchievement session "LEVEL3_UNLOCKED" now st3)
                else st3 in
              (Ok, st4)
      end
  end.

Definition FEATURE_PRICES : list (string * Z) :=
  [ ("chat", 100); ("groupChat", 200); ("createGroup", 300);
    ("imageUpload", 150) ].

(** Truthiness of [unlocks[key]] on the user's unlock object. *)
Definition unlocked (key : string) (u : User) : bool :=
  match unlocks u !! key with
  | Some b => b
  | None => Js.inherited key
  end.

Definition post_buy_feature (session : nat) (featureKey : string) (now : Z)
    (st : Store) : Response * Store :=
  match loadUser session st with
  | None => (Error 401 "User not found", st)
  | Some user =>
      let key := featureKey in
      match Js.get FEATURE_PRICES key with
      | Js.Undefined => (Error 400 "Invalid feature", st)
      | Js.Own 0 => (Error 400 "Invalid feature", st)
      | price =>
          if isBannedFromCoins (bans user) then
            (Error 403 "You are banned from using coins", st)
          else if unlocked key user then
            (Error 400 "Feature already unlocked", st)
          else
            match price with
            | Js.Own cost =>
                if coins user <? cost then (Error 400 "Not enough coins", st)
                else
                  let st1 :=
                    save session
                      (fun u => set_unlocks (<[key := true]> (unlocks user))
                                  (set_coins (Js.sub (coins user) cost) u)) st in
                  (Ok,
                   createTx (mkTx tx_feature_purchase
                                  (Some session) (Some (username user)) None None
                                  cost ("Feature purchase: " +:+ key) now) st1)
            | _ =>
                (* the price is not a number: the balance becomes NaN, which
                   [save()] refuses *)
                (Error 500 "Server error", st)
            end
      end
  end.

Definition requireAdmin (user : User) : bool := is_admin (role user).

(** " — " in UTF-8 *)
Definition dash : string :=
  String " " (String (ascii_of_nat 226) (String (ascii_of_nat 128)
    (String (ascii_of_nat 148) (String " " EmptyString)))).

Definition adjustDescription (d : Z) (reason : string) : string :=
  "Admin adjust (" +:+ (if 0 <=? d then "+" else "") +:+ Js.show d +:+ ")"
    +:+ (if String.eqb reason "" then "" else dash +:+ Js.slice0 200 reason).

Definition post_adjust (session : nat) (username0 : string) (d : Z)
    (reason : string) (now : Z) (st : Store) : Response * Store :=
  match loadUser session st with
  | None => (Error 401 "User not found", st)
  | Some user =>
      if negb (requireAdmin user) then (Error 403 "Admin only", st)
      else if String.eqb username0 "" then (Error 400 "Invalid request", st)
      else
        match findOne (Js.trim username0) st with
        | None => (Error 404 "User not found", st)
        | Some (targetId, target) =>
            let st1 :=
              save targetId
                   (set_coins (Z.max 0 (Js.add (coins target) d))) st in
            (Ok,
             createTx (mkTx tx_admin_adjust
                            (Some session) (Some (username user))
                            (Some targetId) (Some (username target))
                            (Z.abs d) (adjustDescription d reason) now) st1)
        end
  end.

(** ** The direct-message route ([POST /dm/send]) *)

Section Dm.

Variable FEATURE_MILESTONES : string -> string -> list Milestone.

Definition requireChatUnlocked (user : User) : bool := unlocked "chat" user.

(** The block [if (coins > 0) { ... }] of the handler: an early error
    response, or the store after the transfer. *)
Definition dmTransfer (session targetId : nat) (user target : User)
    (coins0 : Z) (now : Z) (st : Store) : Response + Store :=
  if 0 <? coins0 then
    if isBannedFromCoins (bans user) then
      inl (Error 403 "You are banned from coins")
    else if coins user <? coins0 then inl (Error 400 "Not enough coins")
    else
      let s1 := save session (set_coins (Js.sub (coins user) coins0)) st in
      let s2 :=
        if negb (isBannedFromCoins (bans target))
        then save targetId (set_coins (Js.add (coins target) coins0)) s1
        else s1 in
      inr (createTx (mkTx tx_transfer
                          (Some session) (Some (username user))
                          (Some targetId) (Some (username target))
                          coins0 "DM transfer" now) s2)
  else inr st.

Definition post_dm_send (session : nat) (toUsername0 text imageUrl : string)
    (coinsToSend : Z) (now : Z) (st : Store) : Response * Store :=
  match loadUser session st with
  | None => (Error 401 "User not found", st)
  | Some user =>
      let hasImage := negb (String.eqb (Js.trim imageUrl) "") in
      if negb (requireChatUnlocked user) then
        (Error 403 "Chat feature is locked. Unlock it in the Feature Shop.", st)
      else if hasImage && negb (unlocked "imageUpload" user) then
        (Error 403 "Image Upload feature is locked. Unlock it in the Feature Shop.", st)
      else if isBannedFromChat (bans user) then
        (Error 403 "You are banned from chat", st)
      else
        let coins0 := coinsToSend in
        if String.eqb toUsername0 "" then (Error 400 "Missing toUsername", st)
        else
          match findOne (Js.trim toUsername0) st with
          | None => (Error 404 "Target user not found", st)
          | Some (targetId, target) =>
              if String.eqb (username target) (username user) then
                (Error 400 "Cannot chat with yourself here", st)
              else if negb (unlocked "chat" target) then
                (Error 403 "The other user has not unlocked chat yet.", st)
              else if hasImage && (level user <? 2) then
                (Error 403 "Level 2 required to send images", st)
              else
                (* optional coins transfer via DM *)
                match dmTransfer session targetId user target coins0 now st with
                | inl response => (response, st)
                | inr st1 =>
                    let st2 :=
                      mkStore (users st1) (ledger st1)
                        (messages st1 ++
                           [mkMsg session targetId (Js.slice0 2000 text)
                                  (if hasImage then Js.slice0 300 imageUrl else "")
                                  (if 0 <? coins0 then coins0 else 0)]) in
                    (* AP + stats: one DM sent, maybe one image *)
                    let st3 :=
                      snd (recordFeatureAction FEATURE_MILESTONES session
                             "chat" "dmMessagesSent" 1 st2) in
                    let st4 :=
                      if hasImage
                      then snd (recordFeatureAction FEATURE_MILESTONES session
                                  "imageUpload" "imagesSent" 1 st3)
                      else st3 in
                    (Ok, st4)
                end
          end
  end.

End Dm.

(** ** Sequences of operations *)

Inductive Op : Type :=
| OpTransfer (session : nat) (toUsername0 : string) (amt : Z)
| OpDmSend (session : nat) (toUsername0 text imageUrl : string) (coinsToSend : Z)
| OpBuyFeature (session : nat) (featureKey : string)
| OpLevelUp (session : nat) (targetLevel : option Z)
| OpAdjust (session : nat) (username0 : string) (d : Z) (reason : string)
| OpAward (userId : nat) (code0 : string)
| OpRecord (userId : nat) (featureKey statKey : string) (delta : Z).

Section Run.

Variable FEATURE_MILESTONES : string -> string -> list Milestone.

(** One operation issued at time [now]. *)
Definition step (o : Op) (now : Z) (st : Store) : Store :=
  match o with
  | OpTransfer s t a => snd (post_transfer s t a now st)
  | OpDmSend s t x i c => snd (post_dm_send FEATURE_MILESTONES s t x i c now st)
  | OpBuyFeature s k => snd (post_buy_feature s k now st)
  | OpLevelUp s l => snd (post_level_up s l now st)
  | OpAdjust s n d r => snd (post_adjust s n d r now st)
  | OpAward u c => snd (awardAchievement u c now st)
  | OpRecord u f k d => snd (recordFeatureAction FEATURE_MILESTONES u f k d st)
  end.

(** The stores after each operation of a timed sequence, oldest first. *)
Fixpoint trace (ops : list (Op * Z)) (st : Store) : list Store :=
  match ops with
  | [] => []
  | (o, now) :: ops' => let st' := step o now st in st' :: trace ops' st'
  end.

Definition run (ops : list (Op * Z)) (st : Store) : Store :=
  fold_left (fun s p => step (fst p) (snd p) s) ops st.

End Run.

(** ** Vocabulary of the statements *)

Definition holdsCode (c : string) (u : User) : bool :=
  negb (lacksCode (Some c) u).

Definition countCode (c : string) (u : User) : nat :=
  length (List.filter (fun a => option_string_eqb (ach_code a) (Some c))
                      (achievements u)).

Definition rewardEntry (c : string) (def : AchievementDef) (now : Z)
  : Achievement :=
  mkAchievement (Some c) (Some (title def)) now.

Definition rewardTx (uid : nat) (u : User) (def : AchievementDef) (now : Z)
  : CoinTransaction :=
  mkTx tx_achievement_reward None None (Some uid) (Some (username u))
       (coinsReward def) ("Achievement: " +:+ title def) now.


(** No account holds a reward code twice. *)
Definition achievementsUnique (st : Store) : Prop :=
  forall id u c, users st !! id = Some u -> (countCode c u <= 1)%nat.

(** A freshly registered account. *)
Definition newUser (name : string) : User :=
  mkUser name 0 RoleUser 1 (mkBans false false) [] [] 0 ∅ ∅.

Definition storeOf (us : list (nat * User)) : Store :=
  mkStore (list_to_map us) [] [].

(** The first conditional update of [awardAchievement] matches and carries
    an [$inc] of the balance. *)
Definition coinGranting (uid : nat) (c0 : string) (st : Store) : bool :=
  match readDef c0, users st !! uid with
  | Some def, Some u =>
      lacksCode (def_code def) u && negb (isBannedFromCoins (bans u))
      && (0 <? def_reward def)
  | _, _ => false
  end.

(** Every stored balance is at least 0. *)
Definition balancesNonneg (st : Store) : Prop :=
  map_Forall (fun _ u => 0 <= coins u) (users st).

(** A signed decimal: ["+7"], ["+0"], ["-7"]. *)
Definition signed (d : Z) : string :=
  (if 0 <=? d then "+" else "-") +:+ Js.decimal (Z.abs d).

(** A string from its bytes. *)
Definition bytes (l : list Z) : string :=
  fold_right (fun n s => String (ascii_of_N (Z.to_N n)) s) EmptyString l.

(** The effect of an accepted transfer of [amt] from account [s] (document
    [user]) to the coin-banned account [tid] (document [target]): the
    sender is debited, the recipient is not credited, one [transfer] entry
    of the full amount is appended. *)
Definition debitedOnly (st st' : Store) (s tid : nat) (user target : User)
    (amt : Z) : Prop :=
  coins <$> users st' !! s = Some (coins user - amt)
  /\ coins <$> users st' !! tid = Some (coins target)
  /\ exists tx,
       ledger st' = (ledger st ++ [tx])%list
       /\ type tx = tx_transfer
       /\ amount tx = amt
       /\ fromUserId tx = Some s
       /\ toUserId tx = Some tid.

(** The rate window of an account at time [now]: its [transfer] entries of
    the trailing 24 hours. *)
Definition windowTransfers (uid : nat) (now : Z) (st : Store)
  : list CoinTransaction :=
  List.filter (inWindow uid (now - 24 * 60 * 60 * 1000)) (ledger st).

Definition windowCount (uid : nat) (now : Z) (st : Store) : Z :=
  Z.of_nat (length (windowTransfers uid now st)).

Definition windowSum (uid : nat) (now : Z) (st : Store) : Z :=
  fold_left (fun a t => a + amount t) (windowTransfers uid now st) 0.

(** An account that has unlocked chat. *)
Definition chatUser (name : string) (balance : Z) (coinBanned : bool) : User :=
  mkUser name balance RoleUser 1 (mkBans false coinBanned) [] [] 0 ∅
         (list_to_map [("chat", true)]).

(** A store in which account 1 has already made twenty transfers of one
    coin to account 2 at time 1000. *)
Definition busyStore : Store :=
  mkStore (list_to_map [(1%nat, chatUser "alice" 500 false);
                        (2%nat, chatUser "bob" 0 false)])
          (repeat (mkTx tx_transfer (Some 1%nat) (Some "alice")
                        (Some 2%nat) (Some "bob") 1 "User transfer" 1000) 20)
          [].



(** *** Milestones *)








Section Many.

Variable FEATURE_MILESTONES : string -> string -> list Milestone.

(** Successive calls of [recordFeatureAction] on one counter. *)
Definition recordMany (uid : nat) (fKey sKey : string) (ds : list Z)
    (st : Store) : Store :=
  fold_left
    (fun s d => snd (recordFeatureAction FEATURE_MILESTONES uid fKey sKey d s))
    ds st.

End Many.





(** A sample milestone table: direct messages sent, at 1 and at 3. *)
Definition sampleMilestones (fKey sKey : string) : list Milestone :=
  if String.eqb fKey "chat" && String.eqb sKey "dmMessagesSent"
  then [mkMilestone 1 5 "CHAT_DM_1"; mkMilestone 3 10 "CHAT_DM_3"]
  else [].

(** * Further routes *)

(** ** routes/coins.js: the admin routes for roles, levels and bans *)

Definition set_role (r : Role) (u : User) : User :=
  mkUser (username u) (coins u) r (level u) (bans u) (achievements u)
         (awardedAchievements u) (achievementPoints u) (stats u) (unlocks u).

Definition set_bans (b : Bans) (u : User) : User :=
  mkUser (username u) (coins u) (role u) (level u) b (achievements u)
         (awardedAchievements u) (achievementPoints u) (stats u) (unlocks u).

Definition roleName (r : Role) : string :=
  match r with
  | RoleUser => "user"
  | RoleMod => "mod"
  | RoleAdmin => "admin"
  end.

(** [["user", "mod", "admin"].includes(r)], with the role it names. *)
Definition parseRole (r : string) : option Role :=
  if String.eqb r "user" then Some RoleUser
  else if String.eqb r "mod" then Some RoleMod
  else if String.eqb r "admin" then Some RoleAdmin
  else None.

Definition boolName (b : bool) : string := if b then "true" else "false".

Definition post_set_role (session : nat) (username0 role0 : string) (now : Z)
    (st : Store) : Response * Store :=
  match loadUser session st with
  | None => (Error 401 "User not found", st)
  | Some user =>
      if negb (requireAdmin user) then (Error 403 "Admin only", st)
      else
        let cleanName := Js.trim username0 in
        let r := Js.trim role0 in
        if String.eqb cleanName "" then (Error 400 "Missing username", st)
        else
          match parseRole r with
          | None => (Error 400 "Invalid role", st)
          | Some newRole =>
              match findOne cleanName st with
              | None => (Error 404 "User not found", st)
              | Some (targetId, target) =>
                  let oldRole := role target in
                  let st1 := save targetId (set_role newRole) st in
                  (Ok,
                   createTx (mkTx tx_admin_set_role
                                  (Some session) (Some (username user))
                                  (Some targetId) (Some (username target))
                                  0
                                  ("Admin set role " +:+ roleName oldRole
                                     +:+ " -> " +:+ r)
                                  now) st1)
              end
          end
  end.

(** [level0] is [Some lvl] when [Number(level)] is a finite integer and
    [None] otherwise. *)
Definition post_set_level (session : nat) (username0 : string)
    (level0 : option Z) (now : Z) (st : Store) : Response * Store :=
  match loadUser session st with
  | None => (Error 401 "User not found", st)
  | Some user =>
      if negb (requireAdmin user) then (Error 403 "Admin only", st)
      else
        let cleanName := Js.trim username0 in
        if String.eqb cleanName "" then (Error 400 "Missing username", st)
        else
          match level0 with
          | None => (Error 400 "Invalid level", st)
          | Some lvl =>
              if (lvl <? 1) || (10 <? lvl) then (Error 400 "Invalid level", st)
              else
                match findOne cleanName st with
                | None => (Error 404 "User not found", st)
                | Some (targetId, target) =>
                    let oldLevel := level target in
                    let st1 := save targetId (set_level lvl) st in
                    (Ok,
                     createTx (mkTx tx_admin_set_level
                                    (Some session) (Some (username user))
                                    (Some targetId) (Some (username target))
                                    0
                                    ("Admin set level " +:+ Js.show oldLevel
                                       +:+ " -> " +:+ Js.show lvl)
                                    now) st1)
                end
          end
  end.

(** The new ban flags: a flag is replaced only when the request carries a
    boolean for it ([typeof chatBan === "boolean"]). *)
Definition applyBans (chatBan coinsBan : option bool) (b : Bans) : Bans :=
  mkBans (default (isBannedFromChat b) chatBan)
         (default (isBannedFromCoins b) coinsBan).

Definition post_set_bans (session : nat) (username0 : string)
    (chatBan coinsBan : option bool) (now : Z) (st : Store)
  : Response * Store :=
  match loadUser session st with
  | None => (Error 401 "User not found", st)
  | Some user =>
      if negb (requireAdmin user) then (Error 403 "Admin only", st)
      else
        let cleanName := Js.trim username0 in
        if String.eqb cleanName "" then (Error 400 "Missing username", st)
        else
          match findOne cleanName st with
          | None => (Error 404 "User not found", st)
          | Some (targetId, target) =>
              let bans' := applyBans chatBan coinsBan (bans target) in
              let st1 := save targetId (set_bans bans') st in
              (Ok,
               createTx (mkTx tx_admin_set_bans
                              (Some session) (Some (username user))
                              (Some targetId) (Some (username target))
                              0
                              ("Admin set bans chat="
                                 +:+ boolName (isBannedFromChat bans')
                                 +:+ " coins="
                                 +:+ boolName (isBannedFromCoins bans'))
                              now) st1)
          end
  end.

(** ** Requests of all modelled routes *)

Inductive Request : Type :=
| Economy (o : Op)
| SetRole (session : nat) (username0 role0 : string)
| SetLevel (session : nat) (username0 : string) (level0 : option Z)
| SetBans (session : nat) (username0 : string) (chatBan coinsBan : option bool).

Section Handle.

Variable FEATURE_MILESTONES : string -> string -> list Milestone.

Definition handle (r : Request) (now : Z) (st : Store) : Store :=
  match r with
  | Economy o => step FEATURE_MILESTONES o now st
  | SetRole s n r => snd (post_set_role s n r now st)
  | SetLevel s n l => snd (post_set_level s n l now st)
  | SetBans s n c k => snd (post_set_bans s n c k now st)
  end.

Definition handleAll (rs : list (Request * Z)) (st : Store) : Store :=
  fold_left (fun s p => handle (fst p) (snd p) s) rs st.

End Handle.

(** The session on whose behalf a request runs; the two services are
    called by the routes themselves and have none. *)
Definition actor (r : Request) : option nat :=
  match r with
  | Economy (OpTransfer s _ _) => Some s
  | Economy (OpDmSend s _ _ _ _) => Some s
  | Economy (OpBuyFeature s _) => Some s
  | Economy (OpLevelUp s _) => Some s
  | Economy (OpAdjust s _ _ _) => Some s
  | Economy (OpAward _ _) => None
  | Economy (OpRecord _ _ _ _) => None
  | SetRole s _ _ => Some s
  | SetLevel s _ _ => Some s
  | SetBans s _ _ _ => Some s
  end.

(** ** Vocabulary of the further statements *)

(** [st'] keeps the ledger of [st] and adds entries of non-negative
    amount after it. *)
Definition appended (st st' : Store) : Prop :=
  exists new,
    ledger st' = (ledger st ++ new)%list
    /\ Forall (fun tx => 0 <= amount tx) new.

(** Every account of [st] is still there in [st'], changed according to
    [R], and no account was added. *)
Definition usersRel (R : User -> User -> Prop) (st st' : Store) : Prop :=
  forall k, option_Forall2 R (users st !! k) (users st' !! k).

(** A reward code held at most once is still held at most once. *)
Definition uniqueKept (u u' : User) : Prop :=
  forall c, (countCode c u <= 1)%nat -> (countCode c u' <= 1)%nat.

(** What the spending routes and the two services may do to an account:
    name, role and ban flags stay; a coin-banned account keeps its balance;
    the level stays or rises, to at most 10; no reward code gets held
    twice. *)
Definition evolves (u u' : User) : Prop :=
  username u' = username u
  /\ role u' = role u
  /\ bans u' = bans u
  /\ (isBannedFromCoins (bans u) = true -> coins u' = coins u)
  /\ (level u' = level u \/ level u < level u' <= 10)
  /\ uniqueKept u u'.

(** Requests that can move the balance of a coin-banned account or lift
    its ban: the admin adjustment and the ban route. *)
Definition overridesBan (r : Request) : bool :=
  match r with
  | Economy (OpAdjust _ _ _ _) => true
  | SetBans _ _ _ _ => true
  | _ => false
  end.

(** Requests that can change roles or ban flags. *)
Definition privileged (r : Request) : bool :=
  match r with
  | SetRole _ _ _ => true
  | SetBans _ _ _ _ => true
  | _ => false
  end.

(** The session does not belong to an admin of [st]. *)
Definition notAdmin (st : Store) (s : nat) : Prop :=
  forall u, users st !! s = Some u -> is_admin (role u) = false.

(** Every level lies in 1..10. *)
Definition levelsInRange (st : Store) : Prop :=
  map_Forall (fun _ u => 1 <= level u <= 10) (users st).

(** A coin-banned account keeps its balance and its ban. *)
Definition frozen (u u' : User) : Prop :=
  isBannedFromCoins (bans u) = true ->
  coins u' = coins u /\ isBannedFromCoins (bans u') = true.

(** Role and ban flags are as before. *)
Definition sameAuthority (u u' : User) : Prop :=
  role u' = role u /\ bans u' = bans u.

(** A level within 1..10 stays within 1..10. *)
Definition ranged (u u' : User) : Prop :=
  1 <= level u <= 10 -> 1 <= level u' <= 10.



(** The number of requests [POST /transfer] of session [s] that are
    accepted when the requests (recipient, amount, time) are served in
    order. *)
Fixpoint acceptedTransfers (s : nat) (reqs : list (string * Z * Z))
    (st : Store) : nat :=
  match reqs with
  | [] => 0%nat
  | (t, amt, now) :: reqs' =>
      let '(response, st') := post_transfer s t amt now st in
      ((match response with Ok => 1 | Error _ _ => 0 end)
       + acceptedTransfers s reqs' st')%nat
  end.

Definition day : Z := 24 * 60 * 60 * 1000.

(** What an account can still earn from the achievement catalog: the
    rewards of the codes it does not hold. *)
Definition potential (u : User) : Z :=
  fold_right
    (fun e acc => (if holdsCode (fst e) u then 0 else coinsReward (snd e)) + acc)
    0 ACHIEVEMENTS.


(** An account gains coins, by no more than it gives up in [potential]. *)
Definition earns (u u' : User) : Prop :=
  coins u <= coins u' /\ coins u' + potential u' <= coins u + potential u.

(** ** routes/admin.js: [POST /users/set-role] *)

(** The role is compared as sent ([allowed.includes(role)]), without the
    trimming of the coin route, and no ledger entry is written. *)
Definition post_users_set_role (session : nat) (username0 role0 : string)
    (st : Store) : Response * Store :=
  match loadUser session st with
  | None => (Error 401 "User not found", st)
  | Some user =>
      if negb (requireAdmin user) then (Error 403 "Admin only", st)
      else if String.eqb username0 "" then (Error 400 "Invalid request", st)
      else
        match parseRole role0 with
        | None => (Error 400 "Invalid request", st)
        | Some newRole =>
            match findOne (Js.trim username0) st with
            | None => (Error 404 "User not found", st)
            | Some (targetId, target) =>
                (* prevent removing your own admin accidentally *)
                if (targetId =? session)%nat && negb (is_admin newRole) then
                  (Error 400 "You cannot remove your own admin role", st)
                else (Ok, save targetId (set_role newRole) st)
            end
        end
  end.

(** A request of the routes above, or of the role route of
    [routes/admin.js]. *)
Inductive Call : Type :=
| Routed (r : Request)
| UsersSetRole (session : nat) (username0 role0 : string).

Section Serve.

Variable FEATURE_MILESTONES : string -> string -> list Milestone.

Definition serve (q : Call) (now : Z) (st : Store) : Store :=
  match q with
  | Routed r => handle FEATURE_MILESTONES r now st
  | UsersSetRole s n r => snd (post_users_set_role s n r st)
  end.

Definition serveAll (qs : list (Call * Z)) (st : Store) : Store :=
  fold_left (fun s p => serve (fst p) (snd p) s) qs st.

End Serve.

(** Some account is an admin. *)
Definition hasAdmin (st : Store) : Prop :=
  exists k u, users st !! k = Some u /\ role u = RoleAdmin.

(** The role route of [routes/coins.js]. *)
Definition coinSetRole (q : Call) : bool :=
  match q with
  | Routed (SetRole _ _ _) => true
  | _ => false
  end.

(** The role is as before. *)
Definition sameRole (u u' : User) : Prop := role u' = role u.

(** ** IP bans: [getClientIp] (routes/_helpers.js), [checkIpBan]
    (server.js) and [POST /users/full-ban] (routes/admin.js) *)

(** What the handlers read of a request: the header [x-forwarded-for]
    when it is a string, and the addresses [req.ip],
    [req.socket.remoteAddress] and [req.connection.remoteAddress], each
    [""] when missing. *)
Record Req : Type := mkReq {
  xForwardedFor : option string;
  req_ip : string;
  socketAddress : string;
  connectionAddress : string
}.

(** [a || b] on strings. *)
Definition orElse (a b : string) : string :=
  if String.eqb a "" then b else a.

(** [s.split(",")[0]] *)
Fixpoint firstField (s : string) : string :=
  match s with
  | EmptyString => EmptyString
  | String c s' => if Ascii.eqb c "," then EmptyString
                   else String c (firstField s')
  end.

Definition getClientIp (req : Req) : string :=
  let fallback :=
    orElse (req_ip req)
      (orElse (socketAddress req) (orElse (connectionAddress req) "")) in
  match xForwardedFor req with
  | Some xff =>
      if negb (String.eqb xff "") then Js.trim (firstField xff) else fallback
  | None => fallback
  end.

(** A document of the collection [IpBan]; [expiresAt] is [None] for
    [null], a permanent ban. *)
Record IpBan : Type := mkIpBan {
  ban_ip : string;
  ban_reason : string;
  expiresAt : option Z
}.

(** [IpBan.findOne({ ip })] *)
Definition findBan (ip : string) (bs : list IpBan) : option IpBan :=
  List.find (fun b => String.eqb (ban_ip b) ip) bs.

(** [checkIpBan]: [None] when the request is passed on ([next()]), the
    response otherwise. *)
Definition checkIpBan (req : Req) (now : Z) (bs : list IpBan)
  : option Response :=
  let ip := getClientIp req in
  if String.eqb ip "" then None
  else
    match findBan ip bs with
    | None => None
    | Some ban =>
        match expiresAt ban with
        | Some e =>
            if e <? now then None   (* expired ban, let them through *)
            else Some (Error 403 "This IP is banned.")
        | None => Some (Error 403 "This IP is banned.")
        end
    end.

(** [IpBan.updateOne({ ip }, { $set: { ip, reason, expiresAt: null } },
    { upsert: true })] *)
Fixpoint upsertBan (ip reason : string) (bs : list IpBan) : list IpBan :=
  match bs with
  | [] => [mkIpBan ip reason None]
  | b :: bs' =>
      if String.eqb (ban_ip b) ip then mkIpBan ip reason None :: bs'
      else b :: upsertBan ip reason bs'
  end.

(** The address [POST /users/full-ban] bans: the target's [lastIp], or
    else the address of the request itself. *)
Definition ipToBan (lastIp : gmap nat string) (targetId : nat) (req : Req)
  : string :=
  orElse (default "" (lastIp !! targetId)) (getClientIp req).

(** [POST /users/full-ban]. The field [lastIp] of the accounts is kept
    beside the [User] records, in [lastIp]; the route only reads it. *)
Definition post_users_full_ban (session : nat) (username0 reason : string)
    (req : Req) (lastIp : gmap nat string) (st : Store) (bs : list IpBan)
  : Response * (Store * list IpBan) :=
  match loadUser session st with
  | None => (Error 401 "User not found", (st, bs))
  | Some user =>
      if negb (requireAdmin user) then (Error 403 "Admin only", (st, bs))
      else
        let cleanName := Js.trim username0 in
        if String.eqb cleanName "" then (Error 400 "Missing username", (st, bs))
        else
          match findOne cleanName st with
          | None => (Error 404 "User not found", (st, bs))
          | Some (targetId, target) =>
              let banReason := orElse reason "Full ban" in
              let st1 := save targetId (set_bans (mkBans true true)) st in
              let ip := ipToBan lastIp targetId req in
              (Ok, (st1, if String.eqb ip "" then bs
                         else upsertBan ip banReason bs))
          end
  end.

Definition banned : option Response := Some (Error 403 "This IP is banned.").

(** The message a request [POST /dm/send] stores when it is accepted. *)
Definition dmMessage (session targetId : nat) (text imageUrl : string)
    (coinsToSend : Z) : ChatMessage :=
  mkMsg session targetId (Js.slice0 2000 text)
        (if negb (String.eqb (Js.trim imageUrl) "")
         then Js.slice0 300 imageUrl else "")
        (if 0 <? coinsToSend then coinsToSend else 0).

(** ** routes/groups.js *)

Definition is_mod (r : Role) : bool :=
  match r with RoleMod => true | _ => false end.

(** [requireModOrAdmin] (routes/_helpers.js) *)
Definition requireModOrAdmin (user : User) : bool :=
  is_admin (role user) || is_mod (role user).

Definition requireCreateGroupUnlocked (user : User) : bool :=
  unlocked "createGroup" user.

(** An element of [group.members]. *)
Record Member : Type := mkMember {
  m_userId : nat;
  m_username : string;
  roleInGroup : string
}.

(** A document of the collection [Group], with the fields
    [POST /create] passes to [Group.create]; the time stamp
    [lastActivityAt], which only the listing sorts by, is left out. *)
Record Group : Type := mkGroup {
  g_name : string;
  g_description : string;
  isPublic : bool;
  ownerUserId : nat;
  ownerUsername : string;
  members : list Member;
  invites : list string
}.

Definition set_members (ms : list Member) (g : Group) : Group :=
  mkGroup (g_name g) (g_description g) (isPublic g) (ownerUserId g)
          (ownerUsername g) ms (invites g).

Definition set_invites (l : list string) (g : Group) : Group :=
  mkGroup (g_name g) (g_description g) (isPublic g) (ownerUserId g)
          (ownerUsername g) (members g) l.

(** [group.members.some(m => m.userId.toString() === id.toString())] *)
Definition isMember (id : nat) (g : Group) : bool :=
  existsb (fun m => (m_userId m =? id)%nat) (members g).

(** [list.includes(name)] *)
Definition includes (name : string) (l : list string) : bool :=
  existsb (String.eqb name) l.

Section Groups.

Variable FEATURE_MILESTONES : string -> string -> list Milestone.

(** [isPublic0] is [Some b] when the request carries a boolean
    ([typeof isPublic === "boolean"]). The new document gets an [_id] that
    no group has. *)
Definition post_groups_create (session : nat) (name0 description0 : string)
    (isPublic0 : option bool) (st : Store) (gs : gmap nat Group)
  : Response * (Store * gmap nat Group) :=
  match loadUser session st with
  | None => (Error 401 "User not found", (st, gs))
  | Some user =>
      if negb (requireModOrAdmin user) then
        (Error 403 "Mod/Admin only", (st, gs))
      else if negb (requireCreateGroupUnlocked user) then
        (Error 403 "Create Group feature is locked. Unlock it in the Feature Shop.",
         (st, gs))
      else if level user <? 3 then
        (Error 403 "Level 3 required to create groups", (st, gs))
      else
        let n := Js.trim name0 in
        if String.eqb n "" || (Js.length n <? 3)%nat
           || (40 <? Js.length n)%nat then
          (Error 400 "Group name must be 3-40 characters", (st, gs))
        else
          let group :=
            mkGroup n (Js.slice0 300 description0) (default true isPublic0)
                    session (username user)
                    [mkMember session (username user) "owner"] [] in
          let gs1 := <[fresh (dom gs) := group]> gs in
          (* AP/stat progress *)
          let st1 :=
            snd (recordFeatureAction FEATURE_MILESTONES session
                   "createGroup" "groupsCreated" 1 st) in
          (Ok, (st1, gs1))
  end.

End Groups.

Definition post_groups_join (session gid : nat) (st : Store)
    (gs : gmap nat Group) : Response * gmap nat Group :=
  match loadUser session st with
  | None => (Error 401 "User not found", gs)
  | Some user =>
      match gs !! gid with
      | None => (Error 404 "Group not found", gs)
      | Some group =>
          if isMember session group then (Ok, gs)
          else if negb (isPublic group)
                  && negb (includes (username user) (invites group))
                  && negb (is_admin (role user)) then
            (Error 403 "Invite required", gs)
          else
            (* if invited, remove invite *)
            let invites1 :=
              if negb (isPublic group)
              then List.filter (fun u => negb (String.eqb u (username user)))
                               (invites group)
              else invites group in
            let members1 :=
              (members group ++ [mkMember session (username user) "member"])%list in
            (Ok, <[gid := set_members members1 (set_invites invites1 group)]> gs)
      end
  end.

Definition post_groups_leave (session gid : nat) (st : Store)
    (gs : gmap nat Group) : Response * gmap nat Group :=
  match loadUser session st with
  | None => (Error 401 "User not found", gs)
  | Some user =>
      match gs !! gid with
      | None => (Error 404 "Group not found", gs)
      | Some group =>
          (* owner can't leave (would orphan group) *)
          if String.eqb (ownerUsername group) (username user) then
            (Error 400 "Owner cannot leave the group", gs)
          else
            let members1 :=
              List.filter (fun m => negb (m_userId m =? session)%nat)
                          (members group) in
            (Ok, <[gid := set_members members1 group]> gs)
      end
  end.

Definition post_groups_invite (session gid : nat) (username0 : string)
    (st : Store) (gs : gmap nat Group) : Response * gmap nat Group :=
  match loadUser session st with
  | None => (Error 401 "User not found", gs)
  | Some user =>
      match gs !! gid with
      | None => (Error 404 "Group not found", gs)
      | Some group =>
          let isOwner := String.eqb (ownerUsername group) (username user) in
          let isAdmin := is_admin (role user) in
          if negb isOwner && negb isAdmin then
            (Error 403 "Only owner or admin can invite", gs)
          else
            let u := Js.trim username0 in
            if String.eqb u "" then (Error 400 "Missing username", gs)
            else
              match findOne u st with
              | None => (Error 404 "User not found", gs)
              | Some _ =>
                  if isPublic group then
                    (Error 400 "This group is public; no invite needed", gs)
                  else if includes u (invites group) then (Ok, gs)
                  else
                    (Ok, <[gid := set_invites (invites group ++ [u])%list group]> gs)
              end
      end
  end.

(** Requests for membership, served against the accounts [st]. *)
Inductive GroupCall : Type :=
| Join (session gid : nat)
| Leave (session gid : nat)
| Invite (session gid : nat) (username0 : string).

Definition groupServe (st : Store) (q : GroupCall) (gs : gmap nat Group)
  : gmap nat Group :=
  match q with
  | Join s g => snd (post_groups_join s g st gs)
  | Leave s g => snd (post_groups_leave s g st gs)
  | Invite s g n => snd (post_groups_invite s g n st gs)
  end.

Definition groupServeAll (st : Store) (qs : list GroupCall)
    (gs : gmap nat Group) : gmap nat Group :=
  fold_left (fun g q => groupServe st q g) qs gs.

(** The session may invite to the group: it belongs to the owner or to
    an admin. *)
Definition mayInvite (st : Store) (g : Group) (session : nat) : bool :=
  match users st !! session with
  | Some u => String.eqb (ownerUsername g) (username u) || is_admin (role u)
  | None => false
  end.

(** The request is an invitation of [name] to [gid] by someone who may
    invite. *)
Definition invitation (st : Store) (g : Group) (gid : nat) (name : string)
    (q : GroupCall) : bool :=
  match q with
  | Invite s g' n =>
      (g' =? gid)%nat && String.eqb (Js.trim n) name && mayInvite st g s
  | _ => false
  end.

(** How a group changes: visibility and owner stay. *)
Definition sameGroup (g g' : Group) : Prop :=
  isPublic g' = isPublic g
  /\ ownerUserId g' = ownerUserId g
  /\ ownerUsername g' = ownerUsername g.

(** The member ids are distinct and the owner is among them. *)
Definition soundGroup (g : Group) : Prop :=
  List.NoDup (List.map m_userId (members g))
  /\ isMember (ownerUserId g) g = true.

(** ** The direct-message history ([GET /dm/history]) *)

(** The filter of the query: sent by one of the two accounts to the
    other. *)
Definition between (a b : nat) (m : ChatMessage) : bool :=
  ((msg_from m =? a)%nat && (msg_to m =? b)%nat)
  || ((msg_from m =? b)%nat && (msg_to m =? a)%nat).

(** [ChatMessage.find(filter).sort({ createdAt: 1 }).limit(200)]: the
    store keeps the messages in the order of their creation, which is the
    order of [createdAt]. *)
Definition get_dm_history (session : nat) (with0 : string) (st : Store)
  : Response + list ChatMessage :=
  match loadUser session st with
  | None => inl (Error 401 "User not found")
  | Some user =>
      if negb (requireChatUnlocked user) then
        inl (Error 403 "Chat feature is locked. Unlock it in the Feature Shop.")
      else
        let withUsername := Js.trim with0 in
        if String.eqb withUsername "" then
          inl (Error 400 "Missing ?with=username")
        else
          match findOne withUsername st with
          | None => inl (Error 404 "User not found")
          | Some (otherId, other) =>
              (* Receiver must also have chat unlocked *)
              if negb (unlocked "chat" other) then
                inl (Error 403 "The other user has not unlocked chat yet.")
              else
                inr (firstn 200
                       (List.filter (between session otherId) (messages st)))
          end
  end.

(** All messages two accounts exchanged, oldest first. *)
Definition conversation (a b : nat) (st : Store) : list ChatMessage :=
  List.filter (between a b) (messages st).

(** No two accounts share a name. *)
Definition uniqueNames (st : Store) : Prop :=
  forall k1 k2 u1 u2,
    users st !! k1 = Some u1 -> users st !! k2 = Some u2 ->
    username u1 = username u2 -> k1 = k2.

(** Name and unlocked features are as before. *)
Definition sameProfile (u u' : User) : Prop :=
  username u' = username u /\ unlocks u' = unlocks u.

(** ** The transaction list ([GET /me] of the transactions router) *)

(** The filter of the query: the account is the source or the target. *)
Definition involves (id : nat) (tx : CoinTransaction) : bool :=
  bool_decide (fromUserId tx = Some id) || bool_decide (toUserId tx = Some id).

(** [.sort({ createdAt: -1 })]: newest first. Entries of the same time
    come in an order the database does not promise; here the one created
    first comes first. *)
Fixpoint insertDesc (tx : CoinTransaction) (l : list CoinTransaction)
  : list CoinTransaction :=
  match l with
  | [] => [tx]
  | y :: l' =>
      if createdAt y <? createdAt tx then tx :: y :: l'
      else y :: insertDesc tx l'
  end.

Definition sortDesc (l : list CoinTransaction) : list CoinTransaction :=
  fold_right insertDesc [] l.

Definition get_transactions_me (session : nat) (st : Store)
  : Response + list CoinTransaction :=
  match loadUser session st with
  | None => inl (Error 401 "User not found")
  | Some user =>
      inr (firstn 50 (sortDesc (List.filter (involves session) (ledger st))))
  end.
(** * Properties *)

(** ** JavaScript helpers on small inputs *)

Example trim_examples :
  Js.trim "  bob " = "bob" /\ Js.trim " a b " = "a b" /\ Js.trim "   " = ""
  /\ Js.trim (bytes [98; 111; 98; 194; 160]) = "bob"
  /\ Js.trim (bytes [239; 187; 191; 98; 111; 98; 226; 128; 168]) = "bob".
Proof. repeat split. Qed.

Example length_examples :
  Js.length "bob" = 3%nat
  /\ Js.length (bytes [195; 169; 195; 169]) = 2%nat
  /\ Js.length (bytes [97; 240; 159; 152; 128]) = 3%nat
  /\ Js.slice0 1 (bytes [195; 169; 195; 169]) = bytes [195; 169]
  /\ Js.slice0 2 (bytes [97; 240; 159; 152; 128]) = bytes [97; 237; 160; 189].
Proof. repeat split. Qed.

Example round_examples :
  Js.sub (10 ^ 17) 1 = 10 ^ 17
  /\ Js.sub (10 ^ 17) 100 = 10 ^ 17 - 96
  /\ Js.sub (10 ^ 17) 200 = 10 ^ 17 - 192
  /\ Js.add 30 (10 ^ 21) = 10 ^ 21
  /\ Js.add 2 3 = 5.
Proof. repeat split. Qed.

Example show_examples :
  Js.show 0 = "0" /\ Js.show 425 = "425" /\ Js.show (-45) = "-45"
  /\ Js.show (2 ^ 60) = "1152921504606847000"
  /\ Js.show (10 ^ 21) = "1e+21"
  /\ Js.show (- 2 ^ 70) = "-1.1805916207174113e+21".
Proof. repeat split. Qed.

Example get_examples :
  Js.get FEATURE_PRICES "chat" = Js.Own 100
  /\ Js.get FEATURE_PRICES "constructor" = Js.Inherited
  /\ Js.get FEATURE_PRICES "teleport" = Js.Undefined.
Proof. repeat split. Qed.

(** ** JavaScript numbers and strings *)

(** *** Numbers *)

Lemma round_exact z : Z.abs z < Js.safe -> Js.round z = z.
Proof.
  intros H. unfold Js.round.
  destruct (Z.leb_spec (Z.log2 (Z.abs z) - 52) 0) as [|He]; [done|].
  exfalso. assert (0 < Z.abs z).
  { destruct (Z.abs z) eqn:E; try lia. cbn in He. lia. }
  assert (Z.log2 (Z.abs z) < 53) by (apply Z.log2_lt_pow2; [done|exact H]).
  lia.
Qed.

Lemma round_nonneg z : 0 <= z -> 0 <= Js.round z.
Proof.
  intros H. unfold Js.round.
  destruct (Z.leb_spec (Z.log2 (Z.abs z) - 52) 0) as [|He]; [done|].
  cbv zeta.
  set (e := Z.log2 (Z.abs z) - 52) in *.
  assert (0 < 2 ^ e) by (apply Z.pow_pos_nonneg; lia).
  assert (0 <= Z.abs z / 2 ^ e) by (apply Z.div_pos; lia).
  assert (0 <= Z.sgn z) by lia.
  apply Z.mul_nonneg_nonneg; [done|].
  apply Z.mul_nonneg_nonneg; [|lia].
  repeat destruct (_ <? _); try destruct (Z.even _); lia.
Qed.

Lemma round_nonpos z : z <= 0 -> Js.round z <= 0.
Proof.
  intros H. unfold Js.round.
  destruct (Z.leb_spec (Z.log2 (Z.abs z) - 52) 0) as [|He]; [done|].
  cbv zeta.
  set (e := Z.log2 (Z.abs z) - 52) in *.
  assert (0 < 2 ^ e) by (apply Z.pow_pos_nonneg; lia).
  assert (0 <= Z.abs z / 2 ^ e) by (apply Z.div_pos; lia).
  assert (Z.sgn z <= 0) by lia.
  apply Z.mul_nonpos_nonneg; [done|].
  apply Z.mul_nonneg_nonneg; [|lia].
  repeat destruct (_ <? _); try destruct (Z.even _); lia.
Qed.

Lemma add_exact a b : Z.abs (a + b) < Js.safe -> Js.add a b = a + b.
Proof. apply round_exact. Qed.

Lemma sub_exact a b : Z.abs (a - b) < Js.safe -> Js.sub a b = a - b.
Proof. apply round_exact. Qed.



Lemma sub_nonneg a b : b <= a -> 0 <= Js.sub a b.
Proof. intros H. apply round_nonneg. lia. Qed.

Lemma add_nonneg a b : 0 <= a + b -> 0 <= Js.add a b.
Proof. apply round_nonneg. Qed.

Lemma mul_nonneg a b : 0 <= a -> 0 <= b -> 0 <= Js.mul a b.
Proof. intros Ha Hb. apply round_nonneg. by apply Z.mul_nonneg_nonneg. Qed.

Lemma show_safe z : Z.abs z < Js.safe -> Js.show z = Js.decimal z.
Proof.
  intros H. unfold Js.show, Js.showNat.
  destruct (Z.ltb_spec z 0) as [Hn|Hp].
  - destruct (Z.ltb_spec (- z) Js.safe); [|lia].
    destruct z as [|p|p]; try lia. reflexivity.
  - destruct (Z.ltb_spec z Js.safe); [done|lia].
Qed.

(** *** Strings *)

Lemma append_assoc (a b c : string) : (a +:+ b) +:+ c = a +:+ (b +:+ c).
Proof.
  induction a as [|x a IH]; [done|].
  change (String x ((a +:+ b) +:+ c) = String x (a +:+ (b +:+ c))).
  by rewrite IH.
Qed.

Lemma length_slice0 s : forall n, (Js.length (Js.slice0 n s) <= n)%nat.
Proof.
  induction s as [|a s IH]; intros n; cbn [Js.slice0 Js.length]; [lia|].
  destruct (Nat.leb_spec (Js.units a) n) as [Hle|Hgt].
  - cbn [Js.length]. specialize (IH (n - Js.units a)%nat). lia.
  - destruct (Nat.eqb_spec n 1) as [->|]; [|cbn; lia].
    unfold Js.highSurrogate. destruct s as [|b [|c s]]; cbn [Js.length]; try lia.
    set (u := (55296 + _)%N).
    assert (Hc : forall m, (m < 64)%N ->
               Js.units (ascii_of_N (128 + m)) = 0%nat).
    { intros m Hm. unfold Js.units, Js.is_cont, Js.byte.
      rewrite N_ascii_embedding by lia.
      destruct (N.leb_spec 128 (128 + m)); [|lia].
      destruct (N.ltb_spec (128 + m) 192); [done|lia]. }
    rewrite !Hc by (apply N.mod_lt; lia).
    change (Js.units (ascii_of_N 237)) with 1%nat. lia.
Qed.













(** ** Store primitives *)

Lemma findOne_Some name st id u :
  findOne name st = Some (id, u) ->
  users st !! id = Some u /\ username u = name.
Proof.
  unfold findOne. intros H. apply find_some in H as [Hin Heq].
  apply list_elem_of_In, elem_of_map_to_list in Hin.
  apply String.eqb_eq in Heq. auto.
Qed.

Lemma findOneAndUpdate_hit id cond upd st u :
  users st !! id = Some u -> cond u = true ->
  findOneAndUpdate id cond upd st
  = (Some (upd u), set_users (<[id := upd u]> (users st)) st).
Proof. intros Hu Hc. unfold findOneAndUpdate. by rewrite Hu, Hc. Qed.

Lemma findOneAndUpdate_miss id cond upd st u :
  users st !! id = Some u -> cond u = false ->
  findOneAndUpdate id cond upd st = (None, st).
Proof. intros Hu Hc. unfold findOneAndUpdate. by rewrite Hu, Hc. Qed.

Lemma findOneAndUpdate_absent id cond upd st :
  users st !! id = None -> findOneAndUpdate id cond upd st = (None, st).
Proof. intros Hu. unfold findOneAndUpdate. by rewrite Hu. Qed.

Lemma save_lookup id f st u :
  users st !! id = Some u -> users (save id f st) !! id = Some (f u).
Proof. intros Hu. unfold save; simpl. by rewrite lookup_alter_eq, Hu. Qed.

Lemma save_lookup_ne id id' f st :
  id <> id' -> users (save id f st) !! id' = users st !! id'.
Proof. intros Hne. unfold save; simpl. by rewrite lookup_alter_ne. Qed.

(** ** The catalog *)


Lemma catalog_entry c def :
  Js.own ACHIEVEMENTS c = Some def ->
  code def = c /\ 0 < coinsReward def
  /\ readDef c = Some (mkView (Some c) (Some (title def)) (coinsReward def)).
Proof.
  unfold readDef, Js.get. intros H. rewrite H. revert H.
  unfold ACHIEVEMENTS. cbn [Js.own].
  repeat match goal with
         | |- context [String.eqb ?k c] =>
             destruct (String.eqb_spec k c) as [<- | _];
             [intros [= <-]; cbn; repeat split; lia |]
         end.
  intros [=].
Qed.

(** ** awardAchievement *)



(** The three paths of [awardAchievement] on a code of the catalog. *)
Lemma awardAchievement_catalog uid c def now st :
  Js.own ACHIEVEMENTS c = Some def ->
  awardAchievement uid c now st =
  match users st !! uid with
  | None => (None, st)
  | Some u =>
      if lacksCode (Some c) u then
        if isBannedFromCoins (bans u) then
          let u' := pushAchievement (rewardEntry c def now) u in
          (Some u', set_users (<[uid := u']> (users st)) st)
        else
          let u' :=
            incCoins (coinsReward def) (pushAchievement (rewardEntry c def now) u) in
          (Some u',
           createTx (rewardTx uid u def now)
                    (set_users (<[uid := u']> (users st)) st))
      else (Some u, st)
  end.
Proof.
  intros Hc. destruct (catalog_entry c def Hc) as (_ & Hpos & Hdef).
  unfold awardAchievement. rewrite Hdef. cbn [def_reward def_code def_title].
  assert (Hr : (0 <? coinsReward def) = true) by (apply Z.ltb_lt; lia).
  rewrite Hr. unfold findOneAndUpdate, findById.
  destruct (users st !! uid) as [u|] eqn:Hu; [|done].
  destruct (lacksCode (Some c) u) eqn:Hl; cbn [andb].
  - destruct (isBannedFromCoins (bans u)); cbn [negb]; done.
  - done.
Qed.

Lemma option_string_eqb_eq a b : option_string_eqb a b = true <-> a = b.
Proof.
  destruct a, b; simpl; try (split; congruence).
  rewrite String.eqb_eq. split; congruence.
Qed.

Lemma lacksCode_count c u :
  lacksCode (Some c) u = true <-> countCode c u = 0%nat.
Proof.
  unfold lacksCode, countCode. induction (achievements u) as [|a l IH]; simpl.
  - done.
  - destruct (option_string_eqb (ach_code a) (Some c)); simpl.
    + split; intros ?; discriminate.
    + exact IH.
Qed.

Lemma countCode_push c e u :
  countCode c (pushAchievement e u)
  = (countCode c u
     + if option_string_eqb (ach_code e) (Some c) then 1 else 0)%nat.
Proof.
  unfold countCode, pushAchievement. cbn [achievements set_achievements].
  rewrite List.filter_app, length_app. cbn [List.filter].
  by destruct (option_string_eqb (ach_code e) (Some c)).
Qed.



Lemma countCode_after_award uid c0 now st k u c :
  (forall v, users st !! k = Some v -> (countCode c v <= 1)%nat) ->
  users (snd (awardAchievement uid c0 now st)) !! k = Some u ->
  (countCode c u <= 1)%nat.
Proof.
  intros Hinv. unfold awardAchievement.
  destruct (readDef c0) as [def|]; [|by apply Hinv].
  unfold findOneAndUpdate, findById.
  destruct (users st !! uid) as [v|] eqn:Hv; [|by apply Hinv].
  assert (Hpush : forall f : User -> User,
             (forall w, countCode c (f w) = countCode c w) ->
             lacksCode (def_code def) v = true ->
             users (set_users (<[uid := f (pushAchievement
                      (mkAchievement (def_code def) (def_title def) now) v)]>
                      (users st)) st) !! k = Some u ->
             (countCode c u <= 1)%nat).
  { intros f Hf Hl. cbn [users set_users].
    destruct (decide (uid = k)) as [<-|Hne].
    - rewrite lookup_insert_eq. intros [= <-].
      rewrite Hf, countCode_push. cbn [ach_code].
      destruct (option_string_eqb (def_code def) (Some c)) eqn:He.
      + apply option_string_eqb_eq in He. rewrite He in Hl.
        apply lacksCode_count in Hl. lia.
      + specialize (Hinv v Hv). lia.
    - rewrite lookup_insert_ne by done. apply Hinv. }
  destruct (lacksCode (def_code def) v) eqn:Hl; cbn [andb].
  - destruct (isBannedFromCoins (bans v)); cbn [negb].
    + apply (Hpush id); auto.
    + destruct (0 <? def_reward def); cbn [snd createTx users].
      * apply (Hpush (incCoins (def_reward def))); auto.
      * apply (Hpush id); auto.
  - by apply Hinv.
Qed.

Lemma awardAchievement_unique uid c0 now st :
  achievementsUnique st ->
  achievementsUnique (snd (awardAchievement uid c0 now st)).
Proof.
  intros Hinv id u c Hu.
  eapply countCode_after_award; [|exact Hu]. intros v Hv. by eapply Hinv.
Qed.





Lemma holdsCode_push c def now u :
  holdsCode c (pushAchievement (rewardEntry c def now) u) = true.
Proof.
  unfold holdsCode, lacksCode, pushAchievement.
  cbn [achievements set_achievements]. rewrite forallb_app. cbn.
  rewrite String.eqb_refl. cbn. by rewrite andb_false_r.
Qed.

Lemma awardAchievement_ledger uid c0 now st :
  (coinGranting uid c0 st = true ->
   exists tx, ledger (snd (awardAchievement uid c0 now st)) = (ledger st ++ [tx])%list
              /\ type tx = tx_achievement_reward
              /\ toUserId tx = Some uid
              /\ 0 < amount tx
              /\ Some (amount tx) = def_reward <$> readDef c0)
  /\ (coinGranting uid c0 st = false ->
      ledger (snd (awardAchievement uid c0 now st)) = ledger st).
Proof.
  unfold coinGranting, awardAchievement.
  destruct (readDef c0) as [def|]; [|by split].
  unfold findOneAndUpdate, findById.
  destruct (users st !! uid) as [u|]; [|by split].
  destruct (lacksCode (def_code def) u); cbn [andb]; [|by split].
  destruct (isBannedFromCoins (bans u)); cbn [andb negb]; [by split|].
  destruct (0 <? def_reward def) eqn:Hr; [|by split].
  split; [intros _|done]. eexists. cbn. repeat split. by apply Z.ltb_lt.
Qed.

(** C6. A coin-banned account that lacks a catalog code gets the code from
    [awardAchievement], with its balance and the ledger unchanged; and for
    every call, an [achievement_reward] entry is appended exactly when the
    coin-granting update matched with a positive reward. *)
Theorem awardAchievement_ban_suppression st uid c def u now :
  Js.own ACHIEVEMENTS c = Some def ->
  users st !! uid = Some u ->
  isBannedFromCoins (bans u) = true ->
  holdsCode c u = false ->
  (exists u' st',
      awardAchievement uid c now st = (Some u', st')
      /\ users st' !! uid = Some u'
      /\ holdsCode c u' = true
      /\ coins u' = coins u
      /\ ledger st' = ledger st)
  /\ (forall uid2 c2 now2 st2,
        (coinGranting uid2 c2 st2 = true <->
         exists tx,
           ledger (snd (awardAchievement uid2 c2 now2 st2)) = (ledger st2 ++ [tx])%list
           /\ type tx = tx_achievement_reward)
        /\ (coinGranting uid2 c2 st2 = false <->
            ledger (snd (awardAchievement uid2 c2 now2 st2)) = ledger st2)).
Proof.
  intros Hc Hu Hban Hholds. split.
  - rewrite (awardAchievement_catalog _ _ _ _ _ Hc), Hu, Hban.
    unfold holdsCode in Hholds. apply negb_false_iff in Hholds.
    rewrite Hholds. cbn zeta. eexists _, _. split; [reflexivity|].
    cbn [users set_users]. rewrite lookup_insert_eq.
    repeat split. apply holdsCode_push.
  - intros uid2 c2 now2 st2.
    destruct (awardAchievement_ledger uid2 c2 now2 st2) as [Hyes Hno].
    destruct (coinGranting uid2 c2 st2) eqn:Hg.
    + destruct (Hyes eq_refl) as (tx & Htx & Hty & _).
      split; split; try done.
      * intros _. by exists tx.
      * rewrite Htx. intros Heq.
        apply (f_equal (@length _)) in Heq. rewrite length_app in Heq.
        cbn in Heq. lia.
    + specialize (Hno eq_refl). split; split; try done.
      intros (tx & Htx & _). rewrite Hno in Htx.
      apply (f_equal (@length _)) in Htx. rewrite length_app in Htx.
      cbn in Htx. lia.
Qed.

Lemma awardAchievement_ban_suppression_witness :
  let bob := mkUser "bob" 40 RoleUser 1 (mkBans false true) [] [] 0 ∅ ∅ in
  let st := storeOf [(2%nat, bob)] in
  (exists u' st',
      awardAchievement 2 "FIRST_BUG_REPORT" 9 st = (Some u', st')
      /\ users st' !! 2%nat = Some u'
      /\ holdsCode "FIRST_BUG_REPORT" u' = true
      /\ coins u' = coins bob
      /\ ledger st' = ledger st)
  /\ (forall uid2 c2 now2 st2,
        (coinGranting uid2 c2 st2 = true <->
         exists tx,
           ledger (snd (awardAchievement uid2 c2 now2 st2)) = (ledger st2 ++ [tx])%list
           /\ type tx = tx_achievement_reward)
        /\ (coinGranting uid2 c2 st2 = false <->
            ledger (snd (awardAchievement uid2 c2 now2 st2)) = ledger st2)).
Proof.
  cbv zeta.
  apply (awardAchievement_ban_suppression _ 2 "FIRST_BUG_REPORT"
           (mkDef "FIRST_BUG_REPORT" "First Bug Report" 25)).
  - reflexivity.
  - vm_compute; reflexivity.
  - reflexivity.
  - reflexivity.
Defined.

(** The guard [if (!def) return null] does fire for a code that is neither
    in the catalog nor a member of [Object.prototype]. *)
Lemma awardAchievement_undefined_code uid c0 now st :
  Js.get ACHIEVEMENTS c0 = Js.Undefined ->
  awardAchievement uid c0 now st = (None, st).
Proof. intros H. unfold awardAchievement, readDef. by rewrite H. Qed.

(** C10, at the failing input. The code ["toString"] is not an entry of the
    catalog, yet [ACHIEVEMENTS["toString"]] is the inherited function, the
    guard does not fire, and the call goes on to the account store and
    returns the account instead of [null]. *)
Lemma awardAchievement_inherited_code_not_null :
  let alice :=
    mkUser "alice" 10 RoleUser 1 (mkBans false false)
           [mkAchievement (Some "FIRST_LOGIN") (Some "First Login") 1]
           [] 0 ∅ ∅ in
  let st := storeOf [(1%nat, alice)] in
  Js.own ACHIEVEMENTS "toString" = None
  /\ Js.get ACHIEVEMENTS "toString" = Js.Inherited
  /\ is_Some (fst (awardAchievement 1 "toString" 5 st)).
Proof. cbv zeta. repeat split. vm_compute. by eexists. Qed.

(** ** Balances stay non-negative *)

Lemma nonneg_users st st' :
  users st' = users st -> balancesNonneg st -> balancesNonneg st'.
Proof. unfold balancesNonneg. by intros ->. Qed.

Lemma nonneg_save k f st :
  balancesNonneg st ->
  (forall u, users st !! k = Some u -> 0 <= coins (f u)) ->
  balancesNonneg (save k f st).
Proof.
  intros H Hf j u. unfold save. cbn [users set_users].
  destruct (decide (k = j)) as [<-|Hne].
  - rewrite lookup_alter_eq. destruct (users st !! k) as [v|] eqn:E; [|done].
    intros [= <-]. by apply Hf.
  - rewrite lookup_alter_ne by done. apply H.
Qed.

Lemma nonneg_findOneAndUpdate k cond upd st :
  balancesNonneg st ->
  (forall u, 0 <= coins u -> 0 <= coins (upd u)) ->
  balancesNonneg (snd (findOneAndUpdate k cond upd st)).
Proof.
  intros H Hupd. unfold findOneAndUpdate.
  destruct (users st !! k) as [u|] eqn:E; [|done].
  destruct (cond u); [|done]. cbn [snd]. unfold balancesNonneg.
  cbn [users set_users]. apply map_Forall_insert_2; [|done].
  apply Hupd. by apply (H k).
Qed.

Lemma nonneg_createTx tx st :
  balancesNonneg st -> balancesNonneg (createTx tx st).
Proof. by apply nonneg_users. Qed.

Lemma nonneg_insert k u st :
  balancesNonneg st -> 0 <= coins u ->
  balancesNonneg (set_users (<[k := u]> (users st)) st).
Proof. intros H Hu. by apply map_Forall_insert_2. Qed.

Lemma nonneg_awardAchievement uid c0 now st :
  balancesNonneg st -> balancesNonneg (snd (awardAchievement uid c0 now st)).
Proof.
  intros H. unfold awardAchievement.
  destruct (readDef c0) as [def|]; [|done].
  unfold findOneAndUpdate, findById.
  destruct (users st !! uid) as [u|] eqn:E; [|done].
  pose proof (H uid u E) as Hu. cbn beta in Hu.
  destruct (lacksCode (def_code def) u); cbn [andb]; [|done].
  destruct (isBannedFromCoins (bans u)); cbn [negb snd].
  - by apply nonneg_insert.
  - destruct (0 <? def_reward def) eqn:Hr; cbn [snd].
    + apply nonneg_createTx, nonneg_insert; [done|].
      apply Z.ltb_lt in Hr. cbn. lia.
    + by apply nonneg_insert.
Qed.

Lemma nonneg_awardApOnce uid c ap st :
  balancesNonneg st -> balancesNonneg (snd (awardApOnce uid c ap st)).
Proof.
  intros H. unfold awardApOnce, updateOne.
  destruct (_ || _); [done|].
  pose proof (nonneg_findOneAndUpdate uid
    (fun u => negb (hasAwarded (Js.trim c) u)) (payAp (Js.trim c) ap) st H) as H1.
  destruct (findOneAndUpdate uid _ (payAp (Js.trim c) ap) st) as [[u|] st1];
    cbn [snd]; [|done].
  by apply H1.
Qed.

Lemma nonneg_recordFeatureAction FM uid f k d st :
  balancesNonneg st ->
  balancesNonneg (snd (recordFeatureAction FM uid f k d st)).
Proof.
  intros H. unfold recordFeatureAction.
  destruct (d =? 0); [done|]. destruct (_ || _); [done|].
  pose proof (nonneg_findOneAndUpdate uid (fun _ => true)
                (incStat (Js.trim k) d) st H) as H1.
  destruct (findOneAndUpdate uid _ (incStat (Js.trim k) d) st) as [user st1].
  cbn [snd] in *. specialize (H1 (fun u Hu => Hu)).
  generalize (match user with
              | Some u => readStat (Js.trim k) u
              | None => 0
              end) as v.
  intros v. revert st1 H1.
  induction (FM (Js.trim f) (Js.trim k)) as [|m ms IH]; intros st1 H1; [done|].
  cbn [fold_left]. apply IH. unfold awardMilestone.
  destruct (String.eqb _ _); [done|]. destruct (_ <=? _); [|done].
  by apply nonneg_awardApOnce.
Qed.

Lemma nonneg_post_transfer s t a now st :
  balancesNonneg st -> balancesNonneg (snd (post_transfer s t a now st)).
Proof.
  intros H. unfold post_transfer, loadUser, findById.
  destruct (users st !! s) as [user|] eqn:Eu; [|done].
  destruct (isBannedFromCoins (bans user)); [done|].
  destruct (_ || _) eqn:Ev; [done|]. apply orb_false_elim in Ev as [_ Ha].
  destruct (findOne _ st) as [[tid target]|] eqn:Ef; [|done].
  destruct (String.eqb _ _); [done|].
  destruct (if negb _ then _ else _); [|done].
  destruct (coins user <? a) eqn:Hlt; [done|]. cbn [snd].
  apply Z.ltb_ge in Hlt. apply Z.leb_gt in Ha.
  apply findOne_Some in Ef as [Ht _]. pose proof (H tid target Ht) as Hc.
  cbn beta in Hc.
  assert (balancesNonneg (save s (set_coins (Js.sub (coins user) a)) st))
    by (apply nonneg_save; [done|]; intros; cbn; by apply sub_nonneg).
  apply nonneg_createTx. destruct (negb _); [|done].
  apply nonneg_save; [done|]. intros; cbn. apply add_nonneg. lia.
Qed.

Lemma nonneg_post_level_up s l now st :
  balancesNonneg st -> balancesNonneg (snd (post_level_up s l now st)).
Proof.
  intros H. unfold post_level_up, loadUser, findById.
  destruct (users st !! s) as [user|] eqn:Eu; [|done].
  destruct l as [lvl|]; [|done].
  destruct (_ || _) eqn:Ev; [done|]. apply orb_false_elim in Ev as [Hl _].
  destruct (isBannedFromCoins (bans user)); [done|].
  destruct (negb (is_admin (role user)) && _) eqn:Hc; [done|].
  cbn [snd]. pose proof (H s user Eu) as Hu. cbn beta in Hu.
  match goal with
  | |- balancesNonneg (if _ then _ else ?st3) =>
      assert (H3 : balancesNonneg st3)
  end.
  { match goal with
    | |- balancesNonneg (if _ then _ else ?st2) =>
        assert (H2 : balancesNonneg st2)
    end.
    { apply nonneg_createTx, nonneg_save; [done|]. intros u _. cbn.
      destruct (negb (is_admin (role user))); [|done].
      cbn in Hc. apply Z.ltb_ge in Hc. by apply sub_nonneg. }
    destruct (2 <=? lvl); [by apply nonneg_awardAchievement|done]. }
  destruct (3 <=? lvl); [by apply nonneg_awardAchievement|done].
Qed.

Lemma nonneg_post_buy_feature s k now st :
  balancesNonneg st -> balancesNonneg (snd (post_buy_feature s k now st)).
Proof.
  intros H. unfold post_buy_feature, loadUser, findById.
  destruct (users st !! s) as [user|] eqn:Eu; [|done].
  destruct (Js.get FEATURE_PRICES k) as [cost| |]; [| |done].
  - assert (Hgoal : balancesNonneg (snd
      (if isBannedFromCoins (bans user)
       then (Error 403 "You are banned from using coins", st)
       else if unlocked k user
            then (Error 400 "Feature already unlocked", st)
            else if coins user <? cost
                 then (Error 400 "Not enough coins", st)
                 else (Ok, createTx
                        (mkTx tx_feature_purchase (Some s)
                           (Some (username user)) None None cost
                           ("Feature purchase: " +:+ k) now)
                        (save s (fun u => set_unlocks (<[k:=true]> (unlocks user))
                                            (set_coins (Js.sub (coins user) cost) u))
                              st))))).
    { destruct (isBannedFromCoins _); [done|]. destruct (unlocked _ _); [done|].
      destruct (coins user <? cost) eqn:Hlt; [done|]. cbn [snd].
      apply Z.ltb_ge in Hlt. apply nonneg_createTx, nonneg_save; [done|].
      intros; cbn; by apply sub_nonneg. }
    destruct cost; try exact Hgoal. done.
  - destruct (isBannedFromCoins _); [done|]. by destruct (unlocked _ _).
Qed.

Lemma nonneg_post_adjust s n d r now st :
  balancesNonneg st -> balancesNonneg (snd (post_adjust s n d r now st)).
Proof.
  intros H. unfold post_adjust, loadUser, findById.
  destruct (users st !! s) as [user|] eqn:Eu; [|done].
  destruct (negb _); [done|]. destruct (String.eqb _ _); [done|].
  destruct (findOne _ st) as [[tid target]|] eqn:Ef; [|done]. cbn [snd].
  apply nonneg_createTx, nonneg_save; [done|]. intros; cbn; lia.
Qed.

Lemma nonneg_dmTransfer s tid user target c now st st1 :
  balancesNonneg st ->
  users st !! tid = Some target ->
  dmTransfer s tid user target c now st = inr st1 ->
  balancesNonneg st1.
Proof.
  intros H Ht. unfold dmTransfer.
  destruct (Z.ltb_spec 0 c); [|by intros [= <-]].
  destruct (isBannedFromCoins (bans user)); [done|].
  destruct (Z.ltb_spec (coins user) c); [done|]. intros [= <-].
  pose proof (H tid target Ht) as Hc. cbn beta in Hc.
  assert (balancesNonneg (save s (set_coins (Js.sub (coins user) c)) st))
    by (apply nonneg_save; [done|]; intros; cbn; by apply sub_nonneg).
  apply nonneg_createTx. destruct (negb _); [|done].
  apply nonneg_save; [done|]. intros; cbn. apply add_nonneg. lia.
Qed.

Lemma nonneg_post_dm_send FM s t x i c now st :
  balancesNonneg st ->
  balancesNonneg (snd (post_dm_send FM s t x i c now st)).
Proof.
  intros H. unfold post_dm_send, loadUser, findById.
  destruct (users st !! s) as [user|] eqn:Eu; [|done].
  destruct (negb (requireChatUnlocked user)); [done|].
  destruct (_ && negb (unlocked "imageUpload" user)); [done|].
  destruct (isBannedFromChat _); [done|].
  destruct (String.eqb t ""); [done|].
  destruct (findOne _ st) as [[tid target]|] eqn:Ef; [|done].
  destruct (String.eqb (username target) _); [done|].
  destruct (negb (unlocked "chat" target)); [done|].
  destruct (_ && (level user <? 2)); [done|].
  apply findOne_Some in Ef as [Ht _].
  destruct (dmTransfer s tid user target c now st) as [r|st1] eqn:Ed; [done|].
  pose proof (nonneg_dmTransfer _ _ _ _ _ _ _ _ H Ht Ed) as H1.
  cbn [snd].
  destruct (negb (String.eqb (Js.trim i) ""));
    repeat apply nonneg_recordFeatureAction; by apply (nonneg_users st1).
Qed.

Create HintDb nonneg.

#[local] Hint Resolve nonneg_post_transfer nonneg_post_dm_send
  nonneg_post_buy_feature nonneg_post_level_up nonneg_post_adjust
  nonneg_awardAchievement nonneg_recordFeatureAction : nonneg.

Lemma nonneg_step FM o now st :
  balancesNonneg st -> balancesNonneg (step FM o now st).
Proof. destruct o; cbn [step]; auto with nonneg. Qed.

Lemma nonneg_trace FM ops : forall st,
  balancesNonneg st -> Forall balancesNonneg (trace FM ops st).
Proof.
  induction ops as [|[o now] ops IH]; intros st H; cbn [trace]; [constructor|].
  pose proof (nonneg_step FM o now st H). constructor; auto.
Qed.

Lemma nonneg_run FM ops : forall st,
  balancesNonneg st -> balancesNonneg (run FM ops st).
Proof.
  unfold run. induction ops as [|[o now] ops IH]; intros st H; [done|].
  cbn [fold_left fst snd]. by apply IH, nonneg_step.
Qed.

Lemma post_adjust_accepted st admin a name d reason now tid target :
  users st !! admin = Some a ->
  role a = RoleAdmin ->
  name <> "" ->
  findOne (Js.trim name) st = Some (tid, target) ->
  post_adjust admin name d reason now st
  = (Ok,
     createTx (mkTx tx_admin_adjust (Some admin) (Some (username a))
                 (Some tid) (Some (username target)) (Z.abs d)
                 (adjustDescription d reason) now)
       (save tid (set_coins (Z.max 0 (Js.add (coins target) d))) st)).
Proof.
  intros Ha Hr Hn Hf. unfold post_adjust, loadUser, findById, requireAdmin.
  rewrite Ha, Hr. cbn [is_admin negb].
  destruct (String.eqb_spec name ""); [done|]. by rewrite Hf.
Qed.

(** C2. Along every sequence of operations run one after the other from a
    store with non-negative balances, every balance is non-negative after
    each operation; and an admin adjustment whose delta is more negative
    than the target's balance is accepted and leaves that balance at
    exactly 0. *)
Theorem balance_never_negative FM :
  (forall ops st,
      balancesNonneg st ->
      Forall balancesNonneg (trace FM ops st)
      /\ balancesNonneg (run FM ops st))
  /\ (forall st admin a name d reason now tid target,
        users st !! admin = Some a ->
        role a = RoleAdmin ->
        name <> "" ->
        findOne (Js.trim name) st = Some (tid, target) ->
        coins target + d < 0 ->
        exists st' u',
          post_adjust admin name d reason now st = (Ok, st')
          /\ users st' !! tid = Some u'
          /\ coins u' = 0).
Proof.
  split.
  - intros ops st H. split; [by apply nonneg_trace|by apply nonneg_run].
  - intros st admin a name d reason now tid target Ha Hr Hn Hf Hneg.
    eexists _, _. split; [by eapply post_adjust_accepted|].
    apply findOne_Some in Hf as [Ht _]. cbn [users createTx].
    split; [by apply save_lookup|]. cbn [coins set_coins].
    pose proof (round_nonpos (coins target + d)) as Hr'.
    unfold Js.add. lia.
Qed.

Lemma balance_never_negative_witness :
  let root := mkUser "root" 999999 RoleAdmin 10 (mkBans false false) [] [] 0 ∅ ∅ in
  let bob := mkUser "bob" 30 RoleUser 1 (mkBans false false) [] [] 0 ∅ ∅ in
  let st := storeOf [(1%nat, root); (2%nat, bob)] in
  let ops := [(OpTransfer 2 "root" 20, 100); (OpLevelUp 1 (Some 10), 200);
              (OpAdjust 1 "bob" (-50) "", 300); (OpBuyFeature 2 "chat", 400)] in
  Forall balancesNonneg (trace (fun _ _ => []) ops st)
  /\ balancesNonneg (run (fun _ _ => []) ops st)
  /\ exists st' u',
       post_adjust 1 " bob" (-100) "cleanup" 500 st = (Ok, st')
       /\ users st' !! 2%nat = Some u'
       /\ coins u' = 0.
Proof.
  intros root bob st ops.
  destruct (balance_never_negative (fun _ _ => [])) as [Hinv Hclamp].
  destruct (Hinv ops st) as [H1 H2].
  { apply (bool_decide_unpack _). vm_compute. exact I. }
  split; [exact H1|]. split; [exact H2|].
  apply (Hclamp st 1%nat root " bob" (-100) "cleanup" 500 2%nat bob).
  - vm_compute; reflexivity.
  - reflexivity.
  - discriminate.
  - vm_compute; reflexivity.
  - vm_compute; reflexivity.
Defined.

(** ** Admin adjustment *)

Lemma show_sign d :
  Z.abs d < Js.safe ->
  (if 0 <=? d then "+" else "") +:+ Js.show d = signed d.
Proof.
  intros H. rewrite (show_safe _ H). unfold signed.
  destruct d as [|p|p]; cbn [Z.leb Z.compare Z.abs]; done.
Qed.

(** C8. For an admin actor and an existing target, when the delta and
    the sum of balance and delta are below 2^53 in magnitude,
    [POST /adjust] stores max(0, old + delta) as the target's balance,
    changes no other account, and appends one [admin_adjust] entry whose
    amount is |delta| and whose description starts with the signed
    delta. *)
Theorem post_adjust_semantics st admin a name d reason now tid target :
  users st !! admin = Some a ->
  role a = RoleAdmin ->
  name <> "" ->
  findOne (Js.trim name) st = Some (tid, target) ->
  Z.abs d < Js.safe ->
  Z.abs (coins target + d) < Js.safe ->
  exists st' tx suffix,
    post_adjust admin name d reason now st = (Ok, st')
    /\ users st' !! tid = Some (set_coins (Z.max 0 (coins target + d)) target)
    /\ (forall k, k <> tid -> users st' !! k = users st !! k)
    /\ ledger st' = (ledger st ++ [tx])%list
    /\ type tx = tx_admin_adjust
    /\ toUserId tx = Some tid
    /\ amount tx = Z.abs d
    /\ description tx = "Admin adjust (" +:+ signed d +:+ ")" +:+ suffix.
Proof.
  intros Ha Hr Hn Hf Hd Hsum.
  eexists _, _, _. split; [by eapply post_adjust_accepted|].
  apply findOne_Some in Hf as [Ht _]. cbn [users ledger createTx].
  split; [by rewrite (add_exact _ _ Hsum); apply save_lookup|].
  split; [by intros k Hk; apply save_lookup_ne|].
  split; [reflexivity|]. cbn [type toUserId amount description].
  repeat split. unfold adjustDescription. rewrite <- (show_sign _ Hd).
  by rewrite !append_assoc.
Qed.

Lemma post_adjust_semantics_witness :
  let root := mkUser "root" 999999 RoleAdmin 10 (mkBans false false) [] [] 0 ∅ ∅ in
  let bob := mkUser "bob" 30 RoleUser 1 (mkBans false true) [] [] 0 ∅ ∅ in
  let st := storeOf [(1%nat, root); (2%nat, bob)] in
  exists st' tx suffix,
    post_adjust 1 "bob" (-45) "refund" 500 st = (Ok, st')
    /\ users st' !! 2%nat = Some (set_coins (Z.max 0 (coins bob + -45)) bob)
    /\ (forall k, k <> 2%nat -> users st' !! k = users st !! k)
    /\ ledger st' = (ledger st ++ [tx])%list
    /\ type tx = tx_admin_adjust
    /\ toUserId tx = Some 2%nat
    /\ amount tx = Z.abs (-45)
    /\ description tx = "Admin adjust (" +:+ signed (-45) +:+ ")" +:+ suffix.
Proof.
  cbv zeta.
  apply (post_adjust_semantics _ 1
           (mkUser "root" 999999 RoleAdmin 10 (mkBans false false) [] [] 0 ∅ ∅)).
  - vm_compute; reflexivity.
  - reflexivity.
  - discriminate.
  - vm_compute; reflexivity.
  - vm_compute; reflexivity.
  - vm_compute; reflexivity.
Defined.

(** Beyond 2^53 the sum is rounded: a delta of 10^21 on a balance of 30
    stores 10^21, not 10^21 + 30, and the description carries the delta in
    exponent form. *)
Lemma post_adjust_rounds_large_delta :
  let root := mkUser "root" 999999 RoleAdmin 10 (mkBans false false) [] [] 0 ∅ ∅ in
  let bob := mkUser "bob" 30 RoleUser 1 (mkBans false false) [] [] 0 ∅ ∅ in
  let st := storeOf [(1%nat, root); (2%nat, bob)] in
  let st' := snd (post_adjust 1 "bob" (10 ^ 21) "" 500 st) in
  fst (post_adjust 1 "bob" (10 ^ 21) "" 500 st) = Ok
  /\ coins <$> users st' !! 2%nat = Some (10 ^ 21)
  /\ coins <$> users st' !! 2%nat <> Some (Z.max 0 (coins bob + 10 ^ 21))
  /\ description <$> last (ledger st') = Some "Admin adjust (+1e+21)".
Proof.
  cbv zeta. split; [vm_compute; reflexivity|].
  split; [vm_compute; reflexivity|].
  split; [vm_compute; discriminate|vm_compute; reflexivity].
Qed.

(** ** Frames: what the stat tracker leaves alone *)

Lemma findOneAndUpdate_ledger k cond upd st :
  ledger (snd (findOneAndUpdate k cond upd st)) = ledger st.
Proof.
  unfold findOneAndUpdate. destruct (users st !! k) as [u|]; [|done].
  by destruct (cond u).
Qed.

Lemma findOneAndUpdate_frame {A} (proj : User -> A) k cond upd st :
  (forall u, proj (upd u) = proj u) ->
  forall j, proj <$> users (snd (findOneAndUpdate k cond upd st)) !! j
            = proj <$> users st !! j.
Proof.
  intros Hupd j. unfold findOneAndUpdate.
  destruct (users st !! k) as [u|] eqn:E; [|done].
  destruct (cond u); [|done]. cbn [snd users set_users].
  destruct (decide (k = j)) as [<-|Hne].
  - rewrite lookup_insert_eq, E. cbn. by rewrite Hupd.
  - by rewrite lookup_insert_ne.
Qed.

Lemma awardApOnce_ledger uid c ap st :
  ledger (snd (awardApOnce uid c ap st)) = ledger st.
Proof.
  unfold awardApOnce, updateOne. destruct (_ || _); [done|].
  pose proof (findOneAndUpdate_ledger uid
    (fun u => negb (hasAwarded (Js.trim c) u)) (payAp (Js.trim c) ap) st) as H.
  by destruct (findOneAndUpdate uid _ (payAp (Js.trim c) ap) st) as [[u|] st1].
Qed.

Lemma awardApOnce_frame {A} (proj : User -> A) uid c ap st :
  (forall p l u, proj (set_achievementPoints p (set_awarded l u)) = proj u) ->
  forall j, proj <$> users (snd (awardApOnce uid c ap st)) !! j
            = proj <$> users st !! j.
Proof.
  intros Hp j. unfold awardApOnce, updateOne. destruct (_ || _); [done|].
  pose proof (findOneAndUpdate_frame proj uid
    (fun u => negb (hasAwarded (Js.trim c) u)) (payAp (Js.trim c) ap) st
    (fun u => Hp _ _ u) j) as H.
  by destruct (findOneAndUpdate uid _ (payAp (Js.trim c) ap) st) as [[u|] st1].
Qed.

Lemma recordFeatureAction_ledger FM uid f k d st :
  ledger (snd (recordFeatureAction FM uid f k d st)) = ledger st.
Proof.
  unfold recordFeatureAction.
  destruct (d =? 0); [done|]. destruct (_ || _); [done|].
  pose proof (findOneAndUpdate_ledger uid (fun _ => true)
                (incStat (Js.trim k) d) st) as H1.
  destruct (findOneAndUpdate uid _ (incStat (Js.trim k) d) st) as [user st1].
  cbn [snd] in *. rewrite <- H1.
  generalize (match user with
              | Some u => readStat (Js.trim k) u
              | None => 0
              end) as v.
  intros v. clear H1. revert st1.
  induction (FM (Js.trim f) (Js.trim k)) as [|m ms IH]; intros st1; [done|].
  cbn [fold_left]. rewrite IH. unfold awardMilestone.
  destruct (String.eqb _ _); [done|]. destruct (_ <=? _); [|done].
  apply awardApOnce_ledger.
Qed.

Lemma recordFeatureAction_frame {A} (proj : User -> A) FM uid f k d st :
  (forall p l u, proj (set_achievementPoints p (set_awarded l u)) = proj u) ->
  (forall s u, proj (set_stats s u) = proj u) ->
  forall j, proj <$> users (snd (recordFeatureAction FM uid f k d st)) !! j
            = proj <$> users st !! j.
Proof.
  intros Hp Hs j. unfold recordFeatureAction.
  destruct (d =? 0); [done|]. destruct (_ || _); [done|].
  pose proof (findOneAndUpdate_frame proj uid (fun _ => true)
                (incStat (Js.trim k) d) st (fun u => Hs _ u) j) as H1.
  destruct (findOneAndUpdate uid _ (incStat (Js.trim k) d) st) as [user st1].
  cbn [snd] in *. rewrite <- H1.
  generalize (match user with
              | Some u => readStat (Js.trim k) u
              | None => 0
              end) as v.
  intros v. clear H1. revert st1.
  induction (FM (Js.trim f) (Js.trim k)) as [|m ms IH]; intros st1; [done|].
  cbn [fold_left]. rewrite IH. unfold awardMilestone.
  destruct (String.eqb _ _); [done|]. destruct (_ <=? _); [|done].
  by apply awardApOnce_frame.
Qed.

(** ** Transfers *)

Lemma post_transfer_accepted st s user t amt now tid target :
  users st !! s = Some user ->
  isBannedFromCoins (bans user) = false ->
  t <> "" -> 0 < amt -> amt <= coins user ->
  findOne (Js.trim t) st = Some (tid, target) ->
  username target <> username user ->
  (is_admin (role user) = true \/ dailyLimitsOK s 20 2000 now st = LimitsOk) ->
  post_transfer s t amt now st
  = (Ok,
     createTx (mkTx tx_transfer (Some s) (Some (username user))
                 (Some tid) (Some (username target)) amt "User transfer" now)
       (if negb (isBannedFromCoins (bans target))
        then save tid (set_coins (Js.add (coins target) amt))
               (save s (set_coins (Js.sub (coins user) amt)) st)
        else save s (set_coins (Js.sub (coins user) amt)) st)).
Proof.
  intros Hu Hb Ht Ha Hc Hf Hn Hl. unfold post_transfer, loadUser, findById.
  rewrite Hu, Hb. destruct (String.eqb_spec t ""); [done|]. cbn [orb].
  destruct (Z.leb_spec amt 0); [lia|]. rewrite Hf.
  destruct (String.eqb_spec (username target) (username user)); [done|].
  assert (Hlim : (if negb (is_admin (role user))
                  then dailyLimitsOK s 20 2000 now st else LimitsOk) = LimitsOk).
  { destruct Hl as [-> | ->]; [done|]. by destruct (negb _). }
  rewrite Hlim. destruct (Z.ltb_spec (coins user) amt); [lia|]. done.
Qed.

Lemma post_dm_send_accepted FM st s user t text imageUrl amt now tid target :
  users st !! s = Some user ->
  requireChatUnlocked user = true ->
  isBannedFromChat (bans user) = false ->
  (Js.trim imageUrl = ""
   \/ (unlocked "imageUpload" user = true /\ 2 <= level user)) ->
  t <> "" ->
  findOne (Js.trim t) st = Some (tid, target) ->
  username target <> username user ->
  unlocked "chat" target = true ->
  0 < amt -> amt <= coins user ->
  isBannedFromCoins (bans user) = false ->
  exists st',
    post_dm_send FM s t text imageUrl amt now st = (Ok, st')
    /\ ledger st'
       = ledger (createTx (mkTx tx_transfer (Some s) (Some (username user))
                   (Some tid) (Some (username target)) amt "DM transfer" now) st)
    /\ forall j,
         coins <$> users st' !! j
         = coins <$> users
             (if negb (isBannedFromCoins (bans target))
              then save tid (set_coins (Js.add (coins target) amt))
                     (save s (set_coins (Js.sub (coins user) amt)) st)
              else save s (set_coins (Js.sub (coins user) amt)) st) !! j.
Proof.
  intros Hu Hchat Hcb Himg Ht Hf Hn Htc Ha Hc Hb.
  unfold post_dm_send, loadUser, findById.
  rewrite Hu, Hchat, Hcb. cbn [negb].
  assert (Himg1 : negb (String.eqb (Js.trim imageUrl) "")
                  && negb (unlocked "imageUpload" user) = false).
  { destruct Himg as [-> | [-> _]]; [done|]. by rewrite andb_false_r. }
  assert (Himg2 : negb (String.eqb (Js.trim imageUrl) "")
                  && (level user <? 2) = false).
  { destruct Himg as [-> | [_ Hl]]; [done|].
    destruct (Z.ltb_spec (level user) 2); [lia|]. by rewrite andb_false_r. }
  rewrite Himg1, Himg2. destruct (String.eqb_spec t ""); [done|].
  rewrite Hf. destruct (String.eqb_spec (username target) (username user)); [done|].
  rewrite Htc. cbn [negb]. unfold dmTransfer. rewrite Hb.
  destruct (Z.ltb_spec 0 amt); [|lia].
  destruct (Z.ltb_spec (coins user) amt); [lia|].
  eexists. split; [reflexivity|]. split.
  - destruct (negb (String.eqb (Js.trim imageUrl) ""));
      rewrite ?recordFeatureAction_ledger; cbn [ledger createTx];
      by destruct (negb (isBannedFromCoins (bans target))).
  - intros j.
    destruct (negb (String.eqb (Js.trim imageUrl) ""));
      rewrite ?(recordFeatureAction_frame coins) by done;
      cbn [users createTx]; done.
Qed.

(** C4. An accepted transfer of [amt] from a balance below 2^53 to a
    coin-banned recipient, through [POST /transfer] or through the coin
    transfer of [POST /dm/send], debits the sender by exactly [amt],
    leaves the recipient's balance as it was, and records a [transfer]
    entry of amount [amt]. *)
Theorem transfer_to_banned_recipient FM st s user t amt now tid target :
  users st !! s = Some user ->
  isBannedFromCoins (bans user) = false ->
  t <> "" -> 0 < amt -> amt <= coins user ->
  coins user < Js.safe ->
  findOne (Js.trim t) st = Some (tid, target) ->
  username target <> username user ->
  isBannedFromCoins (bans target) = true ->
  ((is_admin (role user) = true \/ dailyLimitsOK s 20 2000 now st = LimitsOk) ->
   exists st', post_transfer s t amt now st = (Ok, st')
               /\ debitedOnly st st' s tid user target amt)
  /\ (forall text imageUrl,
        requireChatUnlocked user = true ->
        isBannedFromChat (bans user) = false ->
        unlocked "chat" target = true ->
        (Js.trim imageUrl = ""
         \/ (unlocked "imageUpload" user = true /\ 2 <= level user)) ->
        exists st', post_dm_send FM s t text imageUrl amt now st = (Ok, st')
                    /\ debitedOnly st st' s tid user target amt).
Proof.
  intros Hu Hb Ht Ha Hc Hsafe Hf Hn Htb.
  pose proof (findOne_Some _ _ _ _ Hf) as [Htg _].
  assert (Hne : s <> tid).
  { intros ->. rewrite Hu in Htg. by injection Htg as ->. }
  assert (Hsub : Js.sub (coins user) amt = coins user - amt)
    by (apply sub_exact; lia).
  split.
  - intros Hl. eexists. split; [by eapply post_transfer_accepted|].
    rewrite Htb. cbn [negb]. unfold debitedOnly. cbn [users ledger createTx].
    rewrite (save_lookup _ _ _ _ Hu), save_lookup_ne, Htg, Hsub by done.
    repeat split. by eexists.
  - intros text imageUrl Hchat Hcb Htc Himg.
    destruct (post_dm_send_accepted FM st s user t text imageUrl amt now tid
                target Hu Hchat Hcb Himg Ht Hf Hn Htc Ha Hc Hb)
      as (st' & Hrun & Hled & Hcoins).
    exists st'. split; [exact Hrun|]. unfold debitedOnly.
    rewrite !Hcoins, Htb. cbn [negb].
    rewrite (save_lookup _ _ _ _ Hu), save_lookup_ne, Htg, Hsub by done.
    repeat split. rewrite Hled. by eexists.
Qed.

Lemma transfer_to_banned_recipient_witness :
  let alice := chatUser "alice" 100 false in
  let mallory := chatUser "mallory" 7 true in
  let st := storeOf [(1%nat, alice); (2%nat, mallory)] in
  (exists st', post_transfer 1 "mallory" 60 5000 st = (Ok, st')
               /\ debitedOnly st st' 1 2 alice mallory 60)
  /\ (exists st',
        post_dm_send sampleMilestones 1 " mallory" "for you" "" 60 5000 st
        = (Ok, st')
        /\ debitedOnly st st' 1 2 alice mallory 60).
Proof.
  cbv zeta. split.
  - apply (transfer_to_banned_recipient sampleMilestones
             (storeOf [(1%nat, chatUser "alice" 100 false);
                       (2%nat, chatUser "mallory" 7 true)])
             1 (chatUser "alice" 100 false) "mallory" 60 5000 2
             (chatUser "mallory" 7 true)).
    + vm_compute; reflexivity.
    + reflexivity.
    + discriminate.
    + lia.
    + vm_compute; discriminate.
    + vm_compute; reflexivity.
    + vm_compute; reflexivity.
    + vm_compute; discriminate.
    + reflexivity.
    + right. vm_compute; reflexivity.
  - apply (transfer_to_banned_recipient sampleMilestones
             (storeOf [(1%nat, chatUser "alice" 100 false);
                       (2%nat, chatUser "mallory" 7 true)])
             1 (chatUser "alice" 100 false) " mallory" 60 5000 2
             (chatUser "mallory" 7 true)).
    + vm_compute; reflexivity.
    + reflexivity.
    + discriminate.
    + lia.
    + vm_compute; discriminate.
    + vm_compute; reflexivity.
    + vm_compute; reflexivity.
    + vm_compute; discriminate.
    + reflexivity.
    + vm_compute; reflexivity.
    + reflexivity.
    + vm_compute; reflexivity.
    + left. vm_compute; reflexivity.
Defined.

(** At a balance of 10^17 the subtraction of 1 is rounded away: the
    transfer to the coin-banned recipient is accepted and recorded, and the
    sender keeps the whole balance. *)
Lemma transfer_to_banned_recipient_rounds :
  let alice := chatUser "alice" (10 ^ 17) false in
  let mallory := chatUser "mallory" 7 true in
  let st := storeOf [(1%nat, alice); (2%nat, mallory)] in
  let st' := snd (post_transfer 1 "mallory" 1 5000 st) in
  fst (post_transfer 1 "mallory" 1 5000 st) = Ok
  /\ coins <$> users st' !! 1%nat = Some (10 ^ 17)
  /\ ~ debitedOnly st st' 1 2 alice mallory 1.
Proof.
  cbv zeta. split; [vm_compute; reflexivity|].
  split; [vm_compute; reflexivity|].
  intros [H _]. vm_compute in H. discriminate.
Qed.

(** ** The rate window *)

Lemma dailyLimitsOK_spec uid now st :
  dailyLimitsOK uid 20 2000 now st = LimitsOk
  <-> windowCount uid now st < 20 /\ windowSum uid now st < 2000.
Proof.
  unfold dailyLimitsOK, windowCount, windowSum, windowTransfers.
  destruct (Z.leb_spec 20 (Z.of_nat (length
     (List.filter (inWindow uid (now - 24 * 60 * 60 * 1000)) (ledger st)))));
    [split; [done|lia]|].
  destruct (Z.leb_spec 2000 (fold_left (fun a t => a + amount t)
     (List.filter (inWindow uid (now - 24 * 60 * 60 * 1000)) (ledger st)) 0));
    [split; [done|lia]|].
  split; [lia|done].
Qed.

(** [POST /transfer] is gated by the rate window: over quota, a non-admin
    request changes nothing and is not accepted, and it is answered with
    the quota reason (status 429) once the earlier validations pass. *)
Lemma post_transfer_rate_gated st s user t amt now :
  users st !! s = Some user ->
  is_admin (role user) = false ->
  (20 <= windowCount s now st \/ 2000 <= windowSum s now st) ->
  snd (post_transfer s t amt now st) = st
  /\ fst (post_transfer s t amt now st) <> Ok
  /\ (isBannedFromCoins (bans user) = false -> t <> "" -> 0 < amt ->
      (forall tid target, findOne (Js.trim t) st = Some (tid, target) ->
                          username target <> username user) ->
      is_Some (findOne (Js.trim t) st) ->
      exists reason, fst (post_transfer s t amt now st) = Error 429 reason).
Proof.
  intros Hu Hadm Hq.
  assert (Hlim : exists reason,
             dailyLimitsOK s 20 2000 now st = LimitsReached reason).
  { destruct (dailyLimitsOK s 20 2000 now st) as [|reason] eqn:E; [|by eexists].
    apply dailyLimitsOK_spec in E. lia. }
  destruct Hlim as [reason Hlim].
  unfold post_transfer, loadUser, findById. rewrite Hu, Hadm, Hlim. cbn [negb].
  destruct (isBannedFromCoins (bans user)); [by repeat split|].
  destruct (String.eqb_spec t ""); cbn [orb]; [by repeat split|].
  destruct (Z.leb_spec amt 0); [repeat split; try done; lia|].
  destruct (findOne (Js.trim t) st) as [[tid target]|] eqn:Ef.
  - destruct (String.eqb_spec (username target) (username user)) as [He|].
    + repeat split; try done.
      intros _ _ _ Hself _. by destruct (Hself _ _ eq_refl).
    + repeat split; try done; intros; by eexists.
  - repeat split; try done; by intros _ _ _ _ [? ?].
Qed.

(** C3, at the failing input. Account 1 is not an admin and has twenty
    transfers in its window: [POST /transfer] answers 429, but the coin
    transfer of [POST /dm/send] never consults the window and is carried
    out: the sender is debited, the recipient credited and a twenty-first
    [transfer] entry is recorded. *)
Lemma dm_send_ignores_rate_window :
  let r := post_dm_send (fun _ _ => []) 1 "bob" "hi" "" 5 2000 busyStore in
  windowCount 1 2000 busyStore = 20
  /\ fst (post_transfer 1 "bob" 5 2000 busyStore)
     = Error 429 "Daily transfer count limit reached"
  /\ fst r = Ok
  /\ coins <$> users (snd r) !! 1%nat = Some 495
  /\ coins <$> users (snd r) !! 2%nat = Some 5
  /\ windowCount 1 2000 (snd r) = 21.
Proof. cbv zeta. vm_compute. repeat split. Qed.

(** ** Feature purchase *)

Lemma feature_price key p :
  Js.own FEATURE_PRICES key = Some p -> 0 < p.
Proof.
  unfold FEATURE_PRICES. cbn [Js.own].
  repeat match goal with
         | |- context [String.eqb ?k key] =>
             destruct (String.eqb_spec k key) as [<- | _];
             [intros [= <-]; lia |]
         end.
  intros [=].
Qed.

(** C9. [POST /buy-feature] with a key that is not in the price table, with
    the unlock flag already set, or with a balance below the price, is
    answered by an error and leaves the store (balance, unlock flag,
    ledger) as it is; an accepted purchase from a balance below 2^53
    deducts exactly the price and sets the flag in one write of the
    account, changes no other account, and appends one [feature_purchase]
    entry. *)
Theorem post_buy_feature_atomic st s user key now :
  users st !! s = Some user ->
  ((Js.own FEATURE_PRICES key = None
    \/ unlocked key user = true
    \/ exists p, Js.own FEATURE_PRICES key = Some p /\ coins user < p) ->
   exists status msg, post_buy_feature s key now st = (Error status msg, st))
  /\ (forall p,
        Js.own FEATURE_PRICES key = Some p ->
        isBannedFromCoins (bans user) = false ->
        unlocked key user = false ->
        p <= coins user ->
        coins user < Js.safe ->
        exists st' tx,
          post_buy_feature s key now st = (Ok, st')
          /\ st' = createTx tx
                     (save s (fun u => set_unlocks (<[key := true]> (unlocks user))
                                         (set_coins (coins user - p) u)) st)
          /\ users st' !! s
             = Some (set_unlocks (<[key := true]> (unlocks user))
                       (set_coins (coins user - p) user))
          /\ (forall k, k <> s -> users st' !! k = users st !! k)
          /\ ledger st' = (ledger st ++ [tx])%list
          /\ type tx = tx_feature_purchase
          /\ fromUserId tx = Some s
          /\ amount tx = p).
Proof.
  intros Hu. split.
  - intros Hrej. unfold post_buy_feature, loadUser, findById. rewrite Hu.
    unfold Js.get.
    destruct (Js.own FEATURE_PRICES key) as [p|] eqn:Hp.
    + pose proof (feature_price _ _ Hp) as Hpos.
      destruct p as [|p|p]; try lia.
      destruct (isBannedFromCoins (bans user)); [by eexists _, _|].
      destruct (unlocked key user) eqn:Hunl; [by eexists _, _|].
      destruct Hrej as [? | [? | (q & Hq & Hlt)]]; try done.
      injection Hq as <-.
      destruct (Z.ltb_spec (coins user) (Z.pos p)); [by eexists _, _|lia].
    + destruct (Js.inherited key); [|by eexists _, _].
      destruct (isBannedFromCoins (bans user)); [by eexists _, _|].
      destruct (unlocked key user); by eexists _, _.
  - intros p Hp Hb Hunl Hle Hsafe.
    pose proof (feature_price _ _ Hp) as Hpos.
    unfold post_buy_feature, loadUser, findById, Js.get.
    rewrite Hu, Hp, Hb, Hunl. destruct p as [|p|p]; try lia.
    destruct (Z.ltb_spec (coins user) (Z.pos p)); [lia|].
    rewrite sub_exact by lia.
    eexists _, _. split; [reflexivity|]. split; [reflexivity|].
    cbn [users ledger createTx].
    split; [by rewrite (save_lookup _ _ _ _ Hu)|].
    split; [by intros k Hk; apply save_lookup_ne|]. done.
Qed.

Lemma post_buy_feature_atomic_witness :
  let poor := mkUser "alice" 50 RoleUser 1 (mkBans false false) [] [] 0 ∅ ∅ in
  let rich := mkUser "carol" 120 RoleUser 1 (mkBans false false) [] [] 0 ∅ ∅ in
  let st := storeOf [(1%nat, poor); (3%nat, rich)] in
  (exists status msg, post_buy_feature 1 "chat" 7 st = (Error status msg, st))
  /\ (exists status msg,
        post_buy_feature 1 "constructor" 7 st = (Error status msg, st))
  /\ (exists st' tx,
        post_buy_feature 3 "chat" 7 st = (Ok, st')
        /\ coins <$> users st' !! 3%nat = Some 20
        /\ unlocked "chat" <$> users st' !! 3%nat = Some true
        /\ users st' !! 1%nat = users st !! 1%nat
        /\ ledger st' = (ledger st ++ [tx])%list
        /\ type tx = tx_feature_purchase
        /\ amount tx = 100).
Proof.
  cbv zeta. split; [|split].
  - apply (post_buy_feature_atomic
             (storeOf [(1%nat, mkUser "alice" 50 RoleUser 1 (mkBans false false)
                                 [] [] 0 ∅ ∅);
                       (3%nat, mkUser "carol" 120 RoleUser 1 (mkBans false false)
                                 [] [] 0 ∅ ∅)]) 1
             (mkUser "alice" 50 RoleUser 1 (mkBans false false) [] [] 0 ∅ ∅)
             "chat" 7).
    + vm_compute; reflexivity.
    + right; right. exists 100. split; [reflexivity|]. cbn. lia.
  - apply (post_buy_feature_atomic
             (storeOf [(1%nat, mkUser "alice" 50 RoleUser 1 (mkBans false false)
                                 [] [] 0 ∅ ∅);
                       (3%nat, mkUser "carol" 120 RoleUser 1 (mkBans false false)
                                 [] [] 0 ∅ ∅)]) 1
             (mkUser "alice" 50 RoleUser 1 (mkBans false false) [] [] 0 ∅ ∅)
             "constructor" 7).
    + vm_compute; reflexivity.
    + left. reflexivity.
  - destruct (post_buy_feature_atomic
                (storeOf [(1%nat, mkUser "alice" 50 RoleUser 1
                                    (mkBans false false) [] [] 0 ∅ ∅);
                          (3%nat, mkUser "carol" 120 RoleUser 1
                                    (mkBans false false) [] [] 0 ∅ ∅)]) 3
                (mkUser "carol" 120 RoleUser 1 (mkBans false false)
                   [] [] 0 ∅ ∅) "chat" 7) as [_ Hacc].
    + vm_compute; reflexivity.
    + destruct (Hacc 100)
        as (st' & tx & Hrun & _ & Hu & Hoth & Hl & Hty & _ & Ham).
      * reflexivity.
      * reflexivity.
      * reflexivity.
      * cbn. lia.
      * vm_compute; reflexivity.
      * exists st', tx. split; [exact Hrun|]. rewrite Hu.
        split; [reflexivity|]. split; [vm_compute; reflexivity|].
        split; [apply Hoth; lia|]. done.
Defined.

(** At a balance of 10^17 the price of chat, 100, is not what the
    purchase deducts: the stored balance is 10^17 - 96. *)
Lemma post_buy_feature_rounds :
  let rich := mkUser "carol" (10 ^ 17) RoleUser 1 (mkBans false false)
                [] [] 0 ∅ ∅ in
  let st := storeOf [(3%nat, rich)] in
  let st' := snd (post_buy_feature 3 "chat" 7 st) in
  fst (post_buy_feature 3 "chat" 7 st) = Ok
  /\ coins <$> users st' !! 3%nat = Some (10 ^ 17 - 96)
  /\ coins <$> users st' !! 3%nat <> Some (coins rich - 100).
Proof.
  cbv zeta. split; [vm_compute; reflexivity|].
  split; [vm_compute; reflexivity|]. vm_compute. discriminate.
Qed.

(** The scenario of C9: the price of chat is 100 and the balance is 50. *)
Example post_buy_feature_scenario :
  let a := mkUser "alice" 50 RoleUser 1 (mkBans false false) [] [] 0 ∅ ∅ in
  let st := storeOf [(1%nat, a)] in
  post_buy_feature 1 "chat" 7 st = (Error 400 "Not enough coins", st).
Proof. reflexivity. Qed.

(** ** Level-up *)






(** ** Milestones *)





Lemma hasAwarded_payAp c c' ap u :
  hasAwarded c (payAp c' ap u) = hasAwarded c u || String.eqb c c'.
Proof.
  unfold hasAwarded, payAp. cbn [awardedAchievements set_awarded
    set_achievementPoints]. rewrite existsb_app. cbn [existsb].
  by rewrite orb_false_r.
Qed.





















(** One increment past both thresholds pays both milestones; a counter that
    then swings around the upper threshold pays nothing more. *)
Example recordFeatureAction_scenario :
  let st := storeOf [(1%nat, newUser "alice")] in
  let once := snd (recordFeatureAction sampleMilestones 1 "chat"
                     "dmMessagesSent" 3 st) in
  let swung := recordMany sampleMilestones 1 "chat" "dmMessagesSent"
                 [-1; 1; -1; 1] once in
  achievementPoints <$> users once !! 1%nat = Some 15
  /\ awardedAchievements <$> users once !! 1%nat
     = Some ["CHAT_DM_1"; "CHAT_DM_3"]
  /\ achievementPoints <$> users swung !! 1%nat = Some 15
  /\ awardedAchievements <$> users swung !! 1%nat
     = Some ["CHAT_DM_1"; "CHAT_DM_3"].
Proof. cbv zeta. vm_compute. repeat split. Qed.


(** * Properties of the further routes and of whole request sequences *)

(** ** The ledger is append-only *)

Lemma appended_refl st : appended st st.
Proof. exists []. by rewrite app_nil_r. Qed.

Lemma appended_same st st' : ledger st' = ledger st -> appended st st'.
Proof. intros H. exists []. by rewrite app_nil_r. Qed.

Lemma appended_trans st1 st2 st3 :
  appended st1 st2 -> appended st2 st3 -> appended st1 st3.
Proof.
  intros (n1 & H1 & F1) (n2 & H2 & F2). exists (n1 ++ n2)%list.
  split; [by rewrite H2, H1, app_assoc|]. by apply Forall_app.
Qed.

Lemma appended_createTx tx st st' :
  0 <= amount tx -> ledger st' = ledger st -> appended st (createTx tx st').
Proof.
  intros Ha Hl. exists [tx]. cbn [ledger createTx]. rewrite Hl.
  split; [done|]. by repeat constructor.
Qed.

Lemma appended_awardAchievement uid c now st :
  appended st (snd (awardAchievement uid c now st)).
Proof.
  destruct (awardAchievement_ledger uid c now st) as [Hyes Hno].
  destruct (coinGranting uid c st).
  - destruct (Hyes eq_refl) as (tx & Hl & _ & _ & Hpos & _).
    exists [tx]. split; [done|]. repeat constructor. lia.
  - by apply appended_same, Hno.
Qed.

Lemma appended_post_transfer s t a now st :
  appended st (snd (post_transfer s t a now st)).
Proof.
  unfold post_transfer, loadUser, findById.
  destruct (users st !! s) as [user|]; [|apply appended_refl].
  destruct (isBannedFromCoins (bans user)); [apply appended_refl|].
  destruct (_ || _) eqn:Ev; [apply appended_refl|].
  apply orb_false_elim in Ev as [_ Ha]. apply Z.leb_gt in Ha.
  destruct (findOne _ st) as [[tid target]|]; [|apply appended_refl].
  destruct (String.eqb _ _); [apply appended_refl|].
  destruct (if negb _ then _ else _); [|apply appended_refl].
  destruct (coins user <? a); [apply appended_refl|]. cbn [snd].
  apply appended_createTx; [cbn; lia|]. by destruct (negb _).
Qed.

Lemma appended_post_level_up s l now st :
  appended st (snd (post_level_up s l now st)).
Proof.
  unfold post_level_up, loadUser, findById.
  destruct (users st !! s) as [user|]; [|apply appended_refl].
  destruct l as [lvl|]; [|apply appended_refl].
  destruct (_ || _) eqn:Ev; [apply appended_refl|].
  apply orb_false_elim in Ev as [Hl _]. apply Z.leb_gt in Hl.
  destruct (isBannedFromCoins (bans user)); [apply appended_refl|].
  destruct (negb (is_admin (role user)) && _); [apply appended_refl|].
  cbn [snd].
  match goal with
  | |- appended st (if _ then _ else ?st3) =>
      assert (H3 : appended st st3)
  end.
  { match goal with
    | |- appended st (if _ then _ else ?st2) =>
        assert (H2 : appended st st2)
    end.
    { apply appended_createTx; [|done]. cbn [amount].
      apply mul_nonneg; [apply sub_nonneg|]; lia. }
    destruct (2 <=? lvl); [|done].
    eapply appended_trans; [exact H2|apply appended_awardAchievement]. }
  destruct (3 <=? lvl); [|done].
  eapply appended_trans; [exact H3|apply appended_awardAchievement].
Qed.

Lemma appended_post_buy_feature s k now st :
  appended st (snd (post_buy_feature s k now st)).
Proof.
  unfold post_buy_feature, loadUser, findById, Js.get.
  destruct (users st !! s) as [user|]; [|apply appended_refl].
  destruct (Js.own FEATURE_PRICES k) as [p|] eqn:Hp.
  - pose proof (feature_price _ _ Hp) as Hpos.
    destruct p as [|p|p]; try lia.
    destruct (isBannedFromCoins (bans user)); [apply appended_refl|].
    destruct (unlocked k user); [apply appended_refl|].
    destruct (coins user <? Z.pos p); [apply appended_refl|]. cbn [snd].
    by apply appended_createTx.
  - destruct (Js.inherited k); [|apply appended_refl].
    destruct (isBannedFromCoins (bans user)); [apply appended_refl|].
    destruct (unlocked k user); apply appended_refl.
Qed.

Lemma appended_post_adjust s n d r now st :
  appended st (snd (post_adjust s n d r now st)).
Proof.
  unfold post_adjust, loadUser, findById.
  destruct (users st !! s) as [user|]; [|apply appended_refl].
  destruct (negb _); [apply appended_refl|].
  destruct (String.eqb _ _); [apply appended_refl|].
  destruct (findOne _ st) as [[tid target]|]; [|apply appended_refl].
  cbn [snd]. apply appended_createTx; [cbn; lia|done].
Qed.

Lemma appended_post_dm_send FM s t x i c now st :
  appended st (snd (post_dm_send FM s t x i c now st)).
Proof.
  unfold post_dm_send, loadUser, findById.
  destruct (users st !! s) as [user|]; [|apply appended_refl].
  destruct (negb (requireChatUnlocked user)); [apply appended_refl|].
  destruct (_ && negb (unlocked "imageUpload" user)); [apply appended_refl|].
  destruct (isBannedFromChat _); [apply appended_refl|].
  destruct (String.eqb t ""); [apply appended_refl|].
  destruct (findOne _ st) as [[tid target]|]; [|apply appended_refl].
  destruct (String.eqb (username target) _); [apply appended_refl|].
  destruct (negb (unlocked "chat" target)); [apply appended_refl|].
  destruct (_ && (level user <? 2)); [apply appended_refl|].
  destruct (dmTransfer s tid user target c now st) as [r|st1] eqn:Ed;
    [apply appended_refl|].
  assert (H1 : appended st st1).
  { revert Ed. unfold dmTransfer. destruct (Z.ltb_spec 0 c);
      [|intros [= <-]; apply appended_refl].
    destruct (isBannedFromCoins (bans user)); [done|].
    destruct (coins user <? c); [done|]. intros [= <-].
    apply appended_createTx; [cbn; lia|]. by destruct (negb _). }
  cbn [snd]. eapply appended_trans; [exact H1|]. apply appended_same.
  destruct (negb (String.eqb (Js.trim i) ""));
    by rewrite ?recordFeatureAction_ledger.
Qed.

Lemma appended_post_set_role s n r now st :
  appended st (snd (post_set_role s n r now st)).
Proof.
  unfold post_set_role, loadUser, findById.
  destruct (users st !! s) as [user|]; [|apply appended_refl].
  destruct (negb _); [apply appended_refl|].
  destruct (String.eqb _ _); [apply appended_refl|].
  destruct (parseRole _); [|apply appended_refl].
  destruct (findOne _ st) as [[tid target]|]; [|apply appended_refl].
  cbn [snd]. by apply appended_createTx.
Qed.

Lemma appended_post_set_level s n l now st :
  appended st (snd (post_set_level s n l now st)).
Proof.
  unfold post_set_level, loadUser, findById.
  destruct (users st !! s) as [user|]; [|apply appended_refl].
  destruct (negb _); [apply appended_refl|].
  destruct (String.eqb _ _); [apply appended_refl|].
  destruct l as [lvl|]; [|apply appended_refl].
  destruct (_ || _); [apply appended_refl|].
  destruct (findOne _ st) as [[tid target]|]; [|apply appended_refl].
  cbn [snd]. by apply appended_createTx.
Qed.

Lemma appended_post_set_bans s n c k now st :
  appended st (snd (post_set_bans s n c k now st)).
Proof.
  unfold post_set_bans, loadUser, findById.
  destruct (users st !! s) as [user|]; [|apply appended_refl].
  destruct (negb _); [apply appended_refl|].
  destruct (String.eqb _ _); [apply appended_refl|].
  destruct (findOne _ st) as [[tid target]|]; [|apply appended_refl].
  cbn [snd]. by apply appended_createTx.
Qed.

Lemma appended_handle FM r now st : appended st (handle FM r now st).
Proof.
  destruct r as [o| | |]; cbn [handle];
    [destruct o; cbn [step]|..];
    auto using appended_post_transfer, appended_post_dm_send,
      appended_post_buy_feature, appended_post_level_up, appended_post_adjust,
      appended_awardAchievement, appended_post_set_role,
      appended_post_set_level, appended_post_set_bans.
  apply appended_same, recordFeatureAction_ledger.
Qed.

(** X1. Whatever requests are served, in whatever order, the ledger only
    grows at its end: the entries already recorded stay as they are and in
    place, and every entry added has a non-negative amount. *)
Theorem ledger_append_only FM rs st :
  appended st (handleAll FM rs st).
Proof.
  unfold handleAll. revert st.
  induction rs as [|[r now] rs IH]; intros st; [apply appended_refl|].
  cbn [fold_left fst snd]. eapply appended_trans; [|apply IH].
  apply appended_handle.
Qed.

(** ** How the routes change accounts *)

Section UsersRel.

Context (R : User -> User -> Prop) `{!Reflexive R}.

Lemma usersRel_eq st st' : users st' = users st -> usersRel R st st'.
Proof.
  intros H k. rewrite H. destruct (users st !! k); by constructor.
Qed.

Lemma usersRel_refl st : usersRel R st st.
Proof. by apply usersRel_eq. Qed.

Lemma usersRel_trans `{!Transitive R} st1 st2 st3 :
  usersRel R st1 st2 -> usersRel R st2 st3 -> usersRel R st1 st3.
Proof.
  intros H1 H2 k. specialize (H1 k). specialize (H2 k).
  destruct H1 as [u u' Hu|]; inversion H2; subst; constructor.
  by etrans.
Qed.

Lemma usersRel_save k f st :
  (forall u, users st !! k = Some u -> R u (f u)) ->
  usersRel R st (save k f st).
Proof.
  intros Hf j. unfold save. cbn [users set_users].
  destruct (decide (k = j)) as [<-|Hne].
  - rewrite lookup_alter_eq. destruct (users st !! k) as [u|]; constructor.
    by apply Hf.
  - rewrite lookup_alter_ne by done. destruct (users st !! j); by constructor.
Qed.

Lemma usersRel_findOneAndUpdate k cond upd st :
  (forall u, users st !! k = Some u -> cond u = true -> R u (upd u)) ->
  usersRel R st (snd (findOneAndUpdate k cond upd st)).
Proof.
  intros Hupd. unfold findOneAndUpdate.
  destruct (users st !! k) as [u|] eqn:E; [|apply usersRel_refl].
  destruct (cond u) eqn:Hc; [|apply usersRel_refl]. cbn [snd].
  intros j. cbn [users set_users]. destruct (decide (k = j)) as [<-|Hne].
  - rewrite lookup_insert_eq, E. constructor. by apply Hupd.
  - rewrite lookup_insert_ne by done. destruct (users st !! j); by constructor.
Qed.

Lemma usersRel_lookup st st' k u :
  usersRel R st st' -> users st !! k = Some u ->
  exists u', users st' !! k = Some u' /\ R u u'.
Proof.
  intros H Hu. specialize (H k). rewrite Hu in H. inversion H; subst.
  by eexists.
Qed.

Lemma usersRel_lookup_rev st st' k u' :
  usersRel R st st' -> users st' !! k = Some u' ->
  exists u, users st !! k = Some u /\ R u u'.
Proof.
  intros H Hu. specialize (H k). rewrite Hu in H. inversion H; subst.
  by eexists.
Qed.

End UsersRel.

#[global] Instance uniqueKept_refl : Reflexive uniqueKept.
Proof. intros u c H. exact H. Qed.

#[global] Instance uniqueKept_trans : Transitive uniqueKept.
Proof. intros u v w H1 H2 c H. apply H2, H1, H. Qed.

#[global] Instance evolves_refl : Reflexive evolves.
Proof.
  intros u. unfold evolves. repeat split; auto. apply uniqueKept_refl.
Qed.

#[global] Instance evolves_trans : Transitive evolves.
Proof.
  intros u v w (Hn1 & Hr1 & Hb1 & Hc1 & Hl1 & Hq1)
    (Hn2 & Hr2 & Hb2 & Hc2 & Hl2 & Hq2).
  unfold evolves. rewrite Hn2, Hr2, Hb2.
  split; [done|]. split; [done|]. split; [done|]. split; [|split; [lia|]].
  - intros Hb. rewrite Hc2, Hc1; [done..|]. by rewrite Hb1.
  - by etrans.
Qed.

(** Changing fields other than the achievements. *)
Lemma evolves_fields u u' :
  username u' = username u -> role u' = role u -> bans u' = bans u ->
  (isBannedFromCoins (bans u) = true -> coins u' = coins u) ->
  (level u' = level u \/ level u < level u' <= 10) ->
  achievements u' = achievements u ->
  evolves u u'.
Proof.
  intros Hn Hr Hb Hc Hl Ha. unfold evolves. repeat split; auto.
  intros c. unfold countCode. by rewrite Ha.
Qed.

Lemma evolves_awardAchievement uid c now st :
  usersRel evolves st (snd (awardAchievement uid c now st)).
Proof.
  unfold awardAchievement.
  destruct (readDef c) as [def|]; [|apply usersRel_refl, _].
  set (entry := mkAchievement _ _ _).
  set (cond1 := fun u : User => lacksCode (def_code def) u
                               && negb (isBannedFromCoins (bans u))).
  set (upd1 := fun u : User =>
                 (if 0 <? def_reward def then incCoins (def_reward def) else id)
                   (pushAchievement entry u)).
  assert (H1 : usersRel evolves st (snd (findOneAndUpdate uid cond1 upd1 st))).
  { apply usersRel_findOneAndUpdate; [apply _|]. intros u _ Hc.
    subst cond1 upd1. cbn beta in *. apply andb_prop in Hc as [Hl Hb].
    apply negb_true_iff in Hb.
    assert (Hq : uniqueKept u (pushAchievement entry u)).
    { intros x Hx. rewrite countCode_push. subst entry. cbn [ach_code].
      destruct (option_string_eqb (def_code def) (Some x)) eqn:He; [|lia].
      apply option_string_eqb_eq in He. rewrite He in Hl.
      apply lacksCode_count in Hl. lia. }
    destruct (0 <? def_reward def); unfold evolves; cbn;
      repeat split; auto; congruence. }
  assert (H2 : usersRel evolves st
                 (snd (findOneAndUpdate uid (lacksCode (def_code def))
                         (pushAchievement entry) st))).
  { apply usersRel_findOneAndUpdate; [apply _|]. intros u _ Hl.
    assert (Hq : uniqueKept u (pushAchievement entry u)).
    { intros x Hx. rewrite countCode_push. subst entry. cbn [ach_code].
      destruct (option_string_eqb (def_code def) (Some x)) eqn:He; [|lia].
      apply option_string_eqb_eq in He. rewrite He in Hl.
      apply lacksCode_count in Hl. lia. }
    unfold evolves; cbn; repeat split; auto. }
  destruct (findOneAndUpdate uid cond1 upd1 st) as [[user|] st1].
  - destruct (0 <? def_reward def); cbn [snd] in *; [|done].
    intros k. apply H1.
  - destruct (findOneAndUpdate uid (lacksCode (def_code def))
                (pushAchievement entry) st) as [[user|] st2]; cbn [snd] in *;
      [done|apply usersRel_refl, _].
Qed.

Lemma fields_recordFeatureAction FM uid f k d st :
  usersRel (fun u u' => username u' = username u /\ role u' = role u
                        /\ bans u' = bans u /\ coins u' = coins u
                        /\ level u' = level u
                        /\ achievements u' = achievements u
                        /\ unlocks u' = unlocks u)
           st (snd (recordFeatureAction FM uid f k d st)).
Proof.
  intros j.
  pose proof (recordFeatureAction_frame
    (fun u => (username u, role u, bans u, coins u, level u, achievements u,
               unlocks u))
    FM uid f k d st (fun _ _ _ => eq_refl) (fun _ _ => eq_refl) j) as H.
  destruct (users (snd (recordFeatureAction FM uid f k d st)) !! j) as [u'|],
    (users st !! j) as [u|]; try discriminate; constructor.
  cbn in H. injection H as -> -> -> -> -> -> ->. done.
Qed.

Lemma evolves_recordFeatureAction FM uid f k d st :
  usersRel evolves st (snd (recordFeatureAction FM uid f k d st)).
Proof.
  intros j. destruct (fields_recordFeatureAction FM uid f k d st j)
    as [u u' (Hn & Hr & Hb & Hc & Hl & Ha & _)|]; constructor.
  apply evolves_fields; auto.
Qed.

Lemma usersRel_impl (R R' : User -> User -> Prop) st st' :
  (forall u u', R u u' -> R' u u') -> usersRel R st st' -> usersRel R' st st'.
Proof.
  intros Himp H k. destruct (H k); constructor. by apply Himp.
Qed.

Lemma evolves_set_coins v u :
  isBannedFromCoins (bans u) = false -> evolves u (set_coins v u).
Proof. intros Hb. apply evolves_fields; cbn; auto. congruence. Qed.

(** A credit or debit of an account that was not coin-banned when the
    request started. *)
Lemma evolves_save_coins st0 st k v u0 :
  usersRel evolves st0 st ->
  users st0 !! k = Some u0 ->
  isBannedFromCoins (bans u0) = false ->
  usersRel evolves st0 (save k (set_coins v) st).
Proof.
  intros H0 Hu Hb. eapply usersRel_trans; [apply _..|exact H0|].
  apply usersRel_save; [apply _|]. intros u Hk.
  destruct (usersRel_lookup_rev _ _ _ _ _ H0 Hk) as (u1 & Hu1 & He).
  apply evolves_set_coins. destruct He as (_ & _ & -> & _).
  congruence.
Qed.

Lemma evolves_createTx tx st0 st :
  usersRel evolves st0 st -> usersRel evolves st0 (createTx tx st).
Proof. intros H k. apply H. Qed.

Lemma evolves_post_transfer s t a now st :
  usersRel evolves st (snd (post_transfer s t a now st)).
Proof.
  unfold post_transfer, loadUser, findById.
  destruct (users st !! s) as [user|] eqn:Eu; [|apply usersRel_refl, _].
  destruct (isBannedFromCoins (bans user)) eqn:Hb; [apply usersRel_refl, _|].
  destruct (_ || _); [apply usersRel_refl, _|].
  destruct (findOne _ st) as [[tid target]|] eqn:Ef; [|apply usersRel_refl, _].
  destruct (String.eqb _ _); [apply usersRel_refl, _|].
  destruct (if negb _ then _ else _); [|apply usersRel_refl, _].
  destruct (coins user <? a); [apply usersRel_refl, _|]. cbn [snd].
  apply findOne_Some in Ef as [Ht _]. apply evolves_createTx.
  assert (H1 : usersRel evolves st
                 (save s (set_coins (Js.sub (coins user) a)) st))
    by (eapply evolves_save_coins; [apply usersRel_refl, _|done..]).
  destruct (isBannedFromCoins (bans target)) eqn:Htb; cbn [negb]; [done|].
  by eapply evolves_save_coins.
Qed.

Lemma evolves_post_level_up s l now st :
  usersRel evolves st (snd (post_level_up s l now st)).
Proof.
  unfold post_level_up, loadUser, findById.
  destruct (users st !! s) as [user|] eqn:Eu; [|apply usersRel_refl, _].
  destruct l as [lvl|]; [|apply usersRel_refl, _].
  destruct (_ || _) eqn:Ev; [apply usersRel_refl, _|].
  apply orb_false_elim in Ev as [Hlo Hhi].
  apply Z.leb_gt in Hlo. apply Z.ltb_ge in Hhi.
  destruct (isBannedFromCoins (bans user)) eqn:Hb; [apply usersRel_refl, _|].
  destruct (negb (is_admin (role user)) && _); [apply usersRel_refl, _|].
  cbn [snd].
  match goal with
  | |- usersRel evolves st (if _ then _ else ?st3) =>
      assert (H3 : usersRel evolves st st3)
  end.
  { match goal with
    | |- usersRel evolves st (if _ then _ else ?st2) =>
        assert (H2 : usersRel evolves st st2)
    end.
    { apply evolves_createTx, usersRel_save; [apply _|].
      intros u Hu. replace u with user by congruence.
      apply evolves_fields; cbn; auto; congruence. }
    destruct (2 <=? lvl); [|done].
    eapply usersRel_trans; [apply _..|exact H2|apply evolves_awardAchievement]. }
  destruct (3 <=? lvl); [|done].
  eapply usersRel_trans; [apply _..|exact H3|apply evolves_awardAchievement].
Qed.

Lemma evolves_post_buy_feature s k now st :
  usersRel evolves st (snd (post_buy_feature s k now st)).
Proof.
  unfold post_buy_feature, loadUser, findById, Js.get.
  destruct (users st !! s) as [user|] eqn:Eu; [|apply usersRel_refl, _].
  destruct (Js.own FEATURE_PRICES k) as [p|] eqn:Hp.
  - pose proof (feature_price _ _ Hp) as Hpos.
    destruct p as [|p|p]; try lia.
    destruct (isBannedFromCoins (bans user)) eqn:Hb; [apply usersRel_refl, _|].
    destruct (unlocked k user); [apply usersRel_refl, _|].
    destruct (coins user <? Z.pos p); [apply usersRel_refl, _|]. cbn [snd].
    apply evolves_createTx, usersRel_save; [apply _|].
    intros u Hu. replace u with user by congruence.
    apply evolves_fields; cbn; auto. congruence.
  - destruct (Js.inherited k); [|apply usersRel_refl, _].
    destruct (isBannedFromCoins (bans user)); [apply usersRel_refl, _|].
    destruct (unlocked k user); apply usersRel_refl, _.
Qed.

Lemma evolves_dmTransfer s tid user target c now st st1 :
  users st !! s = Some user ->
  users st !! tid = Some target ->
  dmTransfer s tid user target c now st = inr st1 ->
  usersRel evolves st st1.
Proof.
  intros Hu Ht. unfold dmTransfer.
  destruct (0 <? c); [|intros [= <-]; apply usersRel_refl, _].
  destruct (isBannedFromCoins (bans user)) eqn:Hb; [done|].
  destruct (coins user <? c); [done|]. intros [= <-].
  apply evolves_createTx.
  assert (H1 : usersRel evolves st
                 (save s (set_coins (Js.sub (coins user) c)) st))
    by (eapply evolves_save_coins; [apply usersRel_refl, _|done..]).
  destruct (isBannedFromCoins (bans target)) eqn:Htb; cbn [negb]; [done|].
  by eapply evolves_save_coins.
Qed.

Lemma evolves_post_dm_send FM s t x i c now st :
  usersRel evolves st (snd (post_dm_send FM s t x i c now st)).
Proof.
  unfold post_dm_send, loadUser, findById.
  destruct (users st !! s) as [user|] eqn:Eu; [|apply usersRel_refl, _].
  destruct (negb (requireChatUnlocked user)); [apply usersRel_refl, _|].
  destruct (_ && negb (unlocked "imageUpload" user)); [apply usersRel_refl, _|].
  destruct (isBannedFromChat _); [apply usersRel_refl, _|].
  destruct (String.eqb t ""); [apply usersRel_refl, _|].
  destruct (findOne _ st) as [[tid target]|] eqn:Ef; [|apply usersRel_refl, _].
  destruct (String.eqb (username target) _); [apply usersRel_refl, _|].
  destruct (negb (unlocked "chat" target)); [apply usersRel_refl, _|].
  destruct (_ && (level user <? 2)); [apply usersRel_refl, _|].
  apply findOne_Some in Ef as [Ht _].
  destruct (dmTransfer s tid user target c now st) as [r|st1] eqn:Ed;
    [apply usersRel_refl, _|].
  pose proof (evolves_dmTransfer _ _ _ _ _ _ _ _ Eu Ht Ed) as H1.
  cbn [snd].
  set (st2 := mkStore (users st1) _ _).
  assert (H2 : usersRel evolves st st2) by (intros k; apply H1).
  assert (H3 : usersRel evolves st
                 (snd (recordFeatureAction FM s "chat" "dmMessagesSent" 1 st2)))
    by (eapply usersRel_trans;
          [apply _..|exact H2|apply evolves_recordFeatureAction]).
  destruct (negb (String.eqb (Js.trim i) "")); [|done].
  eapply usersRel_trans; [apply _..|exact H3|apply evolves_recordFeatureAction].
Qed.

(** The admin routes, one account field each. *)

Lemma effect_post_adjust s n d r now st :
  usersRel (fun u u' => u' = u \/ exists c, 0 <= c /\ u' = set_coins c u)
           st (snd (post_adjust s n d r now st)).
Proof.
  assert (Reflexive (fun u u' : User =>
            u' = u \/ exists c, 0 <= c /\ u' = set_coins c u))
    by (intros u; by left).
  unfold post_adjust, loadUser, findById.
  destruct (users st !! s) as [user|]; [|by apply usersRel_refl].
  destruct (negb _); [by apply usersRel_refl|].
  destruct (String.eqb _ _); [by apply usersRel_refl|].
  destruct (findOne _ st) as [[tid target]|]; [|by apply usersRel_refl].
  cbn [snd]. intros k. cbn [users createTx].
  apply usersRel_save; [done|]. intros u _. right. eexists. split; [|done]. lia.
Qed.

Lemma effect_post_set_role s n r now st :
  usersRel (fun u u' => u' = u \/ exists x, u' = set_role x u)
           st (snd (post_set_role s n r now st)).
Proof.
  assert (Reflexive (fun u u' : User => u' = u \/ exists x, u' = set_role x u))
    by (intros u; by left).
  unfold post_set_role, loadUser, findById.
  destruct (users st !! s) as [user|]; [|by apply usersRel_refl].
  destruct (negb _); [by apply usersRel_refl|].
  destruct (String.eqb _ _); [by apply usersRel_refl|].
  destruct (parseRole _); [|by apply usersRel_refl].
  destruct (findOne _ st) as [[tid target]|]; [|by apply usersRel_refl].
  cbn [snd]. intros k. cbn [users createTx].
  apply usersRel_save; [done|]. intros u _. right. by eexists.
Qed.

Lemma effect_post_set_level s n l now st :
  usersRel (fun u u' => u' = u \/ exists x, 1 <= x <= 10 /\ u' = set_level x u)
           st (snd (post_set_level s n l now st)).
Proof.
  assert (Reflexive (fun u u' : User =>
            u' = u \/ exists x, 1 <= x <= 10 /\ u' = set_level x u))
    by (intros u; by left).
  unfold post_set_level, loadUser, findById.
  destruct (users st !! s) as [user|]; [|by apply usersRel_refl].
  destruct (negb _); [by apply usersRel_refl|].
  destruct (String.eqb _ _); [by apply usersRel_refl|].
  destruct l as [lvl|]; [|by apply usersRel_refl].
  destruct (_ || _) eqn:Ev; [by apply usersRel_refl|].
  apply orb_false_elim in Ev as [Hlo Hhi].
  apply Z.ltb_ge in Hlo. apply Z.ltb_ge in Hhi.
  destruct (findOne _ st) as [[tid target]|]; [|by apply usersRel_refl].
  cbn [snd]. intros k. cbn [users createTx].
  apply usersRel_save; [done|]. intros u _. right. exists lvl. split; [lia|done].
Qed.

Lemma effect_post_set_bans s n c k now st :
  usersRel (fun u u' => u' = u \/ exists b, u' = set_bans b u)
           st (snd (post_set_bans s n c k now st)).
Proof.
  assert (Reflexive (fun u u' : User => u' = u \/ exists b, u' = set_bans b u))
    by (intros u; by left).
  unfold post_set_bans, loadUser, findById.
  destruct (users st !! s) as [user|]; [|by apply usersRel_refl].
  destruct (negb _); [by apply usersRel_refl|].
  destruct (String.eqb _ _); [by apply usersRel_refl|].
  destruct (findOne _ st) as [[tid target]|]; [|by apply usersRel_refl].
  cbn [snd]. intros j. cbn [users createTx].
  apply usersRel_save; [done|]. intros u _. right. by eexists.
Qed.

(** ** Invariants of whole request sequences *)

#[global] Instance frozen_refl : Reflexive frozen.
Proof. by intros u Hb. Qed.

#[global] Instance frozen_trans : Transitive frozen.
Proof.
  intros u v w H1 H2 Hb. destruct (H1 Hb) as [Hc Hb'].
  destruct (H2 Hb') as [Hc' Hb'']. split; [congruence|done].
Qed.

#[global] Instance sameAuthority_refl : Reflexive sameAuthority.
Proof. by intros u. Qed.

#[global] Instance sameAuthority_trans : Transitive sameAuthority.
Proof. intros u v w [H1 H2] [H3 H4]. split; congruence. Qed.

#[global] Instance ranged_refl : Reflexive ranged.
Proof. intros u H. exact H. Qed.

#[global] Instance ranged_trans : Transitive ranged.
Proof. intros u v w H1 H2 H. apply H2, H1, H. Qed.

Lemma evolves_frozen u u' : evolves u u' -> frozen u u'.
Proof. intros (_ & _ & Hb & Hc & _) H. split; [auto|congruence]. Qed.

Lemma evolves_uniqueKept u u' : evolves u u' -> uniqueKept u u'.
Proof. by intros (_ & _ & _ & _ & _ & Hq). Qed.

Lemma evolves_sameAuthority u u' : evolves u u' -> sameAuthority u u'.
Proof. by intros (_ & Hr & Hb & _). Qed.

Lemma evolves_ranged u u' : evolves u u' -> ranged u u'.
Proof. intros (_ & _ & _ & _ & Hl & _) H. lia. Qed.

Lemma evolves_step FM o now st :
  (forall s n d r, o <> OpAdjust s n d r) ->
  usersRel evolves st (step FM o now st).
Proof.
  intros Hna. destruct o; cbn [step];
    auto using evolves_post_transfer, evolves_post_dm_send,
      evolves_post_buy_feature, evolves_post_level_up,
      evolves_awardAchievement, evolves_recordFeatureAction.
  by destruct (Hna session username0 d reason).
Qed.

Lemma frozen_handle FM r now st :
  overridesBan r = false -> usersRel frozen st (handle FM r now st).
Proof.
  intros Hr. destruct r as [o| s n x | s n l |]; cbn [handle]; [| | |done].
  - eapply usersRel_impl; [apply evolves_frozen|]. apply evolves_step.
    intros s n d x ->. discriminate.
  - eapply usersRel_impl; [|apply effect_post_set_role].
    intros u u' [->|[y ->]]; by intros Hb.
  - eapply usersRel_impl; [|apply effect_post_set_level].
    intros u u' [->|(y & _ & ->)]; by intros Hb.
Qed.

(** X2. A coin ban freezes the balance. Through any sequence of requests
    that contains neither an admin adjustment nor a ban change (transfers
    in and out, direct messages with coins, purchases, level-ups,
    achievement and milestone awards, role and level changes), a
    coin-banned account keeps exactly its balance and stays banned. *)
Theorem coin_ban_freezes_balance FM rs st k u :
  users st !! k = Some u ->
  isBannedFromCoins (bans u) = true ->
  Forall (fun p => overridesBan (fst p) = false) rs ->
  exists u',
    users (handleAll FM rs st) !! k = Some u'
    /\ coins u' = coins u
    /\ isBannedFromCoins (bans u') = true.
Proof.
  intros Hu Hb Hrs.
  assert (H : usersRel frozen st (handleAll FM rs st)).
  { clear Hu Hb. unfold handleAll. revert st.
    induction Hrs as [|[r now] rs Hr _ IH]; intros st; cbn [fold_left fst snd];
      [apply usersRel_refl, _|].
    eapply usersRel_trans; [apply _..| |apply IH]. by apply frozen_handle. }
  destruct (usersRel_lookup _ _ _ _ _ H Hu) as (u' & Hu' & Hf).
  exists u'. split; [done|]. by apply Hf.
Qed.

Lemma coin_ban_freezes_balance_witness :
  let mallory := chatUser "mallory" 7 true in
  let alice := chatUser "alice" 100 false in
  let st := storeOf [(1%nat, alice); (2%nat, mallory)] in
  let rs :=
    [(Economy (OpTransfer 1 "mallory" 60), 10);
     (Economy (OpDmSend 2 "alice" "give back" "" 5), 20);
     (Economy (OpBuyFeature 2 "groupChat"), 30);
     (Economy (OpAward 2 "FIRST_LOGIN"), 40);
     (Economy (OpLevelUp 2 (Some 2)), 50);
     (SetLevel 2 "mallory" (Some 9), 60)] in
  exists u',
    users (handleAll sampleMilestones rs st) !! 2%nat = Some u'
    /\ coins u' = 7
    /\ isBannedFromCoins (bans u') = true.
Proof.
  cbv zeta.
  apply (coin_ban_freezes_balance sampleMilestones _ _ 2
           (chatUser "mallory" 7 true)).
  - vm_compute; reflexivity.
  - reflexivity.
  - repeat constructor.
Defined.

Lemma post_set_role_forbidden s n r now st :
  notAdmin st s -> snd (post_set_role s n r now st) = st.
Proof.
  intros Hna. unfold post_set_role, loadUser, findById, requireAdmin.
  destruct (users st !! s) as [user|] eqn:Eu; [|done].
  by rewrite (Hna user Eu).
Qed.

Lemma post_set_bans_forbidden s n c k now st :
  notAdmin st s -> snd (post_set_bans s n c k now st) = st.
Proof.
  intros Hna. unfold post_set_bans, loadUser, findById, requireAdmin.
  destruct (users st !! s) as [user|] eqn:Eu; [|done].
  by rewrite (Hna user Eu).
Qed.

Lemma sameAuthority_handle FM r now st :
  (privileged r = true -> forall s, actor r = Some s -> notAdmin st s) ->
  usersRel sameAuthority st (handle FM r now st).
Proof.
  intros Hr. destruct r as [o| s n x | s n l | s n c k]; cbn [handle].
  - destruct o; cbn [step];
      try (eapply usersRel_impl; [apply evolves_sameAuthority|];
           solve [auto using evolves_post_transfer, evolves_post_dm_send,
             evolves_post_buy_feature, evolves_post_level_up,
             evolves_awardAchievement, evolves_recordFeatureAction]).
    eapply usersRel_impl; [|apply effect_post_adjust].
    intros u u' [->|(c & _ & ->)]; by split.
  - rewrite post_set_role_forbidden by (by apply Hr).
    apply usersRel_refl, _.
  - eapply usersRel_impl; [|apply effect_post_set_level].
    intros u u' [->|(y & _ & ->)]; by split.
  - rewrite post_set_bans_forbidden by (by apply Hr).
    apply usersRel_refl, _.
Qed.

Lemma notAdmin_sameAuthority st st' s :
  usersRel sameAuthority st st' -> notAdmin st s -> notAdmin st' s.
Proof.
  intros H Hna u' Hu'.
  destruct (usersRel_lookup_rev _ _ _ _ _ H Hu') as (u & Hu & Hr & _).
  rewrite Hr. by apply Hna.
Qed.

(** X3. Roles and ban flags move only at an admin's request: through any
    sequence of requests in which every role or ban change is asked by a
    session that is not an admin at the start, every account keeps its
    role and its ban flags (so no account becomes admin or gets unbanned),
    and no account is added or removed. *)
Theorem authority_needs_admin FM rs st :
  Forall (fun p => privileged (fst p) = true ->
                   forall s, actor (fst p) = Some s -> notAdmin st s) rs ->
  usersRel sameAuthority st (handleAll FM rs st).
Proof.
  intros Hrs. unfold handleAll.
  assert (Hgen : forall cur,
             usersRel sameAuthority st cur ->
             usersRel sameAuthority st
               (fold_left (fun s p => handle FM (fst p) (snd p) s) rs cur)).
  { induction Hrs as [|[r now] rs Hr _ IH]; intros cur Hcur;
      cbn [fold_left fst snd]; [done|].
    apply IH. eapply usersRel_trans; [apply _..|exact Hcur|].
    apply sameAuthority_handle. intros Hp s Hs.
    eapply notAdmin_sameAuthority; [exact Hcur|]. by apply Hr. }
  apply Hgen, usersRel_refl, _.
Qed.

Lemma authority_needs_admin_witness :
  let st := storeOf [(1%nat, chatUser "alice" 100 false);
                     (2%nat, chatUser "mallory" 7 true)] in
  let rs :=
    [(SetRole 2 "mallory" "admin", 10);
     (SetBans 2 "mallory" None (Some false), 20);
     (Economy (OpAdjust 2 "mallory" 1000 "gift"), 30);
     (SetRole 1 "alice" "mod", 40)] in
  usersRel sameAuthority st (handleAll sampleMilestones rs st).
Proof.
  cbv zeta. apply authority_needs_admin.
  repeat constructor; cbn [fst privileged actor]; intros _ s [= <-] u Hu;
    vm_compute in Hu; injection Hu as <-; reflexivity.
Defined.

Lemma ranged_handle FM r now st : usersRel ranged st (handle FM r now st).
Proof.
  destruct r as [o| s n x | s n l | s n c k]; cbn [handle].
  - destruct o; cbn [step];
      try (eapply usersRel_impl; [apply evolves_ranged|];
           solve [auto using evolves_post_transfer, evolves_post_dm_send,
             evolves_post_buy_feature, evolves_post_level_up,
             evolves_awardAchievement, evolves_recordFeatureAction]).
    eapply usersRel_impl; [|apply effect_post_adjust].
    intros u u' [->|(c & _ & ->)] H; exact H.
  - eapply usersRel_impl; [|apply effect_post_set_role].
    intros u u' [->|[y ->]] H; exact H.
  - eapply usersRel_impl; [|apply effect_post_set_level].
    intros u u' [->|(y & Hy & ->)] H; [exact H|exact Hy].
  - eapply usersRel_impl; [|apply effect_post_set_bans].
    intros u u' [->|[y ->]] H; exact H.
Qed.

(** X4. Levels stay within 1..10: if every account starts at a level
    between 1 and 10, then so is every account after any sequence of
    requests, level-ups and admin level changes included. *)
Theorem levels_stay_in_range FM rs st :
  levelsInRange st -> levelsInRange (handleAll FM rs st).
Proof.
  intros Hst.
  assert (H : usersRel ranged st (handleAll FM rs st)).
  { clear Hst. unfold handleAll. revert st.
    induction rs as [|[r now] rs IH]; intros st; cbn [fold_left fst snd];
      [apply usersRel_refl, _|].
    eapply usersRel_trans; [apply _..| |apply IH]. apply ranged_handle. }
  intros k u' Hu'.
  destruct (usersRel_lookup_rev _ _ _ _ _ H Hu') as (u & Hu & Hr).
  apply Hr. by apply (Hst k).
Qed.

Lemma levels_stay_in_range_witness :
  let st := storeOf [(1%nat, mkUser "root" 5000 RoleAdmin 10 (mkBans false false)
                               [] [] 0 ∅ ∅);
                     (2%nat, chatUser "bob" 900 false)] in
  let rs :=
    [(Economy (OpLevelUp 2 (Some 10)), 10);
     (Economy (OpLevelUp 2 (Some 11)), 20);
     (SetLevel 1 "bob" (Some 0), 30);
     (SetLevel 1 "bob" (Some 3), 40);
     (Economy (OpLevelUp 1 (Some 12)), 50)] in
  levelsInRange (handleAll sampleMilestones rs st).
Proof.
  cbv zeta. apply levels_stay_in_range.
  apply (bool_decide_unpack _). vm_compute. exact I.
Defined.

(** ** Coins in circulation *)








(** ** The rate window of [POST /transfer] *)

Lemma post_transfer_Ok s t amt now st st' :
  post_transfer s t amt now st = (Ok, st') ->
  exists user tid target,
    users st !! s = Some user
    /\ isBannedFromCoins (bans user) = false
    /\ t <> "" /\ 0 < amt /\ amt <= coins user
    /\ findOne (Js.trim t) st = Some (tid, target)
    /\ username target <> username user
    /\ (is_admin (role user) = true
        \/ dailyLimitsOK s 20 2000 now st = LimitsOk)
    /\ ledger st'
       = (ledger st ++
            [mkTx tx_transfer (Some s) (Some (username user))
                  (Some tid) (Some (username target)) amt "User transfer" now])%list.
Proof.
  unfold post_transfer, loadUser, findById.
  destruct (users st !! s) as [user|] eqn:Eu; [|done].
  destruct (isBannedFromCoins (bans user)) eqn:Hb; [done|].
  destruct (String.eqb_spec t ""); [done|]. cbn [orb].
  destruct (Z.leb_spec amt 0); [done|].
  destruct (findOne _ st) as [[tid target]|] eqn:Ef; [|done].
  destruct (String.eqb_spec (username target) (username user)); [done|].
  destruct (is_admin (role user)) eqn:Hadm; cbn [negb].
  - destruct (Z.ltb_spec (coins user) amt); [done|]. intros [= <-].
    exists user, tid, target. repeat split; auto.
    cbn [ledger createTx]. by destruct (negb _).
  - destruct (dailyLimitsOK s 20 2000 now st) eqn:Hlim; [|done].
    destruct (Z.ltb_spec (coins user) amt); [done|]. intros [= <-].
    exists user, tid, target. repeat split; auto.
    cbn [ledger createTx]. by destruct (negb _).
Qed.

Lemma windowTransfers_app uid now st st' new :
  ledger st' = (ledger st ++ new)%list ->
  windowTransfers uid now st'
  = (windowTransfers uid now st ++ List.filter (inWindow uid (now - day)) new)%list.
Proof.
  intros H. unfold windowTransfers. fold day. by rewrite H, List.filter_app.
Qed.

Lemma fold_amounts_shift (k : list CoinTransaction) : forall a,
  fold_left (fun a t => a + amount t) k a
  = a + fold_left (fun a t => a + amount t) k 0.
Proof.
  induction k as [|x k IH]; intros a; cbn [fold_left]; [lia|].
  rewrite (IH (a + amount x)), (IH (0 + amount x)). lia.
Qed.

Lemma fold_amounts_app (l k : list CoinTransaction) a :
  fold_left (fun a t => a + amount t) (l ++ k)%list a
  = fold_left (fun a t => a + amount t) l a
    + fold_left (fun a t => a + amount t) k 0.
Proof. rewrite fold_left_app. apply fold_amounts_shift. Qed.

(** X6. A non-admin's accepted [POST /transfer] found fewer than 20
    transfers and less than 2000 coins in the sender's 24-hour window, and
    it takes one place in that window and adds its amount to the window's
    sum: the window then holds at most 20 transfers, while the sum limit
    bounds only what was sent before, not the amount now sent. *)
Theorem accepted_transfer_uses_quota s t amt now st st' user :
  post_transfer s t amt now st = (Ok, st') ->
  users st !! s = Some user ->
  is_admin (role user) = false ->
  windowCount s now st < 20
  /\ windowSum s now st < 2000
  /\ windowCount s now st' = windowCount s now st + 1
  /\ windowSum s now st' = windowSum s now st + amt.
Proof.
  intros Hok Hu Hadm.
  destruct (post_transfer_Ok _ _ _ _ _ _ Hok)
    as (user' & tid & target & Hu' & _ & _ & _ & _ & _ & _ & Hlim & Hl).
  replace user' with user in * by congruence.
  destruct Hlim as [Hlim|Hlim]; [congruence|].
  apply dailyLimitsOK_spec in Hlim as [Hc Hs]. split; [done|]. split; [done|].
  unfold windowCount, windowSum.
  rewrite (windowTransfers_app _ _ _ _ _ Hl). cbn [List.filter].
  assert (Hin : inWindow s (now - day)
            (mkTx tx_transfer (Some s) (Some (username user)) (Some tid)
                  (Some (username target)) amt "User transfer" now) = true).
  { unfold inWindow, day. cbn [type fromUserId createdAt].
    rewrite !bool_decide_eq_true_2 by done. cbn [andb]. apply Z.leb_le. lia. }
  rewrite Hin. rewrite length_app, fold_amounts_app. cbn. lia.
Qed.

Lemma accepted_transfer_uses_quota_witness :
  let st := storeOf [(1%nat, chatUser "alice" 5000 false);
                     (2%nat, chatUser "bob" 0 false)] in
  let st' := snd (post_transfer 1 "bob" 3000 77 st) in
  windowCount 1 77 st < 20
  /\ windowSum 1 77 st < 2000
  /\ windowCount 1 77 st' = windowCount 1 77 st + 1
  /\ windowSum 1 77 st' = windowSum 1 77 st + 3000.
Proof.
  cbv zeta.
  apply (accepted_transfer_uses_quota 1 "bob" 3000 77 _ _
           (chatUser "alice" 5000 false)).
  - vm_compute; reflexivity.
  - vm_compute; reflexivity.
  - reflexivity.
Defined.

Lemma filter_length_mono {A} (p q : A -> bool) (l : list A) :
  (forall x, p x = true -> q x = true) ->
  (length (List.filter p l) <= length (List.filter q l))%nat.
Proof.
  intros Hpq. induction l as [|x l IH]; [done|]. cbn [List.filter].
  destruct (p x) eqn:Hp.
  - rewrite (Hpq x Hp). cbn. lia.
  - destruct (q x); cbn; lia.
Qed.

Lemma sinceCount_le_window s T0 now st :
  now <= T0 + day ->
  Z.of_nat (length (List.filter (inWindow s T0) (ledger st)))
  <= windowCount s now st.
Proof.
  intros Hnow. unfold windowCount, windowTransfers. fold day.
  apply inj_le, filter_length_mono. intros tx. unfold inWindow.
  intros H. apply andb_prop in H as [H1 H2]. rewrite H1. cbn [andb].
  apply Z.leb_le in H2. apply Z.leb_le. lia.
Qed.

Lemma acceptedTransfers_bound s T0 reqs : forall st,
  notAdmin st s ->
  Forall (fun q => T0 <= snd q <= T0 + day) reqs ->
  Z.of_nat (length (List.filter (inWindow s T0) (ledger st)))
  + Z.of_nat (acceptedTransfers s reqs st)
  <= Z.max 20 (Z.of_nat (length (List.filter (inWindow s T0) (ledger st)))).
Proof.
  induction reqs as [|[[t amt] now] reqs IH]; intros st Hna Hreqs;
    cbn [acceptedTransfers]; [lia|].
  apply Forall_cons in Hreqs as [[Hlo Hhi] Hreqs]. cbn [snd] in *.
  destruct (post_transfer s t amt now st) as [response st'] eqn:Hrun.
  assert (Hna' : notAdmin st' s).
  { eapply notAdmin_sameAuthority; [|exact Hna].
    eapply usersRel_impl; [apply evolves_sameAuthority|].
    replace st' with (snd (post_transfer s t amt now st)) by by rewrite Hrun.
    apply evolves_post_transfer. }
  specialize (IH st' Hna' Hreqs).
  destruct response as [|status msg].
  - destruct (post_transfer_Ok _ _ _ _ _ _ Hrun)
      as (user & tid & target & Hu & _ & _ & _ & _ & _ & _ & Hlim & Hl).
    destruct Hlim as [Hadm|Hlim]; [by rewrite (Hna user Hu) in Hadm|].
    apply dailyLimitsOK_spec in Hlim as [Hc _].
    pose proof (sinceCount_le_window s T0 now st Hhi) as Hle.
    rewrite Hl, List.filter_app, length_app in IH. cbn [List.filter] in IH.
    assert (Hin : inWindow s T0
              (mkTx tx_transfer (Some s) (Some (username user)) (Some tid)
                    (Some (username target)) amt "User transfer" now) = true).
    { unfold inWindow. cbn [type fromUserId createdAt].
      rewrite !bool_decide_eq_true_2 by done. cbn [andb]. by apply Z.leb_le. }
    rewrite Hin in IH. cbn [length] in IH. lia.
  - assert (st' = st) as ->.
    { pose proof (appended_post_transfer s t amt now st) as _.
      revert Hrun. unfold post_transfer, loadUser, findById.
      repeat case_match; intros [= <- <-] || intros [=]; done. }
    lia.
Qed.

(** X7. The count limit holds over time: of the [POST /transfer] requests
    that a non-admin account issues within any span of 24 hours, at most 20
    are accepted, whatever their recipients and amounts and whatever the
    account had sent before. *)
Theorem at_most_20_transfers_a_day s T0 reqs st :
  notAdmin st s ->
  Forall (fun q => T0 <= snd q <= T0 + day) reqs ->
  (acceptedTransfers s reqs st <= 20)%nat.
Proof.
  intros Hna Hreqs.
  pose proof (acceptedTransfers_bound s T0 reqs st Hna Hreqs). lia.
Qed.

Lemma at_most_20_transfers_a_day_witness :
  let st := storeOf [(1%nat, chatUser "alice" 5000 false);
                     (2%nat, chatUser "bob" 0 false)] in
  let reqs := repeat ("bob", 1, 2000) 25 in
  (acceptedTransfers 1 reqs st <= 20)%nat.
Proof.
  cbv zeta. apply (at_most_20_transfers_a_day 1 1000).
  - intros u Hu. vm_compute in Hu. by injection Hu as <-.
  - apply Forall_forall. intros q Hq.
    apply list_elem_of_In, repeat_spec in Hq as ->. unfold day. cbn. lia.
Defined.

(** Twenty-five requests in a row: exactly twenty go through. *)
Example twenty_of_twenty_five :
  acceptedTransfers 1 (repeat ("bob", 1, 2000) 25)
    (storeOf [(1%nat, chatUser "alice" 5000 false);
              (2%nat, chatUser "bob" 0 false)]) = 20%nat.
Proof. vm_compute. reflexivity. Qed.

(** ** Achievements are never held twice *)

Lemma uniqueKept_handle FM r now st :
  usersRel uniqueKept st (handle FM r now st).
Proof.
  destruct r as [o| s n x | s n l | s n c k]; cbn [handle].
  - destruct o; cbn [step];
      try (eapply usersRel_impl; [apply evolves_uniqueKept|];
           solve [auto using evolves_post_transfer, evolves_post_dm_send,
             evolves_post_buy_feature, evolves_post_level_up,
             evolves_awardAchievement, evolves_recordFeatureAction]).
    eapply usersRel_impl; [|apply effect_post_adjust].
    intros u u' [->|(c & _ & ->)] x H; exact H.
  - eapply usersRel_impl; [|apply effect_post_set_role].
    intros u u' [->|[y ->]] c H; exact H.
  - eapply usersRel_impl; [|apply effect_post_set_level].
    intros u u' [->|(y & Hy & ->)] c H; exact H.
  - eapply usersRel_impl; [|apply effect_post_set_bans].
    intros u u' [->|[y ->]] z H; exact H.
Qed.

(** X8. No account ever holds a reward code twice: if that is so at the
    start, it is so after any sequence of requests (level-ups, which award
    two codes, and direct calls of [awardAchievement] with any code
    included). *)
Theorem achievements_stay_unique FM rs st :
  achievementsUnique st -> achievementsUnique (handleAll FM rs st).
Proof.
  intros Hst.
  assert (H : usersRel uniqueKept st (handleAll FM rs st)).
  { clear Hst. unfold handleAll. revert st.
    induction rs as [|[r now] rs IH]; intros st; cbn [fold_left fst snd];
      [apply usersRel_refl, _|].
    eapply usersRel_trans; [apply _..| |apply IH]. apply uniqueKept_handle. }
  intros k u' c Hu'.
  destruct (usersRel_lookup_rev _ _ _ _ _ H Hu') as (u & Hu & Hq).
  apply Hq. by apply (Hst k).
Qed.

Lemma achievements_stay_unique_witness :
  let st := storeOf [(1%nat, chatUser "alice" 900 false)] in
  let rs :=
    [(Economy (OpLevelUp 1 (Some 2)), 10);
     (Economy (OpAward 1 "LEVEL2_UNLOCKED"), 20);
     (Economy (OpLevelUp 1 (Some 3)), 30);
     (Economy (OpAward 1 "toString"), 40);
     (Economy (OpAward 1 "LEVEL3_UNLOCKED"), 50)] in
  achievementsUnique (handleAll sampleMilestones rs st).
Proof.
  cbv zeta. apply achievements_stay_unique.
  intros k u c Hu.
  destruct (decide (k = 1%nat)) as [->|Hne].
  - vm_compute in Hu. injection Hu as <-. cbn. lia.
  - unfold storeOf in Hu. cbn [users list_to_map foldr] in Hu.
    rewrite lookup_insert_ne in Hu by done. by rewrite lookup_empty in Hu.
Defined.

(** ** What achievements can pay *)






#[global] Instance earns_refl : Reflexive earns.
Proof. intros u. unfold earns. lia. Qed.

#[global] Instance earns_trans : Transitive earns.
Proof. intros u v w [H1 H2] [H3 H4]. unfold earns. lia. Qed.




(** ** awardApOnce *)

Lemma awardApOnce_cases uid c ap st :
  awardApOnce uid c ap st
  = if String.eqb (Js.trim c) "" || (ap <=? 0)
    then (mkApResult false false, st)
    else match users st !! uid with
         | Some u =>
             if hasAwarded (Js.trim c) u then (mkApResult true false, st)
             else (mkApResult true true,
                   set_users (<[uid := payAp (Js.trim c) ap u]> (users st)) st)
         | None => (mkApResult true false, st)
         end.
Proof.
  unfold awardApOnce, updateOne, findOneAndUpdate.
  destruct (_ || _); [done|]. destruct (users st !! uid) as [u|]; [|done].
  by destruct (hasAwarded (Js.trim c) u).
Qed.

(** X10. A milestone code pays once. [awardApOnce] reports [awarded]
    exactly when it recorded the code and added the points; called again
    with the same arguments it changes nothing and reports [awarded: false];
    and once an account holds the code, no call with that code pays,
    whatever amount it carries. *)
Theorem awardApOnce_pays_once uid c ap st :
  let r := awardApOnce uid c ap st in
  awardApOnce uid c ap (snd r) = (mkApResult (ok (fst r)) false, snd r)
  /\ (awarded (fst r) = true <->
      exists u, users st !! uid = Some u
                /\ Js.trim c <> "" /\ 0 < ap
                /\ hasAwarded (Js.trim c) u = false
                /\ users (snd r) !! uid = Some (payAp (Js.trim c) ap u))
  /\ (awarded (fst r) = false -> snd r = st)
  /\ (forall u ap',
        users st !! uid = Some u -> hasAwarded (Js.trim c) u = true ->
        snd (awardApOnce uid c ap' st) = st
        /\ awarded (fst (awardApOnce uid c ap' st)) = false).
Proof.
  cbv zeta. split; [|split; [|split]].
  - rewrite (awardApOnce_cases uid c ap st).
    destruct (String.eqb (Js.trim c) "" || (ap <=? 0)) eqn:Hv; cbn [fst snd ok].
    + by rewrite awardApOnce_cases, Hv.
    + destruct (users st !! uid) as [u|] eqn:Hu.
      * destruct (hasAwarded (Js.trim c) u) eqn:Hh; cbn [fst snd ok].
        -- by rewrite awardApOnce_cases, Hv, Hu, Hh.
        -- rewrite awardApOnce_cases, Hv. cbn [users set_users].
           rewrite lookup_insert_eq, hasAwarded_payAp, String.eqb_refl.
           by rewrite orb_true_r.
      * cbn [fst snd ok]. by rewrite awardApOnce_cases, Hv, Hu.
  - rewrite (awardApOnce_cases uid c ap st).
    destruct (String.eqb_spec (Js.trim c) "") as [He|He]; cbn [orb].
    { cbn. split; [done|]. by intros (u & _ & Hne & _). }
    destruct (Z.leb_spec ap 0) as [Hap|Hap].
    { cbn. split; [done|]. intros (u & _ & _ & Hpos & _). lia. }
    destruct (users st !! uid) as [u|] eqn:Hu.
    + destruct (hasAwarded (Js.trim c) u) eqn:Hh; cbn [fst snd awarded].
      * split; [done|]. intros (u0 & [= <-] & _ & _ & Hno & _). congruence.
      * split; [|done]. intros _. exists u. repeat split; auto.
        cbn [users set_users]. apply lookup_insert_eq.
    + cbn. split; [done|]. by intros (u0 & [=] & _).
  - rewrite (awardApOnce_cases uid c ap st).
    destruct (_ || _); [done|]. destruct (users st !! uid) as [u|]; [|done].
    by destruct (hasAwarded (Js.trim c) u).
  - intros u ap' Hu Hh. rewrite (awardApOnce_cases uid c ap' st).
    destruct (_ || _); [done|]. by rewrite Hu, Hh.
Qed.

(** ** Keeping an admin *)

#[global] Instance sameRole_refl : Reflexive sameRole.
Proof. by intros u. Qed.

#[global] Instance sameRole_trans : Transitive sameRole.
Proof. intros u v w H1 H2. unfold sameRole in *. congruence. Qed.

Lemma sameRole_handle FM r now st :
  (forall s n x, r <> SetRole s n x) ->
  usersRel sameRole st (handle FM r now st).
Proof.
  intros Hr. destruct r as [o| s n x | s n l | s n c k]; cbn [handle].
  - destruct o; cbn [step];
      try (eapply usersRel_impl;
           [intros u u' Hu; apply (evolves_sameAuthority _ _ Hu)|];
           solve [auto using evolves_post_transfer, evolves_post_dm_send,
             evolves_post_buy_feature, evolves_post_level_up,
             evolves_awardAchievement, evolves_recordFeatureAction]).
    eapply usersRel_impl; [|apply effect_post_adjust].
    by intros u u' [->|(c & _ & ->)].
  - by destruct (Hr s n x).
  - eapply usersRel_impl; [|apply effect_post_set_level].
    by intros u u' [->|(y & _ & ->)].
  - eapply usersRel_impl; [|apply effect_post_set_bans].
    by intros u u' [->|[y ->]].
Qed.

Lemma hasAdmin_sameRole st st' :
  usersRel sameRole st st' -> hasAdmin st -> hasAdmin st'.
Proof.
  intros H (k & u & Hu & Hr).
  destruct (usersRel_lookup _ _ _ _ _ H Hu) as (u' & Hu' & Hr').
  exists k, u'. split; [done|]. unfold sameRole in Hr'. congruence.
Qed.

Lemma noAdmin_sameRole st st' :
  usersRel sameRole st st' -> ~ hasAdmin st -> ~ hasAdmin st'.
Proof.
  intros H Hno (k & u' & Hu' & Hr'). apply Hno.
  destruct (usersRel_lookup_rev _ _ _ _ _ H Hu') as (u & Hu & Hr).
  exists k, u. split; [done|]. unfold sameRole in Hr. congruence.
Qed.

(** An answer of the role route of [routes/admin.js]: either nothing
    changed, or the request was accepted and its sender is still an
    admin. *)
Lemma post_users_set_role_cases s n r st :
  snd (post_users_set_role s n r st) = st
  \/ exists u, users (snd (post_users_set_role s n r st)) !! s = Some u
               /\ role u = RoleAdmin.
Proof.
  unfold post_users_set_role, loadUser, findById, requireAdmin.
  destruct (users st !! s) as [user|] eqn:Eu; [|by left].
  destruct (role user) eqn:Er; cbn [is_admin negb]; [by left..|].
  destruct (String.eqb n ""); [by left|].
  destruct (parseRole r) as [newRole|]; [|by left].
  destruct (findOne (Js.trim n) st) as [[tid target]|] eqn:Ef; [|by left].
  destruct (Nat.eqb_spec tid s) as [->|Hne]; cbn [andb].
  - destruct newRole; cbn [is_admin negb]; [by left..|]. right.
    cbn [snd]. rewrite (save_lookup _ _ _ _ Eu). by eexists.
  - right. cbn [snd]. rewrite save_lookup_ne by done. by exists user.
Qed.

Lemma hasAdmin_serve FM q now st :
  coinSetRole q = false -> hasAdmin st -> hasAdmin (serve FM q now st).
Proof.
  intros Hq Hst. destruct q as [r|s n x]; cbn [serve].
  - eapply hasAdmin_sameRole; [|exact Hst]. apply sameRole_handle.
    intros s n x ->. discriminate.
  - destruct (post_users_set_role_cases s n x st) as [->|(u & Hu & Hr)];
      [done|]. by exists s, u.
Qed.

(** X11. An admin remains. If some account is an admin, some account is
    still an admin after any sequence of requests that does not use the
    role route of [routes/coins.js]: the role route of [routes/admin.js]
    refuses to take the admin role from the admin who asks, and no other
    route changes a role. *)
Theorem an_admin_remains FM qs st :
  Forall (fun p => coinSetRole (fst p) = false) qs ->
  hasAdmin st -> hasAdmin (serveAll FM qs st).
Proof.
  unfold serveAll. intros Hqs. revert st.
  induction Hqs as [|[q now] qs Hq _ IH]; intros st Hst;
    cbn [fold_left fst snd]; [done|].
  apply IH. by apply hasAdmin_serve.
Qed.

Lemma an_admin_remains_witness :
  let st := storeOf [(1%nat, mkUser "root" 0 RoleAdmin 1 (mkBans false false)
                               [] [] 0 ∅ ∅);
                     (2%nat, chatUser "bob" 10 false)] in
  let qs :=
    [(UsersSetRole 1 "root" "user", 10);
     (UsersSetRole 1 "bob" "admin", 20);
     (UsersSetRole 2 "root" "mod", 30);
     (Routed (SetBans 2 "bob" (Some true) None), 40)] in
  hasAdmin (serveAll sampleMilestones qs st).
Proof.
  cbv zeta. apply an_admin_remains.
  - repeat constructor.
  - exists 1%nat. eexists. split; [vm_compute; reflexivity|reflexivity].
Defined.

Lemma noAdmin_serve FM q now st :
  ~ hasAdmin st -> ~ hasAdmin (serve FM q now st).
Proof.
  intros Hno.
  assert (Hna : forall s, notAdmin st s).
  { intros s u Hu. destruct (role u) eqn:Er; try done.
    destruct Hno. by exists s, u. }
  destruct q as [r|s n x]; cbn [serve].
  - destruct r as [o| s n x | s n l | s n c k];
      try (eapply noAdmin_sameRole; [|exact Hno]; apply sameRole_handle;
           intros ? ? ? ?; discriminate).
    cbn [handle]. by rewrite post_set_role_forbidden.
  - unfold post_users_set_role, loadUser, findById, requireAdmin.
    destruct (users st !! s) as [user|] eqn:Eu; [|done].
    by rewrite (Hna s user Eu).
Qed.

(** X12. The role route of [routes/coins.js] has no such guard. When the
    only admin names their own account with a role other than admin, the
    request is accepted, no account is an admin afterwards, and none ever
    is again, whatever requests follow. *)
Theorem coin_set_role_removes_last_admin FM s n r now st user newRole qs :
  findOne (Js.trim n) st = Some (s, user) ->
  Js.trim n <> "" ->
  role user = RoleAdmin ->
  (forall k u, users st !! k = Some u -> role u = RoleAdmin -> k = s) ->
  parseRole (Js.trim r) = Some newRole ->
  newRole <> RoleAdmin ->
  let st' := snd (post_set_role s n r now st) in
  fst (post_set_role s n r now st) = Ok
  /\ ~ hasAdmin st'
  /\ ~ hasAdmin (serveAll FM qs st').
Proof.
  intros Hf Hn Hr Hsole Hp Hnew. cbv zeta.
  destruct (findOne_Some _ _ _ _ Hf) as [Hu _].
  assert (Hrun : post_set_role s n r now st
                 = (Ok, createTx (mkTx tx_admin_set_role
                                    (Some s) (Some (username user))
                                    (Some s) (Some (username user)) 0
                                    ("Admin set role " +:+ roleName (role user)
                                       +:+ " -> " +:+ Js.trim r) now)
                          (save s (set_role newRole) st))).
  { unfold post_set_role, loadUser, findById, requireAdmin.
    rewrite Hu, Hr. cbn [is_admin negb].
    destruct (String.eqb_spec (Js.trim n) ""); [done|].
    by rewrite Hp, Hf, Hr. }
  rewrite Hrun. cbn [fst snd].
  assert (Hno : ~ hasAdmin (createTx (mkTx tx_admin_set_role
                                    (Some s) (Some (username user))
                                    (Some s) (Some (username user)) 0
                                    ("Admin set role " +:+ roleName (role user)
                                       +:+ " -> " +:+ Js.trim r) now)
                          (save s (set_role newRole) st))).
  { intros (k & u & Hk & Hrk). cbn [users createTx] in Hk.
    destruct (decide (k = s)) as [->|Hne].
    - rewrite (save_lookup _ _ _ _ Hu) in Hk. injection Hk as <-.
      by cbn in Hrk.
    - rewrite save_lookup_ne in Hk by done. by apply Hne, (Hsole k u). }
  split; [done|]. split; [done|].
  unfold serveAll. revert Hno. generalize (createTx (mkTx tx_admin_set_role
                                    (Some s) (Some (username user))
                                    (Some s) (Some (username user)) 0
                                    ("Admin set role " +:+ roleName (role user)
                                       +:+ " -> " +:+ Js.trim r) now)
                          (save s (set_role newRole) st)).
  induction qs as [|[q t] qs IH]; intros cur Hcur; cbn [fold_left fst snd];
    [done|].
  apply IH. by apply noAdmin_serve.
Qed.

Lemma coin_set_role_removes_last_admin_witness :
  let st := storeOf [(1%nat, mkUser "root" 0 RoleAdmin 1 (mkBans false false)
                               [] [] 0 ∅ ∅);
                     (2%nat, chatUser "bob" 10 false)] in
  let qs := [(UsersSetRole 1 "root" "admin", 20);
             (Routed (SetRole 1 "bob" "admin"), 30)] in
  fst (post_set_role 1 "root" "mod" 10 st) = Ok
  /\ ~ hasAdmin (snd (post_set_role 1 "root" "mod" 10 st))
  /\ ~ hasAdmin (serveAll sampleMilestones qs
                   (snd (post_set_role 1 "root" "mod" 10 st))).
Proof.
  cbv zeta.
  apply (coin_set_role_removes_last_admin sampleMilestones 1 "root" "mod" 10 _
           (mkUser "root" 0 RoleAdmin 1 (mkBans false false) [] [] 0 ∅ ∅)
           RoleMod).
  - vm_compute; reflexivity.
  - discriminate.
  - reflexivity.
  - intros k u Hk Hr.
    destruct (decide (k = 1%nat)) as [->|H1]; [done|].
    destruct (decide (k = 2%nat)) as [->|H2].
    + vm_compute in Hk. injection Hk as <-. discriminate.
    + unfold storeOf in Hk. cbn [users list_to_map foldr uncurry fst snd] in Hk.
      rewrite !lookup_insert_ne in Hk by done. by rewrite lookup_empty in Hk.
  - vm_compute; reflexivity.
  - discriminate.
Defined.

(** ** IP bans *)

Lemma findBan_upsertBan ip reason bs :
  findBan ip (upsertBan ip reason bs) = Some (mkIpBan ip reason None).
Proof.
  unfold findBan. induction bs as [|b bs IH]; cbn [upsertBan List.find ban_ip].
  - by rewrite String.eqb_refl.
  - destruct (String.eqb (ban_ip b) ip) eqn:E; cbn [List.find ban_ip].
    + by rewrite String.eqb_refl.
    + by rewrite E.
Qed.

Lemma findBan_upsertBan_ne ip ip' reason bs :
  ip' <> ip -> findBan ip' (upsertBan ip reason bs) = findBan ip' bs.
Proof.
  intros Hne. unfold findBan.
  induction bs as [|b bs IH]; cbn [upsertBan List.find ban_ip].
  - by destruct (String.eqb_spec ip ip').
  - destruct (String.eqb_spec (ban_ip b) ip) as [Hb|Hb];
      cbn [List.find ban_ip].
    + destruct (String.eqb_spec ip ip') as [|_]; [congruence|].
      destruct (String.eqb_spec (ban_ip b) ip') as [|_]; [congruence|done].
    + by rewrite IH.
Qed.

Lemma post_users_full_ban_Ok s n reason req lastIp st bs st' bs' :
  post_users_full_ban s n reason req lastIp st bs = (Ok, (st', bs')) ->
  exists tid target,
    findOne (Js.trim n) st = Some (tid, target)
    /\ st' = save tid (set_bans (mkBans true true)) st
    /\ bs' = (if String.eqb (ipToBan lastIp tid req) "" then bs
              else upsertBan (ipToBan lastIp tid req)
                     (orElse reason "Full ban") bs).
Proof.
  unfold post_users_full_ban.
  destruct (loadUser s st) as [user|]; [|done].
  destruct (negb _); [done|]. destruct (String.eqb _ _); [done|].
  destruct (findOne _ st) as [[tid target]|]; [|done].
  intros [= <- <-]. by exists tid, target.
Qed.

(** X13. A full ban holds. After an accepted [POST /users/full-ban], the
    target is banned from chat and from coins; and when an address was
    banned with it (the target's last address, or else the address of the
    admin's own request), [checkIpBan] answers 403 to every request that
    presents this address, at any time, while the answer to requests from
    any other address is as before. *)
Theorem full_ban_holds s n reason req lastIp st bs st' bs' :
  post_users_full_ban s n reason req lastIp st bs = (Ok, (st', bs')) ->
  exists tid target,
    findOne (Js.trim n) st = Some (tid, target)
    /\ bans <$> users st' !! tid = Some (mkBans true true)
    /\ (forall req' now,
          getClientIp req' = ipToBan lastIp tid req ->
          ipToBan lastIp tid req <> "" ->
          checkIpBan req' now bs' = banned)
    /\ (forall req' now,
          getClientIp req' <> ipToBan lastIp tid req ->
          checkIpBan req' now bs' = checkIpBan req' now bs).
Proof.
  intros H. destruct (post_users_full_ban_Ok _ _ _ _ _ _ _ _ _ H)
    as (tid & target & Hf & -> & ->).
  exists tid, target. split; [done|].
  destruct (findOne_Some _ _ _ _ Hf) as [Hu _]. split; [|split].
  - by rewrite (save_lookup _ _ _ _ Hu).
  - intros req' now Hip Hne. unfold checkIpBan. rewrite Hip.
    destruct (String.eqb_spec (ipToBan lastIp tid req) ""); [done|].
    by rewrite findBan_upsertBan.
  - intros req' now Hip. unfold checkIpBan.
    destruct (String.eqb (ipToBan lastIp tid req) ""); [done|].
    by rewrite findBan_upsertBan_ne.
Qed.

Lemma full_ban_holds_witness :
  let st := storeOf [(1%nat, mkUser "root" 0 RoleAdmin 1 (mkBans false false)
                               [] [] 0 ∅ ∅);
                     (2%nat, chatUser "bob" 10 false)] in
  let lastIp : gmap nat string := {[ 2%nat := "10.0.0.7" ]} in
  let req := mkReq None "10.0.0.1" "" "" in
  let r := post_users_full_ban 1 "bob" "" req lastIp st [] in
  exists tid target,
    findOne (Js.trim "bob") st = Some (tid, target)
    /\ bans <$> users (fst (snd r)) !! tid = Some (mkBans true true)
    /\ (forall req' now,
          getClientIp req' = ipToBan lastIp tid req ->
          ipToBan lastIp tid req <> "" ->
          checkIpBan req' now (snd (snd r)) = banned)
    /\ (forall req' now,
          getClientIp req' <> ipToBan lastIp tid req ->
          checkIpBan req' now (snd (snd r)) = checkIpBan req' now []).
Proof.
  intros st lastIp req r.
  apply (full_ban_holds 1 "bob" "" req lastIp st [] (fst (snd r)) (snd (snd r))).
  vm_compute. reflexivity.
Defined.

(** X14. The fallback of the full ban is the admin's own address. When
    the target has no recorded address, an accepted full ban bans the
    address of the request that asked for it: the same request, sent
    again, is answered 403 by [checkIpBan]. *)
Theorem full_ban_without_address_bans_the_sender
    s n reason req lastIp st bs st' bs' tid target now :
  post_users_full_ban s n reason req lastIp st bs = (Ok, (st', bs')) ->
  findOne (Js.trim n) st = Some (tid, target) ->
  default "" (lastIp !! tid) = "" ->
  getClientIp req <> "" ->
  checkIpBan req now bs' = banned.
Proof.
  intros H Hf Hlast Hreq.
  destruct (post_users_full_ban_Ok _ _ _ _ _ _ _ _ _ H)
    as (tid' & target' & Hf' & _ & ->).
  rewrite Hf in Hf'. injection Hf' as <- <-.
  assert (Hip : ipToBan lastIp tid req = getClientIp req).
  { unfold ipToBan, orElse. by rewrite Hlast. }
  rewrite Hip. unfold checkIpBan.
  destruct (String.eqb_spec (getClientIp req) ""); [done|].
  by rewrite findBan_upsertBan.
Qed.

Lemma full_ban_without_address_bans_the_sender_witness :
  let st := storeOf [(1%nat, mkUser "root" 0 RoleAdmin 1 (mkBans false false)
                               [] [] 0 ∅ ∅);
                     (2%nat, chatUser "bob" 10 false)] in
  let req := mkReq None "10.0.0.1" "" "" in
  checkIpBan req 5000
    (snd (snd (post_users_full_ban 1 "bob" "spam" req ∅ st []))) = banned.
Proof.
  intros st req.
  apply (full_ban_without_address_bans_the_sender 1 "bob" "spam" req ∅ st []
           (fst (snd (post_users_full_ban 1 "bob" "spam" req ∅ st [])))
           (snd (snd (post_users_full_ban 1 "bob" "spam" req ∅ st [])))
           2 (chatUser "bob" 10 false)).
  - vm_compute. reflexivity.
  - vm_compute. reflexivity.
  - reflexivity.
  - discriminate.
Defined.

(** X15. The forwarded-for header decides. When a request carries a
    non-empty [x-forwarded-for] header, [checkIpBan] looks at nothing
    else: the verdict is the same whatever the addresses of the
    connection; and when the first entry of the header is blank, the
    request passes, whatever the ban list holds. *)
Theorem forwarded_header_decides xff now bs :
  xff <> "" ->
  (forall a b c a' b' c',
      checkIpBan (mkReq (Some xff) a b c) now bs
      = checkIpBan (mkReq (Some xff) a' b' c') now bs)
  /\ (Js.trim (firstField xff) = "" ->
      forall a b c, checkIpBan (mkReq (Some xff) a b c) now bs = None).
Proof.
  intros Hx.
  assert (Hip : forall a b c,
             getClientIp (mkReq (Some xff) a b c) = Js.trim (firstField xff)).
  { intros a b c. unfold getClientIp. cbn [xForwardedFor].
    by destruct (String.eqb_spec xff ""). }
  split.
  - intros a b c a' b' c'. unfold checkIpBan. by rewrite !Hip.
  - intros Hblank a b c. unfold checkIpBan. by rewrite Hip, Hblank.
Qed.

Lemma forwarded_header_decides_witness :
  let bs := [mkIpBan "10.0.0.1" "Full ban" None] in
  checkIpBan (mkReq None "10.0.0.1" "" "") 5000 bs = banned
  /\ checkIpBan (mkReq (Some " , 10.0.0.1") "10.0.0.1" "" "") 5000 bs = None.
Proof.
  cbv zeta. split; [reflexivity|].
  destruct (forwarded_header_decides " , 10.0.0.1" 5000
              [mkIpBan "10.0.0.1" "Full ban" None]) as [_ H]; [discriminate|].
  apply H. reflexivity.
Defined.

(** ** The direct-message route *)

Lemma findOneAndUpdate_messages k cond upd st :
  messages (snd (findOneAndUpdate k cond upd st)) = messages st.
Proof.
  unfold findOneAndUpdate. destruct (users st !! k) as [u|]; [|done].
  by destruct (cond u).
Qed.

Lemma awardApOnce_messages uid c ap st :
  messages (snd (awardApOnce uid c ap st)) = messages st.
Proof.
  rewrite awardApOnce_cases. destruct (_ || _); [done|].
  destruct (users st !! uid) as [u|]; [|done].
  by destruct (hasAwarded (Js.trim c) u).
Qed.

Lemma recordFeatureAction_messages FM uid f k d st :
  messages (snd (recordFeatureAction FM uid f k d st)) = messages st.
Proof.
  unfold recordFeatureAction.
  destruct (d =? 0); [done|]. destruct (_ || _); [done|].
  pose proof (findOneAndUpdate_messages uid (fun _ => true)
                (incStat (Js.trim k) d) st) as H1.
  destruct (findOneAndUpdate uid _ (incStat (Js.trim k) d) st) as [user st1].
  cbn [snd] in *. rewrite <- H1.
  generalize (match user with
              | Some u => readStat (Js.trim k) u
              | None => 0
              end) as v.
  intros v. clear H1. revert st1.
  induction (FM (Js.trim f) (Js.trim k)) as [|m ms IH]; intros st1; [done|].
  cbn [fold_left]. rewrite IH. unfold awardMilestone.
  destruct (String.eqb _ _); [done|]. destruct (_ <=? _); [|done].
  apply awardApOnce_messages.
Qed.

Lemma dmTransfer_messages s tid user target c now st st1 :
  dmTransfer s tid user target c now st = inr st1 ->
  messages st1 = messages st.
Proof.
  unfold dmTransfer. destruct (0 <? c); [|by intros [= <-]].
  destruct (isBannedFromCoins (bans user)); [done|].
  destruct (coins user <? c); [done|].
  intros [= <-]. by destruct (negb _).
Qed.

(** X16. What a direct message needs and leaves. A rejected request
    [POST /dm/send] changes nothing. An accepted one comes from an account
    that unlocked chat and is not banned from chat, goes to another account
    that unlocked chat, carries an image only if the sender unlocked image
    upload and reached level 2, and adds exactly one message to the
    history: from the sender to the recipient, with at most 2000 UTF-16
    code units of text ([.length] of the stored string), at most 300 of
    image address, and a coin count that is never negative. *)
Theorem dm_send_contract FM s t text imageUrl c now st :
  let r := post_dm_send FM s t text imageUrl c now st in
  match fst r with
  | Error _ _ => snd r = st
  | Ok =>
      exists user tid target,
        users st !! s = Some user
        /\ findOne (Js.trim t) st = Some (tid, target)
        /\ tid <> s
        /\ unlocked "chat" user = true
        /\ unlocked "chat" target = true
        /\ isBannedFromChat (bans user) = false
        /\ (Js.trim imageUrl <> "" ->
            unlocked "imageUpload" user = true /\ 2 <= level user)
        /\ messages (snd r)
           = (messages st ++ [dmMessage s tid text imageUrl c])%list
        /\ (Js.length (msg_text (dmMessage s tid text imageUrl c))
            <= 2000)%nat
        /\ (Js.length (msg_imageUrl (dmMessage s tid text imageUrl c))
            <= 300)%nat
        /\ 0 <= coinsSent (dmMessage s tid text imageUrl c)
  end.
Proof.
  cbv zeta. unfold post_dm_send, loadUser, findById, requireChatUnlocked.
  destruct (users st !! s) as [user|] eqn:Eu; [|done].
  destruct (unlocked "chat" user) eqn:Ec; cbn [negb]; [|done].
  destruct (negb (String.eqb (Js.trim imageUrl) "")
            && negb (unlocked "imageUpload" user)) eqn:Ei; [done|].
  destruct (isBannedFromChat (bans user)) eqn:Eb; [done|].
  destruct (String.eqb t ""); [done|].
  destruct (findOne (Js.trim t) st) as [[tid target]|] eqn:Ef; [|done].
  destruct (String.eqb_spec (username target) (username user)) as [|Hn];
    [done|].
  destruct (unlocked "chat" target) eqn:Et; cbn [negb]; [|done].
  destruct (negb (String.eqb (Js.trim imageUrl) "") && (level user <? 2))
    eqn:El; [done|].
  destruct (dmTransfer s tid user target c now st) as [resp|st1] eqn:Ed.
  { unfold dmTransfer in Ed. destruct (0 <? c); [|done].
    destruct (isBannedFromCoins (bans user)); [by injection Ed as <-|].
    destruct (coins user <? c); [by injection Ed as <-|done]. }
  cbn [fst snd]. exists user, tid, target.
  destruct (findOne_Some _ _ _ _ Ef) as [Ht _].
  repeat split; try done.
  - intros ->. rewrite Eu in Ht. by injection Ht as ->.
  - destruct (String.eqb_spec (Js.trim imageUrl) ""); [done|].
    cbn [negb andb] in Ei. by destruct (unlocked "imageUpload" user).
  - destruct (String.eqb_spec (Js.trim imageUrl) ""); [done|].
    cbn [negb andb] in El. by apply Z.ltb_ge in El.
  - rewrite <- (dmTransfer_messages _ _ _ _ _ _ _ _ Ed). unfold dmMessage.
    destruct (negb (String.eqb (Js.trim imageUrl) ""));
      by rewrite ?recordFeatureAction_messages.
  - apply length_slice0.
  - unfold dmMessage. cbn [msg_imageUrl].
    destruct (negb _); [apply length_slice0|cbn; lia].
  - unfold dmMessage. cbn [coinsSent].
    destruct (Z.ltb_spec 0 c); lia.
Qed.

(** X17. A message without coins moves no coins: when the request
    [POST /dm/send] carries no positive coin count, the ledger and every
    balance are as before, whether the message is accepted or not. *)
Theorem dm_without_coins_moves_no_coins FM s t text imageUrl c now st :
  c <= 0 ->
  let st' := snd (post_dm_send FM s t text imageUrl c now st) in
  ledger st' = ledger st
  /\ forall k, coins <$> users st' !! k = coins <$> users st !! k.
Proof.
  intros Hc. cbv zeta.
  unfold post_dm_send, loadUser, findById, requireChatUnlocked.
  destruct (users st !! s) as [user|] eqn:Eu; [|done].
  destruct (negb (unlocked "chat" user)); [done|].
  destruct (_ && _); [done|].
  destruct (isBannedFromChat (bans user)); [done|].
  destruct (String.eqb t ""); [done|].
  destruct (findOne (Js.trim t) st) as [[tid target]|]; [|done].
  destruct (String.eqb _ _); [done|].
  destruct (negb (unlocked "chat" target)); [done|].
  destruct (_ && _); [done|].
  unfold dmTransfer. destruct (Z.ltb_spec 0 c) as [|_]; [lia|].
  cbn [fst snd].
  destruct (negb (String.eqb (Js.trim imageUrl) "")).
  - split.
    + by rewrite !recordFeatureAction_ledger.
    + intros k.
      rewrite !(recordFeatureAction_frame coins) by done. done.
  - split.
    + by rewrite recordFeatureAction_ledger.
    + intros k.
      rewrite (recordFeatureAction_frame coins) by done. done.
Qed.

Lemma dm_without_coins_moves_no_coins_witness :
  let st := storeOf [(1%nat, chatUser "alice" 500 false);
                     (2%nat, chatUser "bob" 0 false)] in
  let st' := snd (post_dm_send sampleMilestones 1 "bob" "hi" ""
                    (-5) 1000 st) in
  ledger st' = ledger st
  /\ forall k, coins <$> users st' !! k = coins <$> users st !! k.
Proof.
  cbv zeta.
  apply (dm_without_coins_moves_no_coins sampleMilestones 1 "bob" "hi" ""
           (-5) 1000). lia.
Defined.

(** ** Groups *)

Lemma existsb_filter_false {A} (p q : A -> bool) (l : list A) :
  existsb p l = false -> existsb p (List.filter q l) = false.
Proof.
  induction l as [|a l IH]; cbn [existsb List.filter]; [done|].
  intros H. apply orb_false_elim in H as [Ha Hl].
  destruct (q a); cbn [existsb]; [by rewrite Ha, IH|by apply IH].
Qed.

Lemma existsb_filter_true {A} (p q : A -> bool) (l : list A) :
  (forall a, p a = true -> q a = true) ->
  existsb p l = true -> existsb p (List.filter q l) = true.
Proof.
  intros Hpq. induction l as [|a l IH]; cbn [existsb List.filter]; [done|].
  intros H. apply orb_true_iff in H as [Ha|Hl].
  - rewrite (Hpq a Ha). cbn [existsb]. by rewrite Ha.
  - destruct (q a); cbn [existsb]; rewrite (IH Hl); by rewrite ?orb_true_r.
Qed.

Lemma NoDup_map_filter {A B} (f : A -> B) (q : A -> bool) (l : list A) :
  List.NoDup (List.map f l) -> List.NoDup (List.map f (List.filter q l)).
Proof.
  induction l as [|a l IH]; cbn [List.map List.filter]; [done|].
  intros H. apply NoDup_cons_iff in H as [Ha Hl].
  destruct (q a); cbn [List.map]; [|by apply IH].
  apply List.NoDup_cons; [|by apply IH].
  intros Hin. apply Ha. apply in_map_iff in Hin as (b & Hb & Hin).
  apply filter_In in Hin as [Hin _]. apply in_map_iff. by exists b.
Qed.

Lemma NoDup_snoc {A} (l : list A) (x : A) :
  List.NoDup l -> ~ In x l -> List.NoDup (l ++ [x]).
Proof.
  induction l as [|a l IH]; cbn [app]; intros Hn Hx.
  - apply List.NoDup_cons; [intros []|apply List.NoDup_nil].
  - apply NoDup_cons_iff in Hn as [Ha Hl]. apply List.NoDup_cons.
    + rewrite in_app_iff. intros [H|[H|[]]]; [done|].
      subst. apply Hx. by left.
    + apply IH; [done|]. intros H. apply Hx. by right.
Qed.

Lemma isMember_false_In x g :
  isMember x g = false -> ~ In x (List.map m_userId (members g)).
Proof.
  unfold isMember. intros H Hin. apply in_map_iff in Hin as (m & Hm & Hin).
  assert (existsb (fun m => (m_userId m =? x)%nat) (members g) = true).
  { apply existsb_exists. exists m. split; [done|]. by apply Nat.eqb_eq. }
  congruence.
Qed.

#[global] Instance sameGroup_refl : Reflexive sameGroup.
Proof. by intros g. Qed.

Lemma sameGroup_set g g' ms l :
  sameGroup g g' -> sameGroup g (set_members ms (set_invites l g')).
Proof. by intros (? & ? & ?). Qed.

(** One membership request keeps a private group closed to an account
    that is neither a member, nor invited, nor an admin. *)
Lemma closed_groupServe st q gs gid g x ux :
  isPublic g = false ->
  users st !! x = Some ux -> is_admin (role ux) = false ->
  invitation st g gid (username ux) q = false ->
  (exists g', gs !! gid = Some g' /\ sameGroup g g'
              /\ isMember x g' = false
              /\ includes (username ux) (invites g') = false) ->
  exists g', groupServe st q gs !! gid = Some g' /\ sameGroup g g'
             /\ isMember x g' = false
             /\ includes (username ux) (invites g') = false.
Proof.
  intros Hpriv Hx Hrole Hq (g' & Hg' & Hsame & Hmem & Hinv).
  assert (Hkeep : exists g'', gs !! gid = Some g'' /\ sameGroup g g''
                    /\ isMember x g'' = false
                    /\ includes (username ux) (invites g'') = false)
    by (by exists g').
  destruct Hsame as (Hpub & Hoid & Hown).
  destruct q as [s g0|s g0|s g0 n]; cbn [groupServe].
  - unfold post_groups_join, loadUser, findById.
    destruct (users st !! s) as [user|] eqn:Es; [|done].
    destruct (gs !! g0) as [group|] eqn:Eg; [|done].
    destruct (isMember s group) eqn:Em; [done|].
    destruct (negb (isPublic group)
              && negb (includes (username user) (invites group))
              && negb (is_admin (role user))) eqn:Ec; [done|].
    cbn [snd]. destruct (decide (g0 = gid)) as [->|Hne];
      [|by rewrite lookup_insert_ne].
    rewrite lookup_insert_eq. rewrite Hg' in Eg. injection Eg as <-.
    eexists. split; [done|]. split; [by apply sameGroup_set|].
    assert (Hsx : s <> x).
    { intros ->. rewrite Hx in Es. injection Es as <-.
      by rewrite Hpub, Hpriv, Hinv, Hrole in Ec. }
    split.
    + unfold isMember. cbn [members set_members]. rewrite existsb_app.
      fold (isMember x g'). rewrite Hmem. cbn.
      destruct (Nat.eqb_spec s x); [done|done].
    + cbn [invites set_members set_invites].
      rewrite Hpub, Hpriv. cbn [negb]. by apply existsb_filter_false.
  - unfold post_groups_leave, loadUser, findById.
    destruct (users st !! s) as [user|] eqn:Es; [|done].
    destruct (gs !! g0) as [group|] eqn:Eg; [|done].
    destruct (String.eqb _ _); [done|].
    cbn [snd]. destruct (decide (g0 = gid)) as [->|Hne];
      [|by rewrite lookup_insert_ne].
    rewrite lookup_insert_eq. rewrite Hg' in Eg. injection Eg as <-.
    eexists. split; [done|]. split; [done|]. split; [|done].
    unfold isMember. cbn [members set_members].
    by apply existsb_filter_false.
  - unfold post_groups_invite, loadUser, findById.
    destruct (users st !! s) as [user|] eqn:Es; [|done].
    destruct (gs !! g0) as [group|] eqn:Eg; [|done].
    destruct (negb (String.eqb (ownerUsername group) (username user))
              && negb (is_admin (role user))) eqn:Ea; [done|].
    destruct (String.eqb (Js.trim n) ""); [done|].
    destruct (findOne (Js.trim n) st); [|done].
    destruct (isPublic group); [done|].
    destruct (includes (Js.trim n) (invites group)); [done|].
    cbn [snd]. destruct (decide (g0 = gid)) as [->|Hne];
      [|by rewrite lookup_insert_ne].
    rewrite lookup_insert_eq. rewrite Hg' in Eg. injection Eg as <-.
    eexists. split; [done|]. split; [done|]. split; [done|].
    cbn [invites set_invites]. unfold includes. rewrite existsb_app.
    fold (includes (username ux) (invites g')). rewrite Hinv. cbn.
    rewrite orb_false_r. apply String.eqb_neq. intros Heq.
    cbn [invitation] in Hq. unfold mayInvite in Hq.
    rewrite Nat.eqb_refl, Es, <- Hown, Heq, String.eqb_refl in Hq.
    cbn [andb] in Hq. apply orb_false_elim in Hq as [H1 H2].
    by rewrite H1, H2 in Ea.
Qed.

(** X18. A private group stays closed. An account that is not an admin,
    not a member and not on the invitation list of a private group is
    still not a member after any sequence of join, leave and invite
    requests, by anyone and to any group, unless the owner or an admin
    invites it; and the group is still private. *)
Theorem private_group_needs_invitation st qs gs gid g x ux :
  gs !! gid = Some g ->
  isPublic g = false ->
  users st !! x = Some ux ->
  is_admin (role ux) = false ->
  isMember x g = false ->
  includes (username ux) (invites g) = false ->
  Forall (fun q => invitation st g gid (username ux) q = false) qs ->
  exists g', groupServeAll st qs gs !! gid = Some g'
             /\ isPublic g' = false
             /\ isMember x g' = false.
Proof.
  intros Hg Hpriv Hx Hrole Hmem Hinv Hqs.
  assert (Hgen : exists g', groupServeAll st qs gs !! gid = Some g'
                   /\ sameGroup g g' /\ isMember x g' = false
                   /\ includes (username ux) (invites g') = false).
  { unfold groupServeAll.
    assert (Hstart : exists g', gs !! gid = Some g' /\ sameGroup g g'
                       /\ isMember x g' = false
                       /\ includes (username ux) (invites g') = false)
      by (by exists g).
    clear Hg Hmem Hinv. revert gs Hstart.
    induction Hqs as [|q qs Hq _ IH]; intros gs Hstart; cbn [fold_left];
      [done|].
    apply IH. by eapply closed_groupServe. }
  destruct Hgen as (g' & Hg' & (Hpub & _) & Hm & _).
  exists g'. split; [done|]. split; [congruence|done].
Qed.

Lemma private_group_needs_invitation_witness :
  let st := storeOf [(1%nat, mkUser "olga" 0 RoleMod 3 (mkBans false false)
                               [] [] 0 ∅ ∅);
                     (2%nat, chatUser "bob" 0 false);
                     (3%nat, chatUser "eve" 0 false)] in
  let g := mkGroup "crew" "" false 1 "olga" [mkMember 1 "olga" "owner"] [] in
  let gs : gmap nat Group := {[ 7%nat := g ]} in
  let qs := [Join 3 7; Invite 3 7 "eve"; Invite 1 7 "bob"; Join 2 7;
             Invite 2 7 " eve "; Join 3 7; Leave 2 7] in
  exists g', groupServeAll st qs gs !! 7%nat = Some g'
             /\ isPublic g' = false
             /\ isMember 3 g' = false.
Proof.
  intros st g gs qs.
  apply (private_group_needs_invitation st qs gs 7 g 3 (chatUser "eve" 0 false)).
  - reflexivity.
  - reflexivity.
  - vm_compute. reflexivity.
  - reflexivity.
  - reflexivity.
  - reflexivity.
  - repeat constructor.
Defined.

(** One membership request keeps the member ids distinct and the owner
    among them. *)
Lemma sound_groupServe st q gs gid g :
  (forall u, users st !! ownerUserId g = Some u ->
             username u = ownerUsername g) ->
  (exists g', gs !! gid = Some g' /\ sameGroup g g' /\ soundGroup g') ->
  exists g', groupServe st q gs !! gid = Some g' /\ sameGroup g g'
             /\ soundGroup g'.
Proof.
  intros Hname (g' & Hg' & Hsame & Hnd & Hown).
  assert (Hkeep : exists g'', gs !! gid = Some g'' /\ sameGroup g g''
                              /\ soundGroup g'')
    by (by exists g').
  destruct q as [s g0|s g0|s g0 n]; cbn [groupServe].
  - unfold post_groups_join, loadUser, findById.
    destruct (users st !! s) as [user|] eqn:Es; [|done].
    destruct (gs !! g0) as [group|] eqn:Eg; [|done].
    destruct (isMember s group) eqn:Em; [done|].
    destruct (_ && _); [done|].
    cbn [snd]. destruct (decide (g0 = gid)) as [->|Hne];
      [|by rewrite lookup_insert_ne].
    rewrite lookup_insert_eq. rewrite Hg' in Eg. injection Eg as <-.
    eexists. split; [done|]. split; [by apply sameGroup_set|]. split.
    + cbn [members set_members]. rewrite List.map_app. cbn [List.map m_userId].
      apply NoDup_snoc; [done|]. by apply isMember_false_In.
    + unfold isMember. cbn [members set_members ownerUserId set_invites].
      rewrite existsb_app. fold (isMember (ownerUserId g') g').
      by rewrite Hown.
  - unfold post_groups_leave, loadUser, findById.
    destruct (users st !! s) as [user|] eqn:Es; [|done].
    destruct (gs !! g0) as [group|] eqn:Eg; [|done].
    destruct (String.eqb_spec (ownerUsername group) (username user))
      as [|Hnot]; [done|].
    cbn [snd]. destruct (decide (g0 = gid)) as [->|Hne];
      [|by rewrite lookup_insert_ne].
    rewrite lookup_insert_eq. rewrite Hg' in Eg. injection Eg as <-.
    eexists. split; [done|]. split; [done|]. split.
    + cbn [members set_members]. by apply NoDup_map_filter.
    + unfold isMember. cbn [members set_members ownerUserId].
      apply existsb_filter_true; [|exact Hown].
      intros m Hm. apply Nat.eqb_eq in Hm. rewrite Hm.
      destruct (Nat.eqb_spec (ownerUserId g') s) as [He|]; [|done].
      destruct Hsame as (_ & Hoid & Hou). destruct Hnot.
      rewrite Hou. symmetry. apply Hname. by rewrite <- Hoid, He.
  - unfold post_groups_invite, loadUser, findById.
    destruct (users st !! s) as [user|] eqn:Es; [|done].
    destruct (gs !! g0) as [group|] eqn:Eg; [|done].
    destruct (_ && _); [done|].
    destruct (String.eqb (Js.trim n) ""); [done|].
    destruct (findOne (Js.trim n) st); [|done].
    destruct (isPublic group); [done|].
    destruct (includes (Js.trim n) (invites group)); [done|].
    cbn [snd]. destruct (decide (g0 = gid)) as [->|Hne];
      [|by rewrite lookup_insert_ne].
    rewrite lookup_insert_eq. rewrite Hg' in Eg. injection Eg as <-.
    eexists. split; [done|]. split; [done|]. by split.
Qed.

(** X19. Members are listed once and the owner stays. If the member ids
    of a group are distinct and its owner is a member, then both still
    hold after any sequence of join, leave and invite requests, provided
    the owner's account still carries the name the group records: nobody
    joins twice, and the owner cannot leave. *)
Theorem group_members_distinct_owner_stays st qs gs gid g :
  gs !! gid = Some g ->
  soundGroup g ->
  (forall u, users st !! ownerUserId g = Some u ->
             username u = ownerUsername g) ->
  exists g', groupServeAll st qs gs !! gid = Some g'
             /\ ownerUserId g' = ownerUserId g
             /\ soundGroup g'.
Proof.
  intros Hg Hsound Hname.
  assert (Hgen : exists g', groupServeAll st qs gs !! gid = Some g'
                            /\ sameGroup g g' /\ soundGroup g').
  { unfold groupServeAll.
    assert (Hstart : exists g', gs !! gid = Some g' /\ sameGroup g g'
                                /\ soundGroup g')
      by (by exists g).
    clear Hg Hsound. revert gs Hstart.
    induction qs as [|q qs IH]; intros gs Hstart; cbn [fold_left]; [done|].
    apply IH. by eapply sound_groupServe. }
  destruct Hgen as (g' & Hg' & (_ & Hoid & _) & Hs).
  by exists g'.
Qed.

Lemma group_members_distinct_owner_stays_witness :
  let st0 := storeOf [(1%nat, mkUser "olga" 0 RoleMod 3 (mkBans false false)
                                [] [] 0 ∅ (list_to_map [("createGroup", true)]));
                      (2%nat, chatUser "bob" 0 false)] in
  let r := post_groups_create sampleMilestones 1 " crew " "" None st0 ∅ in
  let st := fst (snd r) in
  let gs := snd (snd r) in
  let g := mkGroup "crew" "" true 1 "olga" [mkMember 1 "olga" "owner"] [] in
  let qs := [Join 2 0; Join 2 0; Join 1 0; Leave 1 0; Leave 2 0; Join 2 0] in
  exists g', groupServeAll st qs gs !! 0%nat = Some g'
             /\ ownerUserId g' = ownerUserId g
             /\ soundGroup g'.
Proof.
  intros st0 r st gs g qs.
  apply (group_members_distinct_owner_stays st qs gs 0 g).
  - vm_compute. reflexivity.
  - split.
    + cbn. apply List.NoDup_cons; [intros []|apply List.NoDup_nil].
    + reflexivity.
  - intros u Hu. vm_compute in Hu. injection Hu as <-. reflexivity.
Defined.

(** X20. What creating a group needs and leaves. A rejected request
    [POST /create] changes neither accounts nor groups. An accepted one
    comes from a moderator or admin of level 3 or more who unlocked group
    creation, and adds one group under an id no group had, leaving the
    others as they were: its name has 3 to 40 UTF-16 code units (its
    [.length]), its sender is the owner and the only member, nobody is
    invited, and every account keeps its balance. *)
Theorem group_create_contract FM s name0 description0 isPublic0 st gs :
  let r := post_groups_create FM s name0 description0 isPublic0 st gs in
  match fst r with
  | Error _ _ => snd r = (st, gs)
  | Ok =>
      exists user gid g,
        users st !! s = Some user
        /\ requireModOrAdmin user = true
        /\ unlocked "createGroup" user = true
        /\ 3 <= level user
        /\ gs !! gid = None
        /\ snd (snd r) = <[gid := g]> gs
        /\ (3 <= Js.length (g_name g) <= 40)%nat
        /\ ownerUserId g = s
        /\ ownerUsername g = username user
        /\ members g = [mkMember s (username user) "owner"]
        /\ invites g = []
        /\ soundGroup g
        /\ (forall k, coins <$> users (fst (snd r)) !! k
                      = coins <$> users st !! k)
  end.
Proof.
  cbv zeta. unfold post_groups_create, loadUser, findById,
    requireCreateGroupUnlocked.
  destruct (users st !! s) as [user|] eqn:Eu; [|done].
  destruct (requireModOrAdmin user) eqn:Em; cbn [negb]; [|done].
  destruct (unlocked "createGroup" user) eqn:Ec; cbn [negb]; [|done].
  destruct (Z.ltb_spec (level user) 3) as [|Hl]; [done|].
  destruct (String.eqb (Js.trim name0) ""
            || (Js.length (Js.trim name0) <? 3)%nat
            || (40 <? Js.length (Js.trim name0))%nat) eqn:En; [done|].
  apply orb_false_elim in En as [En Hhi].
  apply orb_false_elim in En as [_ Hlo].
  apply Nat.ltb_ge in Hlo. apply Nat.ltb_ge in Hhi.
  cbn [fst snd]. exists user, (fresh (dom gs)). eexists.
  split; [done|]. split; [done|]. split; [done|]. split; [done|].
  split; [apply not_elem_of_dom, is_fresh|].
  split; [reflexivity|]. cbn [g_name ownerUserId ownerUsername members invites].
  split; [lia|]. split; [done|]. split; [done|]. split; [done|].
  split; [done|]. split.
  - split.
    + cbn. apply List.NoDup_cons; [intros []|apply List.NoDup_nil].
    + unfold isMember. cbn. by rewrite Nat.eqb_refl.
  - intros k. by rewrite (recordFeatureAction_frame coins).
Qed.

(** ** The direct-message history *)

#[global] Instance sameProfile_refl : Reflexive sameProfile.
Proof. by intros u. Qed.

#[global] Instance sameProfile_trans : Transitive sameProfile.
Proof. intros u v w [H1 H2] [H3 H4]. split; congruence. Qed.

Lemma findOne_unique st name k u :
  uniqueNames st -> users st !! k = Some u -> username u = name ->
  findOne name st = Some (k, u).
Proof.
  intros Huniq Hu Hn. destruct (findOne name st) as [[k' u']|] eqn:Ef.
  - destruct (findOne_Some _ _ _ _ Ef) as [Hu' Hn'].
    assert (k' = k) as -> by (apply (Huniq k' k u' u); congruence).
    congruence.
  - unfold findOne in Ef.
    assert (Hin : In (k, u) (map_to_list (users st)))
      by by apply list_elem_of_In, elem_of_map_to_list.
    pose proof (find_none _ _ Ef _ Hin) as Hf. cbn [snd] in Hf.
    rewrite Hn, String.eqb_refl in Hf. done.
Qed.

Lemma uniqueNames_sameProfile st st' :
  usersRel sameProfile st st' -> uniqueNames st -> uniqueNames st'.
Proof.
  intros H Huniq k1 k2 u1 u2 H1 H2 Hn.
  destruct (usersRel_lookup_rev _ _ _ _ _ H H1) as (v1 & Hv1 & Hp1 & _).
  destruct (usersRel_lookup_rev _ _ _ _ _ H H2) as (v2 & Hv2 & Hp2 & _).
  apply (Huniq k1 k2 v1 v2); congruence.
Qed.

Lemma sameProfile_recordFeatureAction FM uid f k d st :
  usersRel sameProfile st (snd (recordFeatureAction FM uid f k d st)).
Proof.
  eapply usersRel_impl; [|apply fields_recordFeatureAction].
  by intros u u' (Hn & _ & _ & _ & _ & _ & Hu).
Qed.

Lemma sameProfile_dmTransfer s tid user target c now st st1 :
  dmTransfer s tid user target c now st = inr st1 ->
  usersRel sameProfile st st1.
Proof.
  unfold dmTransfer.
  destruct (0 <? c); [|intros [= <-]; apply usersRel_refl, _].
  destruct (isBannedFromCoins (bans user)); [done|].
  destruct (coins user <? c); [done|]. intros [= <-].
  intros k. cbn [users createTx].
  assert (H1 : usersRel sameProfile st
                 (save s (set_coins (Js.sub (coins user) c)) st))
    by (apply usersRel_save; [apply _|done]).
  destruct (negb (isBannedFromCoins (bans target))); [|apply H1].
  eapply usersRel_trans; [apply _..|exact H1|].
  apply usersRel_save; [apply _|done].
Qed.

(** What an accepted [POST /dm/send] tells about the request and leaves
    in the store. *)
Lemma post_dm_send_Ok FM s t text imageUrl c now st st' :
  post_dm_send FM s t text imageUrl c now st = (Ok, st') ->
  exists user tid target,
    users st !! s = Some user
    /\ findOne (Js.trim t) st = Some (tid, target)
    /\ unlocked "chat" user = true
    /\ unlocked "chat" target = true
    /\ messages st' = (messages st ++ [dmMessage s tid text imageUrl c])%list
    /\ usersRel sameProfile st st'.
Proof.
  unfold post_dm_send, loadUser, findById, requireChatUnlocked.
  destruct (users st !! s) as [user|] eqn:Eu; [|done].
  destruct (unlocked "chat" user) eqn:Ec; cbn [negb]; [|done].
  destruct (_ && negb (unlocked "imageUpload" user)); [done|].
  destruct (isBannedFromChat (bans user)); [done|].
  destruct (String.eqb t ""); [done|].
  destruct (findOne (Js.trim t) st) as [[tid target]|] eqn:Ef; [|done].
  destruct (String.eqb (username target) (username user)); [done|].
  destruct (unlocked "chat" target) eqn:Et; cbn [negb]; [|done].
  destruct (_ && (level user <? 2)); [done|].
  destruct (dmTransfer s tid user target c now st) as [resp|st1] eqn:Ed.
  { unfold dmTransfer in Ed. destruct (0 <? c); [|done].
    destruct (isBannedFromCoins (bans user)); [by injection Ed as <-|].
    destruct (coins user <? c); [by injection Ed as <-|done]. }
  intros [= <-]. exists user, tid, target.
  split; [done|]. split; [done|]. split; [done|]. split; [done|].
  pose proof (sameProfile_dmTransfer _ _ _ _ _ _ _ _ Ed) as H1.
  pose proof (dmTransfer_messages _ _ _ _ _ _ _ _ Ed) as Hm.
  set (st2 := mkStore (users st1) _ _).
  assert (H2 : usersRel sameProfile st st2) by (intros k; apply H1).
  assert (H3 : usersRel sameProfile st
                 (snd (recordFeatureAction FM s "chat" "dmMessagesSent" 1 st2)))
    by (eapply usersRel_trans;
          [apply _..|exact H2|apply sameProfile_recordFeatureAction]).
  assert (Hm2 : messages st2
                = (messages st ++ [dmMessage s tid text imageUrl c])%list)
    by (unfold st2, dmMessage; cbn [messages]; by rewrite Hm).
  destruct (negb (String.eqb (Js.trim imageUrl) "")).
  - split; [by rewrite !recordFeatureAction_messages|].
    eapply usersRel_trans;
      [apply _..|exact H3|apply sameProfile_recordFeatureAction].
  - split; [by rewrite recordFeatureAction_messages|done].
Qed.

Lemma get_dm_history_Some s t st user tid target :
  users st !! s = Some user ->
  unlocked "chat" user = true ->
  Js.trim t <> "" ->
  findOne (Js.trim t) st = Some (tid, target) ->
  unlocked "chat" target = true ->
  get_dm_history s t st = inr (firstn 200 (conversation s tid st)).
Proof.
  intros Hu Hc Ht Hf Htc.
  unfold get_dm_history, loadUser, findById, requireChatUnlocked.
  rewrite Hu, Hc. cbn [negb].
  destruct (String.eqb_spec (Js.trim t) ""); [done|].
  by rewrite Hf, Htc.
Qed.

(** X21. The history shows the first 200 messages. When no two accounts
    share a name, after an accepted [POST /dm/send] the sender's
    [GET /dm/history] with the same name returns the first 200 messages
    the two accounts exchanged, oldest first, the new message last of
    all: the new message is there when they had exchanged fewer than 200,
    and otherwise the history is what it was before the message. *)
Theorem dm_history_shows_first_200 FM s t text imageUrl c now st st' :
  uniqueNames st ->
  Js.trim t <> "" ->
  post_dm_send FM s t text imageUrl c now st = (Ok, st') ->
  exists tid,
    let conv := conversation s tid st in
    let m := dmMessage s tid text imageUrl c in
    get_dm_history s t st = inr (firstn 200 conv)
    /\ get_dm_history s t st' = inr (firstn 200 (conv ++ [m]))
    /\ ((length conv < 200)%nat ->
        get_dm_history s t st' = inr (conv ++ [m])%list)
    /\ ((200 <= length conv)%nat ->
        get_dm_history s t st' = get_dm_history s t st).
Proof.
  intros Huniq Ht Hsend.
  destruct (post_dm_send_Ok _ _ _ _ _ _ _ _ _ Hsend)
    as (user & tid & target & Hu & Hf & Hc & Htc & Hm & Hrel).
  exists tid. cbv zeta.
  destruct (findOne_Some _ _ _ _ Hf) as [Htg Hname].
  destruct (usersRel_lookup _ _ _ _ _ Hrel Hu) as (user' & Hu' & _ & Hun).
  destruct (usersRel_lookup _ _ _ _ _ Hrel Htg) as (target' & Htg' & Hn' & Hun').
  assert (Hbefore : get_dm_history s t st
                    = inr (firstn 200 (conversation s tid st)))
    by by eapply get_dm_history_Some.
  assert (Hafter : get_dm_history s t st'
                   = inr (firstn 200 (conversation s tid st'))).
  { eapply get_dm_history_Some; [exact Hu'| |done| |].
    - unfold unlocked in *. by rewrite Hun.
    - apply findOne_unique; [by eapply uniqueNames_sameProfile|done|congruence].
    - unfold unlocked in *. by rewrite Hun'. }
  assert (Hconv : conversation s tid st'
                  = (conversation s tid st
                       ++ [dmMessage s tid text imageUrl c])%list).
  { unfold conversation. rewrite Hm, List.filter_app. f_equal.
    cbn [List.filter]. unfold between, dmMessage. cbn [msg_from msg_to].
    by rewrite !Nat.eqb_refl. }
  rewrite Hconv in Hafter.
  split; [done|]. split; [done|]. split.
  - intros Hlt. rewrite Hafter. f_equal. apply firstn_all2.
    rewrite List.length_app. cbn [length]. lia.
  - intros Hge. rewrite Hafter, Hbefore. f_equal.
    rewrite List.firstn_app.
    replace (200 - length (conversation s tid st))%nat with 0%nat by lia.
    cbn [firstn]. by rewrite app_nil_r.
Qed.

Lemma dm_history_shows_first_200_witness :
  let st := storeOf [(1%nat, chatUser "alice" 500 false);
                     (2%nat, chatUser "bob" 0 false)] in
  let st' := snd (post_dm_send sampleMilestones 1 "bob" "hi" "" 0 1000 st) in
  exists tid,
    let conv := conversation 1 tid st in
    let m := dmMessage 1 tid "hi" "" 0 in
    get_dm_history 1 "bob" st = inr (firstn 200 conv)
    /\ get_dm_history 1 "bob" st' = inr (firstn 200 (conv ++ [m]))
    /\ ((length conv < 200)%nat ->
        get_dm_history 1 "bob" st' = inr (conv ++ [m])%list)
    /\ ((200 <= length conv)%nat ->
        get_dm_history 1 "bob" st' = get_dm_history 1 "bob" st).
Proof.
  intros st st'.
  apply (dm_history_shows_first_200 sampleMilestones 1 "bob" "hi" "" 0 1000
           st st').
  - intros k1 k2 u1 u2 H1 H2 Hn.
    unfold st, storeOf in H1, H2.
    cbn [users list_to_map foldr uncurry fst snd] in H1, H2.
    destruct (decide (k1 = 1%nat)) as [->|N1];
      destruct (decide (k2 = 1%nat)) as [->|N2]; [done| | |].
    + rewrite lookup_insert_eq in H1. rewrite lookup_insert_ne in H2 by done.
      destruct (decide (k2 = 2%nat)) as [->|M2].
      * rewrite lookup_insert_eq in H2. injection H1 as <-.
        injection H2 as <-. discriminate.
      * rewrite lookup_insert_ne in H2 by done. by rewrite lookup_empty in H2.
    + rewrite lookup_insert_eq in H2. rewrite lookup_insert_ne in H1 by done.
      destruct (decide (k1 = 2%nat)) as [->|M1].
      * rewrite lookup_insert_eq in H1. injection H1 as <-.
        injection H2 as <-. discriminate.
      * rewrite lookup_insert_ne in H1 by done. by rewrite lookup_empty in H1.
    + rewrite lookup_insert_ne in H1, H2 by done.
      destruct (decide (k1 = 2%nat)) as [->|M1];
        destruct (decide (k2 = 2%nat)) as [->|M2]; [done| | |].
      * rewrite lookup_insert_ne in H2 by done. by rewrite lookup_empty in H2.
      * rewrite lookup_insert_ne in H1 by done. by rewrite lookup_empty in H1.
      * rewrite lookup_insert_ne in H1 by done. by rewrite lookup_empty in H1.
  - discriminate.
  - vm_compute. reflexivity.
Defined.

(** ** The transaction list *)

Lemma sortDesc_newest (x : CoinTransaction) (l : list CoinTransaction) :
  Forall (fun tx => createdAt tx < createdAt x) l ->
  sortDesc (l ++ [x]) = x :: sortDesc l.
Proof.
  unfold sortDesc. rewrite fold_right_app. cbn [fold_right insertDesc].
  induction 1 as [|a l Ha _ IH]; cbn [fold_right]; [done|].
  rewrite IH. cbn [insertDesc].
  destruct (Z.ltb_spec (createdAt x) (createdAt a)); [lia|done].
Qed.

Lemma get_transactions_me_newest k st st' tx u' :
  users st' !! k = Some u' ->
  ledger st' = (ledger st ++ [tx])%list ->
  involves k tx = true ->
  Forall (fun old => createdAt old < createdAt tx) (ledger st) ->
  exists rest, get_transactions_me k st' = inr (tx :: rest).
Proof.
  intros Hu Hl Hinv Hold. unfold get_transactions_me, loadUser, findById.
  rewrite Hu, Hl, List.filter_app. cbn [List.filter]. rewrite Hinv.
  rewrite sortDesc_newest.
  - cbn [firstn]. by eexists.
  - apply List.Forall_forall. intros old Hin. apply filter_In in Hin as [Hin _].
    by apply (proj1 (List.Forall_forall _ _) Hold).
Qed.

(** X22. A transfer heads both lists. When an accepted [POST /transfer]
    is newer than every entry of the ledger, its entry is the first item
    of the transaction list ([GET /me]) of the sender and of the
    recipient, whether or not the recipient was credited. *)
Theorem transfer_heads_both_lists s t amt now st st' :
  post_transfer s t amt now st = (Ok, st') ->
  Forall (fun old => createdAt old < now) (ledger st) ->
  exists user tid target,
    users st !! s = Some user
    /\ findOne (Js.trim t) st = Some (tid, target)
    /\ let tx := mkTx tx_transfer (Some s) (Some (username user))
                      (Some tid) (Some (username target)) amt
                      "User transfer" now in
       (exists rest, get_transactions_me s st' = inr (tx :: rest))
       /\ (exists rest, get_transactions_me tid st' = inr (tx :: rest)).
Proof.
  intros Hsend Hold.
  destruct (post_transfer_Ok _ _ _ _ _ _ Hsend)
    as (user & tid & target & Hu & _ & _ & _ & _ & Hf & _ & _ & Hl).
  exists user, tid, target. split; [done|]. split; [done|]. cbv zeta.
  destruct (findOne_Some _ _ _ _ Hf) as [Ht _].
  pose proof (evolves_post_transfer s t amt now st) as Hrel.
  rewrite Hsend in Hrel. cbn [snd] in Hrel.
  destruct (usersRel_lookup _ _ _ _ _ Hrel Hu) as (user' & Hu' & _).
  destruct (usersRel_lookup _ _ _ _ _ Hrel Ht) as (target' & Ht' & _).
  split.
  - eapply get_transactions_me_newest; [exact Hu'|exact Hl| |done].
    unfold involves. cbn [fromUserId]. by rewrite bool_decide_eq_true_2.
  - eapply get_transactions_me_newest; [exact Ht'|exact Hl| |done].
    unfold involves. cbn [toUserId].
    rewrite (bool_decide_eq_true_2 (Some tid = Some tid)) by done.
    by rewrite orb_true_r.
Qed.

Lemma transfer_heads_both_lists_witness :
  let st := busyStore in
  let st' := snd (post_transfer 1 "bob" 1 90000000 st) in
  exists user tid target,
    users st !! 1%nat = Some user
    /\ findOne (Js.trim "bob") st = Some (tid, target)
    /\ let tx := mkTx tx_transfer (Some 1%nat) (Some (username user))
                      (Some tid) (Some (username target)) 1
                      "User transfer" 90000000 in
       (exists rest, get_transactions_me 1 st' = inr (tx :: rest))
       /\ (exists rest, get_transactions_me tid st' = inr (tx :: rest)).
Proof.
  intros st st'.
  apply (transfer_heads_both_lists 1 "bob" 1 90000000 st st').
  - vm_compute. reflexivity.
  - unfold st, busyStore. cbn [ledger]. apply Forall_forall.
    intros old Hin. apply list_elem_of_In, repeat_spec in Hin as ->.
    cbn. lia.
Defined.
